(** * Recursion into other modules (nuitka/importing/Recursion.py)

    A shallow embedding of the module recursion engine of the compiler:
    the decision function [decideRecursion], the recursion driver
    [recurseTo], the consumer of import edges [considerUsedModules] and
    the inclusion walker [checkPluginSinglePath], [_addIncludedModule],
    [checkPluginFilenamePattern], together with the properties the
    design document states about them. *)

From Stdlib Require Import String Ascii List Bool Arith Lia.
From stdpp Require Import base option strings gmap list.
Import ListNotations.
Local Open Scope string_scope.
Local Open Scope list_scope.

(** ** Strings as Python uses them *)

Module PyStr.

(** [s.endswith(suffix)] *)
Definition endswith (s suffix : string) : bool :=
  let n := String.length s in
  let k := String.length suffix in
  (k <=? n)%nat && String.eqb (substring (n - k) k s) suffix.

(** [s.startswith(prefix)] *)
Definition startswith (s pre : string) : bool := String.prefix pre s.

(** Cut [s] at the last occurrence of [c]: [s[:s.rfind(c)]] and
    [s[s.rfind(c)+1:]], or [None] when [c] does not occur. *)
Fixpoint rsplit_char (c : ascii) (s : string) : option (string * string) :=
  match s with
  | EmptyString => None
  | String a r =>
      match rsplit_char c r with
      | Some (h, t) => Some (String a h, t)
      | None => if Ascii.eqb a c then Some (EmptyString, r) else None
      end
  end.

(** [s.split(c)] *)
Fixpoint split_char (c : ascii) (s : string) : list string :=
  match s with
  | EmptyString => [EmptyString]
  | String a r =>
      if Ascii.eqb a c then EmptyString :: split_char c r
      else match split_char c r with
           | [] => [String a EmptyString]
           | w :: ws => String a w :: ws
           end
  end.

(** [sep.join(parts)] *)
Fixpoint join (sep : string) (parts : list string) : string :=
  match parts with
  | [] => EmptyString
  | [p] => p
  | p :: ps => p +:+ sep +:+ join sep ps
  end.

(** Every character of [s] is [c]; true of the empty string. *)
Fixpoint all_char (c : ascii) (s : string) : bool :=
  match s with
  | EmptyString => true
  | String a r => Ascii.eqb a c && all_char c r
  end.

(** [s.rstrip(c)] for a single character [c]. *)
Fixpoint rstrip_char (c : ascii) (s : string) : string :=
  match s with
  | EmptyString => EmptyString
  | String a r =>
      match rstrip_char c r with
      | EmptyString => if Ascii.eqb a c then EmptyString else String a EmptyString
      | r' => String a r'
      end
  end.

Definition is_empty (s : string) : bool :=
  match s with EmptyString => true | _ => false end.

Definition is_nil {A} (l : list A) : bool :=
  match l with [] => true | _ => false end.

End PyStr.

(** ** [os.path] on a POSIX system

  The functions of Python's [posixpath] that the module calls on path
  strings.  The current directory is the only input from the outside. *)

Module OsPath.
Import PyStr.

Definition sep : ascii := "/"%char.

Definition basename (p : string) : string :=
  match rsplit_char sep p with
  | Some (_, t) => t
  | None => p
  end.

Definition dirname (p : string) : string :=
  match rsplit_char sep p with
  | None => EmptyString
  | Some (h, _) =>
      let head := h +:+ "/" in
      if negb (all_char sep head) then rstrip_char sep head else head
  end.

Definition isabs (p : string) : bool := startswith p "/".

Definition join (a b : string) : string :=
  if startswith b "/" then b
  else if is_empty a || endswith a "/" then a +:+ b
  else a +:+ "/" +:+ b.

(** The loop of [normpath] over the components, [new_comps] kept in
    reverse. *)
Fixpoint norm_comps (initial_slashes : nat) (comps : list string)
         (rev_new : list string) : list string :=
  match comps with
  | [] => rev rev_new
  | comp :: rest =>
      if is_empty comp || String.eqb comp "." then
        norm_comps initial_slashes rest rev_new
      else if negb (String.eqb comp "..")
              || ((initial_slashes =? 0)%nat && is_nil rev_new)
              || match rev_new with
                 | last :: _ => String.eqb last ".."
                 | [] => false
                 end
      then norm_comps initial_slashes rest (comp :: rev_new)
      else match rev_new with
           | _ :: popped => norm_comps initial_slashes rest popped
           | [] => norm_comps initial_slashes rest rev_new
           end
  end.

Definition normpath (path : string) : string :=
  if is_empty path then "."
  else
    let initial_slashes :=
      if startswith path "/" then
        if startswith path "//" && negb (startswith path "///") then 2 else 1
      else 0 in
    let comps := norm_comps initial_slashes (split_char sep path) [] in
    let body := PyStr.join "/" comps in
    let res :=
      match initial_slashes with
      | 0 => body
      | 1 => "/" +:+ body
      | _ => "//" +:+ body
      end in
    if is_empty res then "." else res.

Definition abspath (cwd path : string) : string :=
  normpath (if isabs path then path else join cwd path).

End OsPath.


(** ** Data model *)

(** The kind of a module file: the strings ["py"], ["pyc"] and
    ["extension"] of the program.  A kind that is [None] in the program is
    [None] here. *)
Inductive ModuleKind := py | pyc | extension.

#[global] Instance ModuleKind_eq_dec : EqDecision ModuleKind.
Proof. solve_decision. Defined.

#[global] Instance ModuleKind_countable : Countable ModuleKind.
Proof.
  refine (inj_countable'
            (fun k => match k with py => 0 | pyc => 1 | extension => 2 end)
            (fun n => match n with 0 => py | 1 => pyc | _ => extension end) _).
  intros []; reflexivity.
Defined.

(** A decision is Python's [True], [False] or [None]: include, exclude,
    undecided. *)
Definition Decision := option bool.

Definition Include : Decision := Some true.
Definition Exclude : Decision := Some false.
Definition Undecided : Decision := None.

(** Truth value of a decision in [if decision:]. *)
Definition decision_truth (d : Decision) : bool :=
  match d with Some true => true | _ => false end.

(** [module_kind == "extension"] *)
Definition is_extension_kind (module_kind : option ModuleKind) : bool :=
  bool_decide (module_kind = Some extension).

(** The node classes [_addIncludedModule] tells apart. *)
Inductive ModuleClass :=
| CompiledPythonPackage
| UncompiledPythonPackage
| CompiledPythonModule
| UncompiledPythonModule
| PythonExtensionModule
| OtherNode.

(** One import edge of a module, an element of [module.getUsedModules()]. *)
Record UsedModule := mkUsedModule {
  um_module_name : string;
  um_filename : option string;
  um_module_kind : option ModuleKind;
  um_finding : string;
  um_level : nat;
  um_source_ref : string
}.

(** A built module as far as the recursion looks at it. *)
Record Module := mkModule {
  getFullName : string;
  getFilename : string;
  node_class : ModuleClass;
  getSourceReference : string;
  getUsedModules : list UsedModule;
  module_repr : string
}.

Definition isCompiledPythonPackage (m : Module) : bool :=
  match node_class m with CompiledPythonPackage => true | _ => false end.
Definition isUncompiledPythonPackage (m : Module) : bool :=
  match node_class m with UncompiledPythonPackage => true | _ => false end.
Definition isCompiledPythonModule (m : Module) : bool :=
  match node_class m with CompiledPythonModule => true | _ => false end.
Definition isUncompiledPythonModule (m : Module) : bool :=
  match node_class m with UncompiledPythonModule => true | _ => false end.
Definition isPythonExtensionModule (m : Module) : bool :=
  match node_class m with PythonExtensionModule => true | _ => false end.

(** Truth value of a module object in [if module:]; module nodes define
    neither [__bool__] nor [__len__]. *)
Definition module_truth (m : Module) : bool := true.

(** ** Module names *)

Module ModuleName.

(** Modelled from the spec: nuitka/utils/ModuleNames.py is not among the
    sources; a name is a dotted identifier, its basename is the part after
    the last dot and its package name the part before it, absent for a
    top-level name. *)
Definition splitModuleBasename (name : string) : option string * string :=
  match PyStr.rsplit_char "."%char name with
  | Some (package_part, module_name) => (Some package_part, module_name)
  | None => (None, name)
  end.

Definition getPackageName (name : string) : option string :=
  fst (splitModuleBasename name).

Definition getBasename (name : string) : string :=
  snd (splitModuleBasename name).

(** Modelled from the spec: [makeModuleNameInPackage] of the absent
    nuitka/utils/ModuleNames.py puts a name below a package when one is
    given. *)
Definition makeModuleNameInPackage (module_name : string)
           (package_name : option string) : string :=
  match package_name with
  | Some pkg => pkg +:+ "." +:+ module_name
  | None => module_name
  end.

(** Modelled from the spec: [matchesToShellPatterns] of the absent
    nuitka/utils/ModuleNames.py matches the name against an ordered list of
    shell patterns; the first pattern that matches decides and gives the
    reason text.  The match of one pattern is [matcher]. *)
Fixpoint matchesToShellPatterns (matcher : string -> string -> option string)
         (name : string) (patterns : list string) : option string :=
  match patterns with
  | [] => None
  | pattern :: rest =>
      match matcher name pattern with
      | Some reason => Some reason
      | None => matchesToShellPatterns matcher name rest
      end
  end.

End ModuleName.

(** ** Effects: exceptions, a session state and a log *)

Inductive Exn :=
| NuitkaForbiddenImportEncounter (forbidden avoided : string)
| SystemExit (message : string)
| AssertionError (message : string)
| TypeError (message : string)
| RecursionError.

Inductive Outcome (A : Type) :=
| Normal (a : A)
| Raised (e : Exn).
Arguments Normal {A} a.
Arguments Raised {A} e.

(** What a run does, in the order it happens: the lines of the logger, the
    calls of the collaborators (the import warning, the recursion hook, the
    builder, the signal callback, the module registry), and the entries
    into [checkPluginSinglePath] with the arguments of the call. *)
Inductive Event :=
| LogInfo (message : string)
| LogWarning (message : string)
| WarnAbout (importing source_ref module_name : string) (level : nat)
| CallOnModuleRecursion (module_filename module_name : string)
    (module_kind : option ModuleKind) (using_module_name source_ref : option string)
| CallBuildModule (module_filename module_name : string) (is_extension : bool)
| SignalChange (tag source_ref reason : string)
| AddUsedModule (module using_module usage_tag reason source_ref : string)
| AddRootModule (module : string)
| EnterCheckPluginSinglePath (plugin_filename : string) (module_package : option string).

Definition DecisionKey : Type := string * string * option ModuleKind * bool.

(** The two module-level dictionaries: [ImportCache.imported_modules] and
    [_recursion_decision_cache]. *)
Record Session := mkSession {
  imported_modules : gmap (string * string) Module;
  recursion_decision_cache : gmap DecisionKey (Decision * string)
}.

Definition empty_session : Session :=
  {| imported_modules := ∅; recursion_decision_cache := ∅ |}.

Definition M (A : Type) : Type := Session -> Outcome A * Session * list Event.

Definition ret {A} (a : A) : M A := fun s => (Normal a, s, []).

Definition raise {A} (e : Exn) : M A := fun s => (Raised e, s, []).

Definition bind {A B} (m : M A) (f : A -> M B) : M B := fun s =>
  match m s with
  | (Normal a, s1, l1) =>
      match f a s1 with
      | (o, s2, l2) => (o, s2, l1 ++ l2)
      end
  | (Raised e, s1, l1) => (Raised e, s1, l1)
  end.

Notation "'let*' x ':=' m 'in' k" := (bind m (fun x => k))
  (at level 10, x name, m at level 100, k at level 200).

Notation "m1 ;; m2" := (bind m1 (fun _ => m2))
  (at level 100, m2 at level 200, right associativity).

Definition emit (e : Event) : M unit := fun s => (Normal tt, s, [e]).

Definition lift {A} (o : Outcome A) : M A := fun s => (o, s, []).

Definition when (b : bool) (m : M unit) : M unit := if b then m else ret tt.

(** [try: body except NuitkaForbiddenImportEncounter as e: handler(e)] *)
Definition try_forbidden {A} (body : M A) (handler : string -> string -> M A) : M A :=
  fun s =>
    match body s with
    | (Raised (NuitkaForbiddenImportEncounter a b), s1, l1) =>
        match handler a b s1 with
        | (o, s2, l2) => (o, s2, l1 ++ l2)
        end
    | r => r
    end.

(** [for x in xs: body(x)] *)
Fixpoint for_each {A} (xs : list A) (body : A -> M unit) : M unit :=
  match xs with
  | [] => ret tt
  | x :: rest => body x ;; for_each rest body
  end.

Definition outcome_of {A} (r : Outcome A * Session * list Event) : Outcome A := r.1.1.
Definition session_of {A} (r : Outcome A * Session * list Event) : Session := r.1.2.
Definition log_of {A} (r : Outcome A * Session * list Event) : list Event := r.2.

(** ** The collaborators *)

Record Options := mkOptions {
  hasPythonFlagPackageMode : bool;
  shallMakeModule : bool;
  isStandaloneMode : bool;
  shallFollowStandardLibrary : bool;
  shallFollowAllImports : bool;
  shallFollowNoImports : bool;
  getShallFollowInNoCase : list string;
  getShallFollowModules : list string;
  isShowInclusion : bool
}.

(** Everything the module imports from elsewhere: the options, the plugin
    hooks, the builder, the library classifier, profile feedback and the
    file system.  They are fixed for a run. *)
Record Env := mkEnv {
  options : Options;
  python_version : nat;
  cwd : string;
  (* getRootTopModule().getRuntimePackageValue() *)
  root_runtime_package : option string;
  (* Plugins.onModuleEncounter(module_filename, module_name, module_kind) *)
  onModuleEncounter :
    string -> string -> option ModuleKind -> Outcome (option (Decision * string));
  (* Plugins.onModuleRecursion(module_filename, module_name, module_kind,
     using_module_name, source_ref) *)
  onModuleRecursion :
    string -> string -> option ModuleKind -> option string -> option string ->
    Outcome unit;
  (* Plugins.considerImplicitImports(module, signal_change) *)
  considerImplicitImports : Module -> bool -> M unit;
  (* Building.buildModule(module_filename, module_name, is_extension) *)
  buildModule : string -> string -> bool -> Outcome (Module * bool);
  isStandardLibraryPath : string -> bool;
  isStandardLibraryNoAutoInclusionModule : string -> bool;
  (* decideCompilationMode(is_top=False, module_name, for_pgo=True) *)
  decideCompilationMode : string -> string;
  decideInclusionFromPGO : string -> option ModuleKind -> option bool;
  (* the match of a module name against one shell pattern, with its reason *)
  matchesToShellPattern : string -> string -> option string;
  isfile : string -> bool;
  isdir : string -> bool;
  path_exists : string -> bool;
  isPackageDir : string -> bool;
  listDir : string -> list (string * string);
  iglob : string -> list string;
  (* Importing.getModuleNameAndKindFromFilename(module_filename); where the
     kind is None the name is None in the program, see checkNameInPackage *)
  getModuleNameAndKindFromFilename : string -> string * option ModuleKind;
  getSharedLibrarySuffixes : list string
}.

(** ** The module itself *)

Section Recursion.

Variable env : Env.

Let opts : Options := options env.

(** *** The identity cache *)

(** Modelled from the spec: nuitka/importing/ImportCache.py is not among
    the sources.  The identity cache maps a module's (canonical file, name)
    to its built record; the canonical file is the absolute path, with a
    package's init file resolved to its directory. *)
Definition canonical_module_path (path : string) : string :=
  OsPath.abspath (cwd env)
    (if String.eqb (OsPath.basename path) "__init__.py"
     then OsPath.dirname path else path).

(** Modelled from the spec: the lookup of the identity cache; [None] is
    the [KeyError] of the program. *)
Definition getImportedModuleByNameAndPath (module_name module_filename : string)
  : M (option Module) :=
  fun s =>
    (Normal (imported_modules s !! (canonical_module_path module_filename, module_name)),
     s, []).

(** Modelled from the spec: registration of a built record in the identity
    cache under its own file and name. *)
Definition addImportedModule (module : Module) : M unit :=
  fun s =>
    (Normal tt,
     {| imported_modules :=
          <[(canonical_module_path (getFilename module), getFullName module) := module]>
            (imported_modules s);
        recursion_decision_cache := recursion_decision_cache s |},
     []).

(** *** recurseTo *)

Definition _recurseTo (module_name module_filename : string)
           (module_kind : option ModuleKind) : M (Module * bool) :=
  let is_extension := is_extension_kind module_kind in
  emit (CallBuildModule module_filename module_name is_extension) ;;
  let* built := lift (buildModule env module_filename module_name is_extension) in
  addImportedModule (fst built) ;;
  ret built.

(** [signal_change] is [true] when a callback is passed and [false] when
    it is [None]; a call of the callback is the event [SignalChange]. *)
Definition recurseTo (signal_change : bool) (module_name module_filename : string)
           (module_kind : option ModuleKind) (using_module_name source_ref : option string)
           (reason : string) : M Module :=
  let* cached := getImportedModuleByNameAndPath module_name module_filename in
  match cached with
  | Some module => ret module
  | None =>
      emit (CallOnModuleRecursion module_filename module_name module_kind
              using_module_name source_ref) ;;
      lift (onModuleRecursion env module_filename module_name module_kind
              using_module_name source_ref) ;;
      let* built := _recurseTo module_name module_filename module_kind in
      let module := fst built in
      let added_flag := snd built in
      when (added_flag && signal_change)
           (emit (SignalChange "new_code" (getSourceReference module) reason)) ;;
      ret module
  end.

(** *** decideRecursion *)

(** The guard of the profile feedback: the module is not of the standard
    library, or that library is followed, and the module would be
    compiled. *)
Definition pgo_consulted (module_filename module_name : string) : bool :=
  (negb (isStandardLibraryPath env module_filename) || shallFollowStandardLibrary opts)
  && String.eqb (decideCompilationMode env module_name) "compiled".

(** The guard of the package-mode check: [-m] mode, not making a module,
    and the basename of the name is [__main__]. *)
Definition package_mode_main (module_name : string) : bool :=
  hasPythonFlagPackageMode opts
  && negb (shallMakeModule opts)
  && String.eqb (ModuleName.getBasename module_name) "__main__".

Definition in_root_package (module_name : string) : bool :=
  bool_decide (ModuleName.getPackageName module_name = root_runtime_package env).

Definition _decideRecursion (module_filename module_name : string)
           (module_kind : option ModuleKind) (extra_recursion : bool)
  : Outcome (Decision * string) :=
  let is_stdlib := isStandardLibraryPath env module_filename in
  (* from the test of follow-no-imports to the end *)
  let not_instructed : Outcome (Decision * string) :=
    if shallFollowNoImports opts then
      Normal (None, "Instructed by user to not follow at all.")
    else
      Normal (None,
              "Default behavior in non-standalone mode, not following without request.") in
  (* from the never-follow patterns to the end *)
  let by_options : Outcome (Decision * string) :=
    match ModuleName.matchesToShellPatterns (matchesToShellPattern env)
            module_name (getShallFollowInNoCase opts) with
    | Some reason =>
        Normal (Some false,
                "Module " +:+ reason +:+ " instructed by user to not follow to.")
    | None =>
        match ModuleName.matchesToShellPatterns (matchesToShellPattern env)
                module_name (getShallFollowModules opts) with
        | Some reason =>
            Normal (Some true,
                    "Module " +:+ reason +:+ " instructed by user to follow to.")
        | None =>
            if extra_recursion then
              Normal (Some true, "Lives in plug-in directory.")
            else if is_stdlib && shallFollowStandardLibrary opts then
              Normal (Some true, "Instructed by user to follow to standard library.")
            else if shallFollowAllImports opts then
              if is_stdlib then
                if isStandardLibraryNoAutoInclusionModule env module_name then
                  Normal (Some true,
                          "Instructed by user to follow all modules, including non-automatic standard library modules.")
                else not_instructed
              else
                Normal (Some true,
                        "Instructed by user to follow to all non-standard library modules.")
            else not_instructed
        end
    end in
  (* from the plugin decision to the end *)
  let after_main : Outcome (Decision * string) :=
    match onModuleEncounter env module_filename module_name module_kind with
    | Raised e => Raised e
    | Normal (Some plugin_decision) => Normal plugin_decision
    | Normal None =>
        if is_extension_kind module_kind then
          if isStandaloneMode opts then
            Normal (Some true, "Extension module needed for standalone mode.")
          else
            Normal (Some false, "Extension module cannot be inspected.")
        else
          if negb is_stdlib || shallFollowStandardLibrary opts then
            if String.eqb (decideCompilationMode env module_name) "compiled" then
              match decideInclusionFromPGO env module_name module_kind with
              | Some pgo_decision => Normal (Some pgo_decision, "PGO based decision")
              | None => by_options
              end
            else by_options
          else by_options
    end in
  if String.eqb module_name "__main__" then
    Normal (Some false, "Main program is not followed to a second time.")
  else if package_mode_main module_name then
    if in_root_package module_name then
      Normal (Some false, "Main program is already included in package mode.")
    else after_main
  else after_main.

Definition decideRecursion (module_filename module_name : string)
           (module_kind : option ModuleKind) (extra_recursion : bool)
  : M (Decision * string) :=
  fun s =>
    let key : DecisionKey := (module_filename, module_name, module_kind, extra_recursion) in
    match recursion_decision_cache s !! key with
    | Some cached => (Normal cached, s, [])
    | None =>
        match _decideRecursion module_filename module_name module_kind extra_recursion with
        | Normal computed =>
            (Normal computed,
             {| imported_modules := imported_modules s;
                recursion_decision_cache := <[key := computed]> (recursion_decision_cache s) |},
             [])
        | Raised e => (Raised e, s, [])
        end
    end.

(** *** isSameModulePath *)

Definition isSameModulePath (path1 path2 : string) : bool :=
  let path1 :=
    if String.eqb (OsPath.basename path1) "__init__.py"
    then OsPath.dirname path1 else path1 in
  let path2 :=
    if String.eqb (OsPath.basename path2) "__init__.py"
    then OsPath.dirname path2 else path2 in
  String.eqb (OsPath.abspath (cwd env) path1) (OsPath.abspath (cwd env) path2).

(** *** The logger *)

Definition info (message : string) : M unit := emit (LogInfo message).

Definition warning (message : string) : M unit := emit (LogWarning message).

(** Modelled from the spec: [recursion_logger.sysexit] of the absent
    nuitka/Tracing.py ends the run with the message; nothing after it
    runs. *)
Definition sysexit {A} (message : string) : M A := raise (SystemExit message).

(** [assert condition, message] *)
Definition assert (condition : bool) (message : string) : M unit :=
  if condition then ret tt else raise (AssertionError message).

(** The message of Python for [package_name + "." + None]. *)
Definition none_name_message : string :=
  "can only concatenate str (not " +:+ String (ascii_of_nat 34) EmptyString
  +:+ "NoneType" +:+ String (ascii_of_nat 34) EmptyString +:+ ") to str".

(** Modelled from the spec: [getModuleNameAndKindFromFilename] of the
    absent nuitka/importing/Importing.py gives a path that is no module
    neither a kind nor a name, and [makeModuleNameInPackage] of the absent
    nuitka/utils/ModuleNames.py puts the package before the name with [+].
    With a package and no name that is a [TypeError]; with neither, the
    name is made and never used. *)
Definition checkNameInPackage (module_kind : option ModuleKind)
           (module_package : option string) : M unit :=
  match module_kind, module_package with
  | None, Some _ => raise (TypeError none_name_message)
  | _, _ => ret tt
  end.

(** ["%s" % value] for a value that may be [None]. *)
Definition str_of_option (o : option string) : string :=
  match o with Some v => v | None => "None" end.

Definition newline : string := String (ascii_of_nat 10) EmptyString.

(** *** The inclusion walker *)

(** [_addIncludedModule], with the call back into [checkPluginSinglePath]
    as the parameter [check]. *)
Definition _addIncludedModule_with (check : string -> option string -> M unit)
           (module : Module) : M unit :=
  when (isShowInclusion opts)
       (info ("Included '" +:+ getFullName module +:+ "' as '"
              +:+ module_repr module +:+ "'.")) ;;
  addImportedModule module ;;
  if isCompiledPythonPackage module || isUncompiledPythonPackage module then
    let package_filename := getFilename module in
    let* package_dir :=
      (if isdir env package_filename then
         (* Must be a namespace package. *)
         assert (0x300 <=? python_version env)%nat EmptyString ;;
         ret package_filename
       else
         (* Real packages will always be included. *)
         emit (AddRootModule (getFullName module)) ;;
         ret (OsPath.dirname package_filename)) in
    when (isShowInclusion opts)
         (info ("Package directory '" +:+ package_dir +:+ "'.")) ;;
    for_each (listDir env package_dir) (fun entry =>
      let sub_path := fst entry in
      let sub_filename := snd entry in
      if String.eqb sub_filename "__init__.py" || String.eqb sub_filename "__pycache__" then
        ret tt
      else if isPackageDir env sub_path && negb (path_exists env (sub_path +:+ ".py")) then
        check sub_path (Some (getFullName module))
      else if PyStr.endswith sub_path ".py" then
        check sub_path (Some (getFullName module))
      else ret tt)
  else if isCompiledPythonModule module || isUncompiledPythonModule module then
    emit (AddRootModule (getFullName module))
  else if isPythonExtensionModule module then
    when (isStandaloneMode opts) (emit (AddRootModule (getFullName module)))
  else
    assert false (module_repr module).

(** [depth] bounds the nesting of calls, as the interpreter's recursion
    limit does; running out of it is [RecursionError]. *)
Fixpoint checkPluginSinglePath (depth : nat) (plugin_filename : string)
         (module_package : option string) : M unit :=
  match depth with
  | 0 => raise RecursionError
  | S depth' =>
      emit (EnterCheckPluginSinglePath plugin_filename module_package) ;;
      (* The importing wants these to be unique. *)
      let plugin_filename := OsPath.abspath (cwd env) plugin_filename in
      when (isShowInclusion opts)
           (info ("Checking detail plug-in path '" +:+ plugin_filename +:+ "' '"
                  +:+ str_of_option module_package +:+ "':")) ;;
      let name_and_kind := getModuleNameAndKindFromFilename env plugin_filename in
      let module_kind := snd name_and_kind in
      checkNameInPackage module_kind module_package ;;
      let module_name :=
        ModuleName.makeModuleNameInPackage (fst name_and_kind) module_package in
      when (is_extension_kind module_kind && negb (isStandaloneMode opts))
           (warning ("Cannot include extension module '" +:+ module_name
                     +:+ "' unless using at least standalone mode, where they would be copied. In this mode, extension modules are not part of the compiled result, and therefore asking to include them makes no sense."
                     +:+ newline)) ;;
      match module_kind with
      | Some _ =>
          let* decided := decideRecursion plugin_filename module_name module_kind true in
          let decision := fst decided in
          let reason := snd decided in
          if decision_truth decision then
            let* module := recurseTo false module_name plugin_filename module_kind
                             None None reason in
            if module_truth module then
              _addIncludedModule_with (checkPluginSinglePath depth') module
            else
              warning ("Failed to include module from '" +:+ plugin_filename +:+ "'.")
          else
            warning ("Not allowed to include module '" +:+ module_name +:+ "' due to '"
                     +:+ reason +:+ "'.")
      | None => ret tt
      end
  end.

Definition _addIncludedModule (depth : nat) (module : Module) : M unit :=
  _addIncludedModule_with (checkPluginSinglePath depth) module.

Definition checkPluginPath (depth : nat) (plugin_filename : string)
           (module_package : option string) : M unit :=
  when (isShowInclusion opts)
       (info ("Checking top level inclusion path '" +:+ plugin_filename +:+ "' '"
              +:+ str_of_option module_package +:+ "'.")) ;;
  (* Files and package directories are handled here. *)
  if isfile env plugin_filename || isPackageDir env plugin_filename then
    checkPluginSinglePath depth plugin_filename module_package
  else if isdir env plugin_filename then
    for_each (listDir env plugin_filename) (fun entry =>
      let sub_path := fst entry in
      let sub_filename := snd entry in
      assert (negb (String.eqb sub_filename "__init__.py")) EmptyString ;;
      if isPackageDir env sub_path || PyStr.endswith sub_path ".py" then
        checkPluginSinglePath depth sub_path None
      else
        for_each (getSharedLibrarySuffixes env) (fun suffix =>
          when (PyStr.endswith sub_path suffix)
               (checkPluginSinglePath depth sub_path None)))
  else
    warning ("Failed to include module from '" +:+ plugin_filename +:+ "'.").

(** The loop of [checkPluginFilenamePattern]; [found] is its variable. *)
Fixpoint checkPluginFilenamePattern_loop (depth : nat) (filenames : list string)
         (found : bool) : M bool :=
  match filenames with
  | [] => ret found
  | filename :: rest =>
      if PyStr.endswith filename ".pyc" then
        checkPluginFilenamePattern_loop depth rest found
      else if negb (isfile env filename) then
        checkPluginFilenamePattern_loop depth rest found
      else
        checkPluginSinglePath depth filename None ;;
        checkPluginFilenamePattern_loop depth rest true
  end.

Definition didnt_match_warning (pattern : string) : string :=
  "Didn't match any files against pattern '" +:+ pattern +:+ "'.".

Definition checkPluginFilenamePattern (depth : nat) (pattern : string) : M unit :=
  when (isShowInclusion opts)
       (info ("Checking plug-in pattern '" +:+ pattern +:+ "':")) ;;
  assert (negb (isdir env pattern)) pattern ;;
  let* found := checkPluginFilenamePattern_loop depth (iglob env pattern) false in
  when (negb found) (warning (didnt_match_warning pattern)).

(** *** considerUsedModules *)

Definition forbidden_import_message (forbidden avoided importer source_ref : string)
  : string :=
  "Error, forbidden import of '" +:+ forbidden +:+ "' (intending to avoid '"
  +:+ avoided +:+ "') in module '" +:+ importer +:+ "' at '" +:+ source_ref
  +:+ "' encountered.".

Definition forbidden_implicit_message (forbidden avoided importer : string) : string :=
  "Error, forbidden import of '" +:+ forbidden +:+ "' (intending to avoid '"
  +:+ avoided +:+ "') done implicitly by module '" +:+ importer +:+ "'.".

(** The [try] block of the loop, for an edge with the file [filename]. *)
Definition follow_used_module (module : Module) (signal_change : bool)
           (used_module : UsedModule) (filename : string) : M unit :=
  let* decided := decideRecursion filename (um_module_name used_module)
                    (um_module_kind used_module) false in
  let decision := fst decided in
  let reason := snd decided in
  if decision_truth decision then
    let* new_module := recurseTo signal_change (um_module_name used_module) filename
                         (um_module_kind used_module)
                         (Some (getFullName module))
                         (Some (um_source_ref used_module)) reason in
    emit (AddUsedModule (getFullName new_module) (getFullName module) "import"
            reason (um_source_ref used_module))
  else ret tt.

(** One turn of the loop of [considerUsedModules]. *)
Definition considerUsedModule (module : Module) (signal_change : bool)
           (used_module : UsedModule) : M unit :=
  when (String.eqb (um_finding used_module) "not-found")
       (emit (WarnAbout (getFullName module) (um_source_ref used_module)
                (um_module_name used_module) (um_level used_module))) ;;
  match um_filename used_module with
  | None => ret tt  (* Nothing was found here *)
  | Some filename =>
      try_forbidden
        (follow_used_module module signal_change used_module filename)
        (fun forbidden avoided =>
           sysexit (forbidden_import_message forbidden avoided
                      (getFullName module) (um_source_ref used_module)))
  end.

Definition considerUsedModules (module : Module) (signal_change : bool) : M unit :=
  for_each (getUsedModules module) (considerUsedModule module signal_change) ;;
  try_forbidden
    (considerImplicitImports env module signal_change)
    (fun forbidden avoided =>
       sysexit (forbidden_implicit_message forbidden avoided (getFullName module))).

End Recursion.

(** ** The design document's words, for comparison *)

(** A path with a package's init file resolved to its directory. *)
Definition resolve_init_file (path : string) : string :=
  if String.eqb (OsPath.basename path) "__init__.py" then OsPath.dirname path else path.

(** Two paths denote the same module identity. *)
Definition same_module_identity (env : Env) (path1 path2 : string) : Prop :=
  OsPath.abspath (cwd env) (resolve_init_file path1)
  = OsPath.abspath (cwd env) (resolve_init_file path2).

(** A name matches at least one pattern of a list. *)
Definition matches_some_pattern (env : Env) (name : string) (patterns : list string) : Prop :=
  exists pattern, In pattern patterns /\ matchesToShellPattern env name pattern <> None.

(** The profile feedback renders no decision: it is not asked, or it
    answers [None]. *)
Definition pgo_silent (env : Env) (module_filename module_name : string)
           (module_kind : option ModuleKind) : Prop :=
  pgo_consulted env module_filename module_name = true ->
  decideInclusionFromPGO env module_name module_kind = None.

(** The decision cache holds only what [_decideRecursion] computes. *)
Definition decision_cache_sound (env : Env) (s : Session) : Prop :=
  forall module_filename module_name module_kind extra_recursion cached,
    recursion_decision_cache s !! (module_filename, module_name, module_kind, extra_recursion)
    = Some cached ->
    _decideRecursion env module_filename module_name module_kind extra_recursion
    = Normal cached.

(** ** Counting in a log *)

Definition is_build (e : Event) : bool :=
  match e with CallBuildModule _ _ _ => true | _ => false end.

Definition is_hook (e : Event) : bool :=
  match e with CallOnModuleRecursion _ _ _ _ _ => true | _ => false end.

Definition is_signal (e : Event) : bool :=
  match e with SignalChange _ _ _ => true | _ => false end.

Definition is_warn_about (e : Event) : bool :=
  match e with WarnAbout _ _ _ _ => true | _ => false end.

Definition is_warning_of (message : string) (e : Event) : bool :=
  match e with LogWarning m => String.eqb m message | _ => false end.

Definition count (p : Event -> bool) (l : list Event) : nat := length (List.filter p l).

(** ** A small concrete world *)

Module Demo.

(** A shell pattern with [*] and [?] against a text. *)
Fixpoint wildcard (fuel : nat) (pattern text : string) : bool :=
  match fuel with
  | 0 => false
  | S fuel' =>
      match pattern, text with
      | EmptyString, EmptyString => true
      | EmptyString, String _ _ => false
      | String p ps, _ =>
          if Ascii.eqb p "*"%char then
            wildcard fuel' ps text
            || match text with
               | EmptyString => false
               | String _ ts => wildcard fuel' pattern ts
               end
          else
            match text with
            | EmptyString => false
            | String t ts =>
                (Ascii.eqb p "?"%char || Ascii.eqb p t) && wildcard fuel' ps ts
            end
      end
  end.

Definition fnmatch (text pattern : string) : bool :=
  wildcard (S (String.length pattern + String.length text)) pattern text.

Definition shell_match (name pattern : string) : option string :=
  if String.eqb name pattern then Some ("is exact match of '" +:+ pattern +:+ "'")
  else if fnmatch name pattern then Some ("matches pattern '" +:+ pattern +:+ "'")
  else None.

(** The files of the world:
    /work/pkg/{__init__.py, a.py, data.txt, speed.so, __pycache__/,
               sub/{__init__.py, b.py}},
    /work/plugins/{x.py, old.pyc}, /work/ext/fast.so. *)
Definition files : list string :=
  ["/work/pkg/__init__.py"; "/work/pkg/a.py"; "/work/pkg/data.txt"; "/work/pkg/speed.so";
   "/work/pkg/sub/__init__.py"; "/work/pkg/sub/b.py";
   "/work/plugins/x.py"; "/work/plugins/old.pyc"; "/work/ext/fast.so"].

Definition dirs : list string :=
  ["/work"; "/work/pkg"; "/work/pkg/__pycache__"; "/work/pkg/sub";
   "/work/plugins"; "/work/ext"].

Definition mem (x : string) (l : list string) : bool := existsb (String.eqb x) l.

Definition list_dir (path : string) : list (string * string) :=
  map (fun p => (p, OsPath.basename p))
      (List.filter (fun p => String.eqb (OsPath.dirname p) path) (dirs ++ files)).

Definition is_package_dir (path : string) : bool :=
  mem path dirs && mem (path +:+ "/__init__.py") files.

Definition glob (pattern : string) : list string :=
  List.filter (fun p => fnmatch p pattern) (dirs ++ files).

Definition strip_suffix (n : nat) (s : string) : string :=
  substring 0 (String.length s - n) s.

Definition name_and_kind (filename : string) : string * option ModuleKind :=
  let base := OsPath.basename filename in
  if PyStr.endswith base ".py" then (strip_suffix 3 base, Some py)
  else if PyStr.endswith base ".pyc" then (strip_suffix 4 base, Some pyc)
  else if PyStr.endswith base ".so" then (strip_suffix 3 base, Some extension)
  else if mem filename dirs then (base, Some py)
  else (base, None).

(** The builder of the world: a package for a package directory, an
    extension module when asked for one, a compiled module otherwise,
    always newly added and without import edges. *)
Definition build (module_filename module_name : string) (is_extension : bool)
  : Outcome (Module * bool) :=
  if is_package_dir module_filename then
    Normal ({| getFullName := module_name;
               getFilename := module_filename +:+ "/__init__.py";
               node_class := CompiledPythonPackage;
               getSourceReference := module_filename +:+ "/__init__.py:1";
               getUsedModules := [];
               module_repr := "<package " +:+ module_name +:+ ">" |}, true)
  else
    Normal ({| getFullName := module_name;
               getFilename := module_filename;
               node_class := if is_extension then PythonExtensionModule
                             else CompiledPythonModule;
               getSourceReference := module_filename +:+ ":1";
               getUsedModules := [];
               module_repr := "<module " +:+ module_name +:+ ">" |}, true).

(** The recursion hook of the world forbids the module [tkinter], to keep
    out [gui]. *)
Definition on_recursion (module_filename module_name : string)
           (module_kind : option ModuleKind) (using_module_name source_ref : option string)
  : Outcome unit :=
  if String.eqb module_name "tkinter"
  then Raised (NuitkaForbiddenImportEncounter "tkinter" "gui")
  else Normal tt.

(** The implicit imports of the world: the module [needs_gui] implies a
    forbidden import, any other module implies nothing. *)
Definition implicit_imports (module : Module) (signal_change : bool) : M unit :=
  if String.eqb (getFullName module) "needs_gui"
  then raise (NuitkaForbiddenImportEncounter "tkinter" "gui")
  else ret tt.

Definition default_options : Options :=
  {| hasPythonFlagPackageMode := false;
     shallMakeModule := false;
     isStandaloneMode := false;
     shallFollowStandardLibrary := false;
     shallFollowAllImports := false;
     shallFollowNoImports := false;
     getShallFollowInNoCase := [];
     getShallFollowModules := [];
     isShowInclusion := false |}.

Definition world (o : Options) : Env :=
  {| options := o;
     python_version := 0x3b0;
     cwd := "/work";
     root_runtime_package := None;
     onModuleEncounter := fun _ _ _ => Normal None;
     onModuleRecursion := on_recursion;
     considerImplicitImports := implicit_imports;
     buildModule := build;
     isStandardLibraryPath := fun f => PyStr.startswith f "/usr/lib/python3";
     isStandardLibraryNoAutoInclusionModule := fun n => String.eqb n "unittest";
     decideCompilationMode := fun _ => "compiled";
     decideInclusionFromPGO := fun _ _ => None;
     matchesToShellPattern := shell_match;
     isfile := fun p => mem p files;
     isdir := fun p => mem p dirs;
     path_exists := fun p => mem p files || mem p dirs;
     isPackageDir := is_package_dir;
     listDir := list_dir;
     iglob := glob;
     getModuleNameAndKindFromFilename := name_and_kind;
     getSharedLibrarySuffixes := [".so"] |}.

Definition follow_none : Options :=
  {| hasPythonFlagPackageMode := false;
     shallMakeModule := false;
     isStandaloneMode := false;
     shallFollowStandardLibrary := false;
     shallFollowAllImports := false;
     shallFollowNoImports := true;
     getShallFollowInNoCase := [];
     getShallFollowModules := [];
     isShowInclusion := false |}.

Definition with_patterns (never always : list string) : Options :=
  {| hasPythonFlagPackageMode := false;
     shallMakeModule := false;
     isStandaloneMode := false;
     shallFollowStandardLibrary := false;
     shallFollowAllImports := false;
     shallFollowNoImports := true;
     getShallFollowInNoCase := never;
     getShallFollowModules := always;
     isShowInclusion := false |}.

Definition follow_all (standalone : bool) : Options :=
  {| hasPythonFlagPackageMode := false;
     shallMakeModule := false;
     isStandaloneMode := standalone;
     shallFollowStandardLibrary := false;
     shallFollowAllImports := true;
     shallFollowNoImports := false;
     getShallFollowInNoCase := [];
     getShallFollowModules := ["*"];
     isShowInclusion := false |}.

Definition edge (name : string) (filename : option string) (finding : string)
  : UsedModule :=
  {| um_module_name := name;
     um_filename := filename;
     um_module_kind := match filename with Some _ => Some py | None => None end;
     um_finding := finding;
     um_level := 0;
     um_source_ref := "/work/main.py:" +:+ name |}.

Definition importer (name : string) (edges : list UsedModule) : Module :=
  {| getFullName := name;
     getFilename := "/work/" +:+ name +:+ ".py";
     node_class := CompiledPythonModule;
     getSourceReference := "/work/" +:+ name +:+ ".py:1";
     getUsedModules := edges;
     module_repr := "<module " +:+ name +:+ ">" |}.

End Demo.

(** ** Several requests for one module *)

(** What a caller of [recurseTo] passes besides the module name. *)
Record Request := mkRequest {
  rq_signal_change : bool;
  rq_module_filename : string;
  rq_module_kind : option ModuleKind;
  rq_using_module_name : option string;
  rq_source_ref : option string;
  rq_reason : string
}.

(** [recurseTo] called once per request, all for the same module name. *)
Definition recurseTo_each (env : Env) (module_name : string)
           (requests : list Request) : M unit :=
  for_each requests (fun r =>
    recurseTo env (rq_signal_change r) module_name (rq_module_filename r)
      (rq_module_kind r) (rq_using_module_name r) (rq_source_ref r) (rq_reason r) ;;
    ret tt).

(** The requests name files of one identity, and the builder would hand
    back a record of that identity for each of them. *)
Definition requests_of_identity (env : Env) (module_name identity_file : string)
           (requests : list Request) : Prop :=
  forall r, In r requests ->
    canonical_module_path env (rq_module_filename r) = identity_file
    /\ forall is_extension module added,
         buildModule env (rq_module_filename r) module_name is_extension
         = Normal (module, added) ->
         getFullName module = module_name
         /\ canonical_module_path env (getFilename module) = identity_file.

(** The builder hands back a record of the identity it was asked for. *)
Definition builder_keeps_identity (env : Env) (module_name module_filename : string) : Prop :=
  forall is_extension module added,
    buildModule env module_filename module_name is_extension = Normal (module, added) ->
    getFullName module = module_name
    /\ canonical_module_path env (getFilename module)
       = canonical_module_path env module_filename.

(** The log of a first-time [recurseTo] whose hook and builder return. *)
Definition first_build_log (signal_change : bool) (module_name module_filename : string)
           (module_kind : option ModuleKind) (using_module_name source_ref : option string)
           (reason : string) (module : Module) (added : bool) : list Event :=
  [CallOnModuleRecursion module_filename module_name module_kind using_module_name source_ref;
   CallBuildModule module_filename module_name (is_extension_kind module_kind)]
  ++ (if added && signal_change
      then [SignalChange "new_code" (getSourceReference module) reason] else []).

(** The session after [module] entered the identity cache. *)
Definition with_imported (env : Env) (module : Module) (s : Session) : Session :=
  {| imported_modules :=
       <[(canonical_module_path env (getFilename module), getFullName module) := module]>
         (imported_modules s);
     recursion_decision_cache := recursion_decision_cache s |}.

(** The warning of [considerUsedModules] for an edge, when it is due. *)
Definition warn_about_log (module : Module) (used_module : UsedModule) : list Event :=
  if String.eqb (um_finding used_module) "not-found"
  then [WarnAbout (getFullName module) (um_source_ref used_module)
          (um_module_name used_module) (um_level used_module)]
  else [].

(** Three requests for the module [pkg.a] of the small world, each naming
    its file in another way: two import edges with a callback and one
    request of the walker. *)
Definition three_requests : list Request :=
  [ {| rq_signal_change := true; rq_module_filename := "/work/pkg/a.py";
       rq_module_kind := Some py;
       rq_using_module_name := Some "main"; rq_source_ref := Some "/work/main.py:3";
       rq_reason := "first" |};
    {| rq_signal_change := true; rq_module_filename := "pkg/a.py";
       rq_module_kind := Some py;
       rq_using_module_name := Some "other"; rq_source_ref := Some "/work/other.py:7";
       rq_reason := "second" |};
    {| rq_signal_change := false; rq_module_filename := "/work/pkg/../pkg/./a.py";
       rq_module_kind := Some py;
       rq_using_module_name := None; rq_source_ref := None;
       rq_reason := "third" |} ].

(** The session after the decision [decided] was stored under its key. *)
Definition with_decision (key : DecisionKey) (decided : Decision * string) (s : Session)
  : Session :=
  {| imported_modules := imported_modules s;
     recursion_decision_cache := <[key := decided]> (recursion_decision_cache s) |}.

(** The handler of [considerUsedModules] for a forbidden import met on an
    edge. *)
Definition edge_exit (module : Module) (used_module : UsedModule)
           (forbidden avoided : string) : M unit :=
  sysexit (forbidden_import_message forbidden avoided (getFullName module)
             (um_source_ref used_module)).

(** A module of the small world that imports [pkg.a], then the forbidden
    [tkinter], then [pkg.sub.b]. *)
Definition main_module : Module :=
  Demo.importer "main"
    [Demo.edge "pkg.a" (Some "/work/pkg/a.py") "absolute";
     Demo.edge "tkinter" (Some "/usr/lib/python3/tkinter/__init__.py") "absolute";
     Demo.edge "pkg.sub.b" (Some "/work/pkg/sub/b.py") "absolute"].

(** A module whose edges are harmless and whose implicit imports are
    forbidden. *)
Definition needs_gui_module : Module :=
  Demo.importer "needs_gui" [Demo.edge "pkg.a" (Some "/work/pkg/a.py") "absolute"].

(** An edge marked not-found that still carries a file, and an edge without
    a file that is not marked not-found. *)
Definition warned_edge : UsedModule :=
  Demo.edge "pkg.a" (Some "/work/pkg/a.py") "not-found".


(** The reason of an undecided module, by the follow-no-imports option. *)
Definition undecided_reason (env : Env) : string :=
  if shallFollowNoImports (options env)
  then "Instructed by user to not follow at all."
  else "Default behavior in non-standalone mode, not following without request.".

(** An import of [pkg.a] found in the small world. *)
Definition plain_edge : UsedModule :=
  Demo.edge "pkg.a" (Some "/work/pkg/a.py") "absolute".

(** ** The walker, in the design document's words *)

(** The children of a package directory that [_addIncludedModule] hands to
    the single-path check: neither the init file nor the bytecode cache,
    and either a package directory without a module file of the same name
    beside it or a path that ends in [.py]. *)
Definition package_child_checked (env : Env) (entry : string * string) : bool :=
  negb (String.eqb (snd entry) "__init__.py" || String.eqb (snd entry) "__pycache__")
  && ((isPackageDir env (fst entry) && negb (path_exists env (fst entry +:+ ".py")))
      || PyStr.endswith (fst entry) ".py").

(** A match of a pattern that is delegated: a plain file that is no stale
    bytecode. *)
Definition usable_match (env : Env) (filename : string) : bool :=
  negb (PyStr.endswith filename ".pyc") && isfile env filename.

(** What [_addIncludedModule] does for a package kept in a directory with
    an init file, before it walks the directory. *)
Definition real_package_prologue (env : Env) (module : Module) : M unit :=
  when (isShowInclusion (options env))
       (info ("Included '" +:+ getFullName module +:+ "' as '"
              +:+ module_repr module +:+ "'.")) ;;
  addImportedModule env module ;;
  emit (AddRootModule (getFullName module)) ;;
  when (isShowInclusion (options env))
       (info ("Package directory '" +:+ OsPath.dirname (getFilename module) +:+ "'.")).

Definition is_check_of (plugin_filename : string) (e : Event) : bool :=
  match e with
  | EnterCheckPluginSinglePath f _ => String.eqb f plugin_filename
  | _ => false
  end.

(** The package [pkg] of the small world, as its builder makes it. *)
Definition pkg_module : Module :=
  {| getFullName := "pkg";
     getFilename := "/work/pkg/__init__.py";
     node_class := CompiledPythonPackage;
     getSourceReference := "/work/pkg/__init__.py:1";
     getUsedModules := [];
     module_repr := "<package pkg>" |}.

(** A computation that logs no event of the kind [bad], whatever the
    session it starts in. *)
Definition quiet_about (bad : Event -> bool) {A} (m : M A) : Prop :=
  forall s, count bad (log_of (m s)) = 0.

(** The environment with other profile feedback: another compilation mode
    oracle and another inclusion oracle. *)
Definition with_profile (env : Env) (mode : string -> string)
           (pgo : string -> option ModuleKind -> option bool) : Env :=
  {| options := options env;
     python_version := python_version env;
     cwd := cwd env;
     root_runtime_package := root_runtime_package env;
     onModuleEncounter := onModuleEncounter env;
     onModuleRecursion := onModuleRecursion env;
     considerImplicitImports := considerImplicitImports env;
     buildModule := buildModule env;
     isStandardLibraryPath := isStandardLibraryPath env;
     isStandardLibraryNoAutoInclusionModule := isStandardLibraryNoAutoInclusionModule env;
     decideCompilationMode := mode;
     decideInclusionFromPGO := pgo;
     matchesToShellPattern := matchesToShellPattern env;
     isfile := isfile env;
     isdir := isdir env;
     path_exists := path_exists env;
     isPackageDir := isPackageDir env;
     listDir := listDir env;
     iglob := iglob env;
     getModuleNameAndKindFromFilename := getModuleNameAndKindFromFilename env;
     getSharedLibrarySuffixes := getSharedLibrarySuffixes env |}.

(** A session whose decision cache holds a decision that the options of
    the small world would not give. *)
Definition stale_session : Session :=
  with_decision ("/work/pkg/a.py", "pkg.a", Some py, false)
    (Include, "decided earlier") empty_session.

(** The small world with a plugin that raises on every encounter. *)
Definition raising_world : Env :=
  {| options := Demo.default_options;
     python_version := 0x3b0;
     cwd := "/work";
     root_runtime_package := None;
     onModuleEncounter := fun _ _ _ => Raised (NuitkaForbiddenImportEncounter "x" "y");
     onModuleRecursion := Demo.on_recursion;
     considerImplicitImports := Demo.implicit_imports;
     buildModule := Demo.build;
     isStandardLibraryPath := fun f => PyStr.startswith f "/usr/lib/python3";
     isStandardLibraryNoAutoInclusionModule := fun n => String.eqb n "unittest";
     decideCompilationMode := fun _ => "compiled";
     decideInclusionFromPGO := fun _ _ => None;
     matchesToShellPattern := Demo.shell_match;
     isfile := fun p => Demo.mem p Demo.files;
     isdir := fun p => Demo.mem p Demo.dirs;
     path_exists := fun p => Demo.mem p Demo.files || Demo.mem p Demo.dirs;
     isPackageDir := Demo.is_package_dir;
     listDir := Demo.list_dir;
     iglob := Demo.glob;
     getModuleNameAndKindFromFilename := Demo.name_and_kind;
     getSharedLibrarySuffixes := [".so"] |}.

(** Options with follow-all-imports and follow-no-imports both on and no
    pattern. *)
Definition both_follow_flags : Options :=
  {| hasPythonFlagPackageMode := false;
     shallMakeModule := false;
     isStandaloneMode := false;
     shallFollowStandardLibrary := false;
     shallFollowAllImports := true;
     shallFollowNoImports := true;
     getShallFollowInNoCase := [];
     getShallFollowModules := [];
     isShowInclusion := false |}.

(** The environment with another builder. *)
Definition with_builder (env : Env)
           (builder : string -> string -> bool -> Outcome (Module * bool)) : Env :=
  {| options := options env;
     python_version := python_version env;
     cwd := cwd env;
     root_runtime_package := root_runtime_package env;
     onModuleEncounter := onModuleEncounter env;
     onModuleRecursion := onModuleRecursion env;
     considerImplicitImports := considerImplicitImports env;
     buildModule := builder;
     isStandardLibraryPath := isStandardLibraryPath env;
     isStandardLibraryNoAutoInclusionModule := isStandardLibraryNoAutoInclusionModule env;
     decideCompilationMode := decideCompilationMode env;
     decideInclusionFromPGO := decideInclusionFromPGO env;
     matchesToShellPattern := matchesToShellPattern env;
     isfile := isfile env;
     isdir := isdir env;
     path_exists := path_exists env;
     isPackageDir := isPackageDir env;
     listDir := listDir env;
     iglob := iglob env;
     getModuleNameAndKindFromFilename := getModuleNameAndKindFromFilename env;
     getSharedLibrarySuffixes := getSharedLibrarySuffixes env |}.

(** A builder that fails on the module [pkg.sub.b] and builds everything
    else as the small world does. *)
Definition fragile_build (module_filename module_name : string) (is_extension : bool)
  : Outcome (Module * bool) :=
  if String.eqb module_name "pkg.sub.b"
  then Raised (AssertionError "cannot build")
  else Demo.build module_filename module_name is_extension.

Definition fragile_world : Env :=
  with_builder (Demo.world (Demo.follow_all false)) fragile_build.

(** A module that imports [pkg.a], then [pkg.sub.b], then [pkg.a] again. *)
Definition busy_module : Module :=
  Demo.importer "busy"
    [Demo.edge "pkg.a" (Some "/work/pkg/a.py") "absolute";
     Demo.edge "pkg.sub.b" (Some "/work/pkg/sub/b.py") "not-found";
     Demo.edge "ghost" None "not-found";
     Demo.edge "pkg.a" (Some "/work/pkg/a.py") "absolute"].

Definition is_add_used (e : Event) : bool :=
  match e with AddUsedModule _ _ _ _ _ => true | _ => false end.

(** [used_module.finding == "not-found"] *)
Definition is_not_found (used_module : UsedModule) : bool :=
  String.eqb (um_finding used_module) "not-found".

(** The edge has a file and the computed decision for it is to include. *)
Definition is_followed (env : Env) (used_module : UsedModule) : bool :=
  match um_filename used_module with
  | None => false
  | Some filename =>
      match _decideRecursion env filename (um_module_name used_module)
              (um_module_kind used_module) false with
      | Normal (decision, _) => decision_truth decision
      | Raised _ => false
      end
  end.

(** The session after the module [pkg.a] was built and cached. *)
Definition session_with_pkg_a : Session :=
  session_of (recurseTo (Demo.world (Demo.follow_all false)) false "pkg.a" "/work/pkg/a.py"
                (Some py) None None "seed" empty_session).

(** The caches of [s'] extend those of [s]: every stored decision is still
    there unchanged, every identity that was registered is still registered,
    and a sound decision cache is still sound. *)
Definition session_grows (env : Env) (s s' : Session) : Prop :=
  (forall key decided,
      recursion_decision_cache s !! key = Some decided ->
      recursion_decision_cache s' !! key = Some decided)
  /\ (forall identity,
         is_Some (imported_modules s !! identity) ->
         is_Some (imported_modules s' !! identity))
  /\ (decision_cache_sound env s -> decision_cache_sound env s').

(** A computation that only lets the caches grow, whatever the session it
    starts in and however it ends. *)
Definition only_grows (env : Env) {A} (m : M A) : Prop :=
  forall s, session_grows env s (session_of (m s)).

(** What [_addIncludedModule] does for a namespace package, a package whose
    file is a directory, before it walks the directory. *)
Definition namespace_package_prologue (env : Env) (module : Module) : M unit :=
  when (isShowInclusion (options env))
       (info ("Included '" +:+ getFullName module +:+ "' as '"
              +:+ module_repr module +:+ "'.")) ;;
  addImportedModule env module ;;
  when (isShowInclusion (options env))
       (info ("Package directory '" +:+ getFilename module +:+ "'.")).

(** The line that [_addIncludedModule] logs first when inclusions are
    shown. *)
Definition included_log (env : Env) (module : Module) : list Event :=
  if isShowInclusion (options env)
  then [LogInfo ("Included '" +:+ getFullName module +:+ "' as '"
                 +:+ module_repr module +:+ "'.")]
  else [].

Definition is_package (module : Module) : bool :=
  isCompiledPythonPackage module || isUncompiledPythonPackage module.

Definition is_top_level_check (e : Event) : bool :=
  match e with EnterCheckPluginSinglePath _ None => true | _ => false end.

(** How often [checkPluginPath] hands a child of a plain directory to the
    single path check: once for a package directory or a [.py] path, and
    otherwise once per shared library suffix the path ends in. *)
Definition directory_child_checks (env : Env) (entry : string * string) : nat :=
  if isPackageDir env (fst entry) || PyStr.endswith (fst entry) ".py" then 1
  else length (List.filter (PyStr.endswith (fst entry)) (getSharedLibrarySuffixes env)).

Fixpoint sum_list (l : list nat) : nat :=
  match l with
  | [] => 0
  | n :: rest => n + sum_list rest
  end.

(** The small world with two shared library suffixes, one the end of the
    other. *)
Definition two_suffix_world : Env :=
  {| options := Demo.follow_all true;
     python_version := 0x3b0;
     cwd := "/work";
     root_runtime_package := None;
     onModuleEncounter := fun _ _ _ => Normal None;
     onModuleRecursion := Demo.on_recursion;
     considerImplicitImports := Demo.implicit_imports;
     buildModule := Demo.build;
     isStandardLibraryPath := fun f => PyStr.startswith f "/usr/lib/python3";
     isStandardLibraryNoAutoInclusionModule := fun n => String.eqb n "unittest";
     decideCompilationMode := fun _ => "compiled";
     decideInclusionFromPGO := fun _ _ => None;
     matchesToShellPattern := Demo.shell_match;
     isfile := fun p => Demo.mem p Demo.files;
     isdir := fun p => Demo.mem p Demo.dirs;
     path_exists := fun p => Demo.mem p Demo.files || Demo.mem p Demo.dirs;
     isPackageDir := Demo.is_package_dir;
     listDir := Demo.list_dir;
     iglob := Demo.glob;
     getModuleNameAndKindFromFilename := Demo.name_and_kind;
     getSharedLibrarySuffixes := [".so"; "t.so"] |}.

(** A namespace package of the small world: its file is the directory
    [/work/plugins], which has no init file. *)
Definition namespace_module : Module :=
  {| getFullName := "plugins";
     getFilename := "/work/plugins";
     node_class := CompiledPythonPackage;
     getSourceReference := "/work/plugins";
     getUsedModules := [];
     module_repr := "<namespace plugins>" |}.

(** A node of a class that [_addIncludedModule] does not know. *)
Definition odd_module : Module :=
  {| getFullName := "odd";
     getFilename := "/work/odd.py";
     node_class := OtherNode;
     getSourceReference := "/work/odd.py:1";
     getUsedModules := [];
     module_repr := "<odd>" |}.

(** How many entries into the single path check without a parent package
    one call of it logs: its own, when it has no parent and the depth
    allows the call. *)
Definition own_top_level_entries (depth : nat) (module_package : option string) : nat :=
  match module_package with
  | Some _ => 0
  | None => match depth with 0 => 0 | S _ => 1 end
  end.

(** An environment with another plugin hook for encountered modules. *)
Definition with_encounter_hook (env : Env)
           (hook : string -> string -> option ModuleKind ->
                   Outcome (option (Decision * string))) : Env :=
  {| options := options env;
     python_version := python_version env;
     cwd := cwd env;
     root_runtime_package := root_runtime_package env;
     onModuleEncounter := hook;
     onModuleRecursion := onModuleRecursion env;
     considerImplicitImports := considerImplicitImports env;
     buildModule := buildModule env;
     isStandardLibraryPath := isStandardLibraryPath env;
     isStandardLibraryNoAutoInclusionModule := isStandardLibraryNoAutoInclusionModule env;
     decideCompilationMode := decideCompilationMode env;
     decideInclusionFromPGO := decideInclusionFromPGO env;
     matchesToShellPattern := matchesToShellPattern env;
     isfile := isfile env;
     isdir := isdir env;
     path_exists := path_exists env;
     isPackageDir := isPackageDir env;
     listDir := listDir env;
     iglob := iglob env;
     getModuleNameAndKindFromFilename := getModuleNameAndKindFromFilename env;
     getSharedLibrarySuffixes := getSharedLibrarySuffixes env |}.

(** An environment with another profile feedback. *)
Definition with_profile_feedback (env : Env)
           (feedback : string -> option ModuleKind -> option bool) : Env :=
  {| options := options env;
     python_version := python_version env;
     cwd := cwd env;
     root_runtime_package := root_runtime_package env;
     onModuleEncounter := onModuleEncounter env;
     onModuleRecursion := onModuleRecursion env;
     considerImplicitImports := considerImplicitImports env;
     buildModule := buildModule env;
     isStandardLibraryPath := isStandardLibraryPath env;
     isStandardLibraryNoAutoInclusionModule := isStandardLibraryNoAutoInclusionModule env;
     decideCompilationMode := decideCompilationMode env;
     decideInclusionFromPGO := feedback;
     matchesToShellPattern := matchesToShellPattern env;
     isfile := isfile env;
     isdir := isdir env;
     path_exists := path_exists env;
     isPackageDir := isPackageDir env;
     listDir := listDir env;
     iglob := iglob env;
     getModuleNameAndKindFromFilename := getModuleNameAndKindFromFilename env;
     getSharedLibrarySuffixes := getSharedLibrarySuffixes env |}.

(** A plugin that keeps the extension module [pkg.speed] out and has no
    opinion on anything else. *)
Definition system_speed_hook (module_filename module_name : string)
           (module_kind : option ModuleKind) : Outcome (option (Decision * string)) :=
  if String.eqb module_name "pkg.speed"
  then Normal (Some (Exclude, "Provided by the system."))
  else Normal None.

(** The small world in standalone mode, with that plugin. *)
Definition system_speed_world : Env :=
  with_encounter_hook (Demo.world (Demo.follow_all true)) system_speed_hook.

(** A profile that saw the module [pkg.a] in use and no other. *)
Definition saw_pkg_a (module_name : string) (module_kind : option ModuleKind)
  : option bool :=
  if String.eqb module_name "pkg.a" then Some true else None.

(** The small world where the user asks not to follow into [pkg.*], with
    that profile. *)
Definition profiled_world : Env :=
  with_profile_feedback (Demo.world (Demo.with_patterns ["pkg.*"] [])) saw_pkg_a.

(** The warning of the single path check for a refused module. *)
Definition not_allowed_warning (module_name reason : string) : string :=
  "Not allowed to include module '" +:+ module_name +:+ "' due to '" +:+ reason +:+ "'.".

(** ** The package tree, in the design document's words *)

(** A sub-package among the children of a package directory: a package
    directory without a module file of the same name beside it. *)
Definition is_sub_package (env : Env) (path : string) : bool :=
  isPackageDir env path && negb (path_exists env (path +:+ ".py")).

(** The full name of a path below the package [parent]. *)
Definition name_below (env : Env) (path parent : string) : string :=
  ModuleName.makeModuleNameInPackage
    (fst (getModuleNameAndKindFromFilename env (OsPath.abspath (cwd env) path)))
    (Some parent).

(** The tree beneath a package directory: its source files and
    sub-packages, each with the full name of the package it lies in, and
    beneath every sub-package its own tree; depth first, in the order of the
    listings.  The init file and the bytecode cache of a directory are no
    part of it.  [height] bounds the nesting. *)
Fixpoint package_tree (env : Env) (height : nat) (dir parent : string)
  : list (string * string) :=
  match height with
  | 0 => []
  | S height' =>
      List.flat_map
        (fun entry =>
           (fst entry, parent)
           :: (if is_sub_package env (fst entry)
               then package_tree env height' (fst entry)
                      (name_below env (fst entry) parent)
               else []))
        (List.filter (package_child_checked env) (listDir env dir))
  end.

(** The tree beneath [dir] is nested no deeper than [height]. *)
Fixpoint tree_within (env : Env) (height : nat) (dir : string) : bool :=
  match height with
  | 0 => PyStr.is_nil (List.filter (package_child_checked env) (listDir env dir))
  | S height' =>
      forallb (fun entry =>
                 negb (is_sub_package env (fst entry))
                 || tree_within env height' (fst entry))
              (List.filter (package_child_checked env) (listDir env dir))
  end.

(** The events of the walk: the entries into the single path check and the
    registrations of roots. *)
Definition is_walk_event (e : Event) : bool :=
  match e with
  | EnterCheckPluginSinglePath _ _ => true
  | AddRootModule _ => true
  | _ => false
  end.

(** One check and one root for every path of a tree, in its order. *)
Definition tree_events (env : Env) (tree : list (string * string)) : list Event :=
  List.flat_map
    (fun node =>
       [EnterCheckPluginSinglePath (fst node) (Some (snd node));
        AddRootModule (name_below env (fst node) (snd node))])
    tree.

(** A record that is the module of the path [path] under the name [name]:
    it carries that name, its file has that path as its identity, and it is
    a package kept in that directory when the path is a sub-package and a
    plain module otherwise. *)
Definition record_fits (env : Env) (path name : string) (m : Module) : bool :=
  String.eqb (getFullName m) name
  && String.eqb (canonical_module_path env (getFilename m)) path
  && (if is_sub_package env path
      then (isCompiledPythonPackage m || isUncompiledPythonPackage m)
           && negb (isdir env (getFilename m))
           && String.eqb (OsPath.dirname (getFilename m)) path
      else negb (isCompiledPythonPackage m || isUncompiledPythonPackage m)
           && (isCompiledPythonModule m || isUncompiledPythonModule m)).

(** The collaborators let the path of a tree in: the path is its own
    identity, it has a kind, the decision for it as an explicit request is
    to include, the recursion hook returns, and the builder returns a
    record that fits. *)
Definition node_included (env : Env) (node : string * string) : bool :=
  let filename := OsPath.abspath (cwd env) (fst node) in
  let name := name_below env (fst node) (snd node) in
  String.eqb (canonical_module_path env filename) (fst node)
  && match snd (getModuleNameAndKindFromFilename env filename) with
     | None => false
     | Some kind =>
         match _decideRecursion env filename name (Some kind) true with
         | Normal (decision, _) => decision_truth decision
         | Raised _ => false
         end
         && match onModuleRecursion env filename name (Some kind) None None with
            | Normal _ => true
            | Raised _ => false
            end
         && match buildModule env filename name (is_extension_kind (Some kind)) with
            | Normal (m, _) => record_fits env (fst node) name m
            | Raised _ => false
            end
     end.

(** What the identity cache holds for the paths of a tree fits them. *)
Definition cache_fits (env : Env) (tree : list (string * string)) (s : Session) : bool :=
  forallb (fun node =>
             match imported_modules s
                   !! (fst node, name_below env (fst node) (snd node)) with
             | Some m => record_fits env (fst node) (name_below env (fst node) (snd node)) m
             | None => true
             end)
          tree.

(** A run of the walker that returns, with its walk events, and leaves the
    decision cache sound and the identity cache fitting the tree. *)
Definition walks (env : Env) (tree : list (string * string)) (m : M unit)
           (s : Session) (events : list Event) : Prop :=
  exists s' l,
    m s = (Normal tt, s', l)
    /\ List.filter is_walk_event l = events
    /\ decision_cache_sound env s'
    /\ cache_fits env tree s' = true.

(** The small world where the user asks not to follow into [pkg.sub]. *)
Definition no_sub_world : Env := Demo.world (Demo.with_patterns ["pkg.sub"] []).

(** The walk over the children of a directory at the depth [depth] returns
    with the events of the tree beneath it, whenever that tree is nested no
    deeper than [depth] and lies in [tree]. *)
Definition tree_walked (env : Env) (tree : list (string * string)) (depth : nat) : Prop :=
  forall dir parent s,
    tree_within env depth dir = true ->
    incl (package_tree env depth dir parent) tree ->
    decision_cache_sound env s ->
    cache_fits env tree s = true ->
    walks env tree
      (for_each (List.filter (package_child_checked env) (listDir env dir))
         (fun entry => checkPluginSinglePath env depth (fst entry) (Some parent)))
      s (tree_events env (package_tree env depth dir parent)).

(** * Properties *)

Example basename_init : OsPath.basename "pkg/sub/__init__.py" = "__init__.py".
Proof. reflexivity. Qed.

Example dirname_init : OsPath.dirname "pkg/sub/__init__.py" = "pkg/sub".
Proof. reflexivity. Qed.

Example dirname_root : OsPath.dirname "/x" = "/".
Proof. reflexivity. Qed.

Example abspath_rel : OsPath.abspath "/work" "pkg/../pkg/./mod.py" = "/work/pkg/mod.py".
Proof. reflexivity. Qed.

Example abspath_up : OsPath.abspath "/work" "/a/b/../../../c" = "/c".
Proof. reflexivity. Qed.

Example list_dir_pkg :
  map snd (Demo.list_dir "/work/pkg")
  = ["__pycache__"; "sub"; "__init__.py"; "a.py"; "data.txt"; "speed.so"].
Proof. reflexivity. Qed.

Example glob_plugins :
  Demo.glob "/work/plugins/*" = ["/work/plugins/x.py"; "/work/plugins/old.pyc"].
Proof. reflexivity. Qed.

Example same_path_init :
  isSameModulePath (Demo.world Demo.default_options) "pkg/__init__.py" "/work/pkg" = true.
Proof. reflexivity. Qed.

Example same_path_differs :
  isSameModulePath (Demo.world Demo.default_options) "pkg/a.py" "/work/pkg" = false.
Proof. reflexivity. Qed.

(** ** Module identity of paths *)

(** C8: [isSameModulePath] answers true exactly when the two paths, each
    with a package init file replaced by its directory, have equal
    absolute forms. *)
Theorem isSameModulePath_iff_same_identity (env : Env) (path1 path2 : string) :
  isSameModulePath env path1 path2 = true <-> same_module_identity env path1 path2.
Proof.
  unfold isSameModulePath, same_module_identity, resolve_init_file.
  apply String.eqb_eq.
Qed.

Lemma isSameModulePath_refl (env : Env) (path : string) :
  isSameModulePath env path path = true.
Proof. unfold isSameModulePath. apply String.eqb_refl. Qed.

Lemma isSameModulePath_sym (env : Env) (path1 path2 : string) :
  isSameModulePath env path1 path2 = isSameModulePath env path2 path1.
Proof. unfold isSameModulePath. apply String.eqb_sym. Qed.

Lemma canonical_module_path_same (env : Env) (path1 path2 : string) :
  canonical_module_path env path1 = canonical_module_path env path2
  <-> isSameModulePath env path1 path2 = true.
Proof.
  unfold isSameModulePath, canonical_module_path. symmetry. apply String.eqb_eq.
Qed.

(** ** The decision engine *)

Section Decisions.

Variable env : Env.

Lemma matchesToShellPatterns_first (name : string) (patterns : list string) :
  (exists pattern, In pattern patterns /\ matchesToShellPattern env name pattern <> None) ->
  exists reason,
    ModuleName.matchesToShellPatterns (matchesToShellPattern env) name patterns
    = Some reason.
Proof.
  induction patterns as [|p ps IH]; intros (q & Hin & Hq).
  - destruct Hin.
  - simpl. destruct (matchesToShellPattern env name p) as [r|] eqn:Hp.
    + exists r. reflexivity.
    + apply IH. destruct Hin as [->|Hin]; [congruence|]. exists q. split; assumption.
Qed.

Lemma matchesToShellPatterns_none (name : string) (patterns : list string) :
  ModuleName.matchesToShellPatterns (matchesToShellPattern env) name patterns = None
  <-> (forall pattern, In pattern patterns -> matchesToShellPattern env name pattern = None).
Proof.
  induction patterns as [|p ps IH]; simpl.
  - split; [intros _ q []|reflexivity].
  - destruct (matchesToShellPattern env name p) as [r|] eqn:Hp.
    + split; [discriminate|]. intros H. rewrite <- Hp. apply H. left. reflexivity.
    + rewrite IH. split.
      * intros H q [<-|Hq]; [assumption|apply H, Hq].
      * intros H q Hq. apply H. right. assumption.
Qed.

Lemma is_extension_kind_false (module_kind : option ModuleKind) :
  module_kind <> Some extension -> is_extension_kind module_kind = false.
Proof. intros H. unfold is_extension_kind. apply bool_decide_eq_false. exact H. Qed.

Lemma not_main_eqb (module_name : string) :
  module_name <> "__main__" -> String.eqb module_name "__main__" = false.
Proof. intros H. apply String.eqb_neq. exact H. Qed.

(** From the never-follow patterns on, nothing but the options and the
    patterns decide. *)
Lemma _decideRecursion_reaches_patterns
      (module_filename module_name : string) (module_kind : option ModuleKind)
      (extra_recursion : bool) :
  module_name <> "__main__" ->
  (package_mode_main env module_name && in_root_package env module_name) = false ->
  onModuleEncounter env module_filename module_name module_kind = Normal None ->
  module_kind <> Some extension ->
  pgo_silent env module_filename module_name module_kind ->
  _decideRecursion env module_filename module_name module_kind extra_recursion
  = match ModuleName.matchesToShellPatterns (matchesToShellPattern env)
            module_name (getShallFollowInNoCase (options env)) with
    | Some reason =>
        Normal (Exclude, "Module " +:+ reason +:+ " instructed by user to not follow to.")
    | None =>
        match ModuleName.matchesToShellPatterns (matchesToShellPattern env)
                module_name (getShallFollowModules (options env)) with
        | Some reason =>
            Normal (Include, "Module " +:+ reason +:+ " instructed by user to follow to.")
        | None =>
            if extra_recursion then Normal (Include, "Lives in plug-in directory.")
            else if isStandardLibraryPath env module_filename
                    && shallFollowStandardLibrary (options env)
            then Normal (Include, "Instructed by user to follow to standard library.")
            else if shallFollowAllImports (options env)
                    && (negb (isStandardLibraryPath env module_filename)
                        || isStandardLibraryNoAutoInclusionModule env module_name)
            then Normal (Include,
                         if isStandardLibraryPath env module_filename
                         then "Instructed by user to follow all modules, including non-automatic standard library modules."
                         else "Instructed by user to follow to all non-standard library modules.")
            else if shallFollowNoImports (options env)
            then Normal (Undecided, "Instructed by user to not follow at all.")
            else Normal (Undecided,
                         "Default behavior in non-standalone mode, not following without request.")
        end
    end.
Proof.
  intros Hmain Hpkg Hplugin Hkind Hpgo.
  unfold _decideRecursion.
  rewrite (not_main_eqb _ Hmain), Hplugin, (is_extension_kind_false _ Hkind).
  assert (Hskip :
    (if package_mode_main env module_name
     then in_root_package env module_name else false) = false).
  { destruct (package_mode_main env module_name); simpl in *; auto. }
  unfold pgo_silent, pgo_consulted in Hpgo.
  destruct (package_mode_main env module_name) eqn:Epm;
    [simpl in Hskip; rewrite Hskip|];
    (destruct (negb (isStandardLibraryPath env module_filename)
               || shallFollowStandardLibrary (options env)) eqn:Eg;
     [destruct (String.eqb (decideCompilationMode env module_name) "compiled") eqn:Ec;
      [rewrite (Hpgo eq_refl)|]|]);
    destruct (ModuleName.matchesToShellPatterns _ module_name
                (getShallFollowInNoCase (options env))); try reflexivity;
    destruct (ModuleName.matchesToShellPatterns _ module_name
                (getShallFollowModules (options env))); try reflexivity;
    destruct extra_recursion; try reflexivity;
    destruct (isStandardLibraryPath env module_filename);
    destruct (shallFollowStandardLibrary (options env));
    destruct (shallFollowAllImports (options env));
    destruct (isStandardLibraryNoAutoInclusionModule env module_name);
    destruct (shallFollowNoImports (options env)); simpl in *;
    try reflexivity; try discriminate.
Qed.

(** A cached decision is the computed one as long as the cache is sound,
    and the cache stays sound. *)
Lemma decideRecursion_cached (s : Session)
      (module_filename module_name : string) (module_kind : option ModuleKind)
      (extra_recursion : bool) :
  decision_cache_sound env s ->
  outcome_of (decideRecursion env module_filename module_name module_kind extra_recursion s)
  = _decideRecursion env module_filename module_name module_kind extra_recursion
  /\ log_of (decideRecursion env module_filename module_name module_kind extra_recursion s) = []
  /\ imported_modules
       (session_of (decideRecursion env module_filename module_name module_kind
                      extra_recursion s))
     = imported_modules s
  /\ decision_cache_sound env
       (session_of (decideRecursion env module_filename module_name module_kind
                      extra_recursion s)).
Proof.
  intros Hs. unfold decideRecursion.
  destruct (recursion_decision_cache s !! _) as [c|] eqn:Hc.
  - apply Hs in Hc. simpl. rewrite Hc. auto.
  - destruct (_decideRecursion env module_filename module_name module_kind extra_recursion)
      as [v|e] eqn:Hd; simpl; repeat split; auto.
    intros f n k x c. unfold session_of; simpl.
    destruct (decide ((module_filename, module_name, module_kind, extra_recursion)
                      = (f, n, k, x))) as [Heq|Hne].
    + inversion Heq; subst. rewrite lookup_insert_eq. intros [= <-]. exact Hd.
    + rewrite lookup_insert_ne by exact Hne. apply Hs.
Qed.

Lemma decision_cache_sound_empty : decision_cache_sound env empty_session.
Proof. intros f n k x c. simpl. rewrite lookup_empty. discriminate. Qed.

(** The same, as one run: the outcome is the computed decision, nothing is
    logged, the identity cache is untouched. *)
Lemma decideRecursion_run (s : Session)
      (module_filename module_name : string) (module_kind : option ModuleKind)
      (extra_recursion : bool) :
  decision_cache_sound env s ->
  exists s',
    decideRecursion env module_filename module_name module_kind extra_recursion s
    = (_decideRecursion env module_filename module_name module_kind extra_recursion, s', [])
    /\ imported_modules s' = imported_modules s
    /\ decision_cache_sound env s'.
Proof.
  intros Hs.
  destruct (decideRecursion_cached s module_filename module_name module_kind
              extra_recursion Hs) as (Ho & Hl & Hi & Hc).
  destruct (decideRecursion env module_filename module_name module_kind extra_recursion s)
    as [[o s'] l].
  unfold outcome_of, session_of, log_of in *. simpl in *. subst.
  exists s'. auto.
Qed.

End Decisions.

(** C2: a module name that matches a never-follow pattern, and for which
    neither the main-module test, the plugins, the extension rule nor the
    profile feedback decide, is excluded, whatever the always-follow
    patterns say; outside the package-mode skip the reason names the first
    never-follow pattern that matched. *)
Theorem never_follow_pattern_excludes
        (env : Env) (s : Session) (module_filename module_name : string)
        (module_kind : option ModuleKind) (extra_recursion : bool) :
  decision_cache_sound env s ->
  module_name <> "__main__" ->
  onModuleEncounter env module_filename module_name module_kind = Normal None ->
  module_kind <> Some extension ->
  pgo_silent env module_filename module_name module_kind ->
  matches_some_pattern env module_name (getShallFollowInNoCase (options env)) ->
  exists reason,
    outcome_of (decideRecursion env module_filename module_name module_kind
                  extra_recursion s)
    = Normal (Exclude, reason)
    /\ ((package_mode_main env module_name && in_root_package env module_name) = false ->
        exists matched,
          ModuleName.matchesToShellPatterns (matchesToShellPattern env) module_name
            (getShallFollowInNoCase (options env)) = Some matched
          /\ reason = "Module " +:+ matched +:+ " instructed by user to not follow to.").
Proof.
  intros Hs Hmain Hplugin Hkind Hpgo Hmatch.
  destruct (decideRecursion_cached env s module_filename module_name module_kind
              extra_recursion Hs) as (-> & _).
  destruct (matchesToShellPatterns_first env _ _ Hmatch) as (matched & Hm).
  destruct (package_mode_main env module_name && in_root_package env module_name) eqn:Hpkg.
  - exists "Main program is already included in package mode.". split.
    + apply andb_true_iff in Hpkg as [Hp Hr].
      unfold _decideRecursion. rewrite (not_main_eqb _ Hmain), Hp, Hr. reflexivity.
    + discriminate.
  - exists ("Module " +:+ matched +:+ " instructed by user to not follow to."). split.
    + rewrite _decideRecursion_reaches_patterns by assumption. rewrite Hm. reflexivity.
    + intros _. exists matched. auto.
Qed.

Lemma never_follow_pattern_excludes_witness :
  exists reason,
    outcome_of (decideRecursion (Demo.world (Demo.with_patterns ["pkg.*"] ["pkg.a"; "*"]))
                  "/work/pkg/a.py" "pkg.a" (Some py) false empty_session)
    = Normal (Exclude, reason)
    /\ ((package_mode_main (Demo.world (Demo.with_patterns ["pkg.*"] ["pkg.a"; "*"])) "pkg.a"
         && in_root_package (Demo.world (Demo.with_patterns ["pkg.*"] ["pkg.a"; "*"])) "pkg.a")
        = false ->
        exists matched,
          ModuleName.matchesToShellPatterns Demo.shell_match "pkg.a" ["pkg.*"] = Some matched
          /\ reason = "Module " +:+ matched +:+ " instructed by user to not follow to.").
Proof.
  apply (never_follow_pattern_excludes
           (Demo.world (Demo.with_patterns ["pkg.*"] ["pkg.a"; "*"])) empty_session
           "/work/pkg/a.py" "pkg.a" (Some py) false).
  - apply decision_cache_sound_empty.
  - discriminate.
  - reflexivity.
  - discriminate.
  - intros _. reflexivity.
  - exists "pkg.*". split; [left; reflexivity | vm_compute; discriminate].
Defined.

Example never_follow_beats_always_follow :
  outcome_of (decideRecursion (Demo.world (Demo.with_patterns ["pkg.*"] ["pkg.a"; "*"]))
                "/work/pkg/a.py" "pkg.a" (Some py) false empty_session)
  = Normal (Exclude, "Module matches pattern 'pkg.*' instructed by user to not follow to.").
Proof. vm_compute. reflexivity. Qed.

(** C3: for an extension module that is not [__main__], that the
    package-mode check does not skip and on which the plugins are silent,
    the decision is to include exactly when the build is standalone; no
    follow option and no pattern enters into it. *)
Theorem extension_included_iff_standalone
        (env : Env) (s : Session) (module_filename module_name : string)
        (extra_recursion : bool) :
  decision_cache_sound env s ->
  module_name <> "__main__" ->
  (package_mode_main env module_name && in_root_package env module_name) = false ->
  onModuleEncounter env module_filename module_name (Some extension) = Normal None ->
  exists decision reason,
    outcome_of (decideRecursion env module_filename module_name (Some extension)
                  extra_recursion s)
    = Normal (decision, reason)
    /\ (decision = Include <-> isStandaloneMode (options env) = true)
    /\ (decision = Exclude <-> isStandaloneMode (options env) = false)
    /\ reason = (if isStandaloneMode (options env)
                 then "Extension module needed for standalone mode."
                 else "Extension module cannot be inspected.").
Proof.
  intros Hs Hmain Hpkg Hplugin.
  destruct (decideRecursion_cached env s module_filename module_name (Some extension)
              extra_recursion Hs) as (-> & _).
  assert (Hskip :
    (if package_mode_main env module_name
     then in_root_package env module_name else false) = false).
  { destruct (package_mode_main env module_name); simpl in *; auto. }
  unfold _decideRecursion.
  rewrite (not_main_eqb _ Hmain), Hplugin.
  replace (is_extension_kind (Some extension)) with true by reflexivity.
  destruct (package_mode_main env module_name);
    [simpl in Hskip; rewrite Hskip|];
    destruct (isStandaloneMode (options env));
    eexists _, _; (split; [reflexivity|]);
    unfold Include, Exclude; repeat split; intros; congruence.
Qed.

Lemma extension_included_iff_standalone_witness :
  exists decision reason,
    outcome_of (decideRecursion (Demo.world (Demo.follow_all false))
                  "/work/ext/fast.so" "fast" (Some extension) false empty_session)
    = Normal (decision, reason)
    /\ (decision = Include <-> false = true)
    /\ (decision = Exclude <-> false = false)
    /\ reason = "Extension module cannot be inspected.".
Proof.
  apply (extension_included_iff_standalone
           (Demo.world (Demo.follow_all false)) empty_session
           "/work/ext/fast.so" "fast" false).
  - apply decision_cache_sound_empty.
  - discriminate.
  - reflexivity.
  - reflexivity.
Defined.

Example extension_in_standalone :
  outcome_of (decideRecursion (Demo.world (Demo.follow_all true))
                "/work/ext/fast.so" "fast" (Some extension) false empty_session)
  = Normal (Include, "Extension module needed for standalone mode.").
Proof. vm_compute. reflexivity. Qed.

Example extension_with_follow_all :
  outcome_of (decideRecursion (Demo.world (Demo.follow_all false))
                "/work/ext/fast.so" "fast" (Some extension) false empty_session)
  = Normal (Exclude, "Extension module cannot be inspected.").
Proof. vm_compute. reflexivity. Qed.

(** ** The recursion driver *)

Section Driver.

Variable env : Env.

Lemma count_app (p : Event -> bool) (l1 l2 : list Event) :
  count p (l1 ++ l2) = count p l1 + count p l2.
Proof. unfold count. rewrite List.filter_app, length_app. reflexivity. Qed.

Lemma recurseTo_hit (signal_change : bool) (module_name module_filename : string)
      (module_kind : option ModuleKind) (using_module_name source_ref : option string)
      (reason : string) (s : Session) (module : Module) :
  imported_modules s !! (canonical_module_path env module_filename, module_name)
  = Some module ->
  recurseTo env signal_change module_name module_filename module_kind
    using_module_name source_ref reason s
  = (Normal module, s, []).
Proof.
  intros H. unfold recurseTo, bind, getImportedModuleByNameAndPath.
  rewrite H. reflexivity.
Qed.

Lemma recurseTo_miss (signal_change : bool) (module_name module_filename : string)
      (module_kind : option ModuleKind) (using_module_name source_ref : option string)
      (reason : string) (s : Session) :
  imported_modules s !! (canonical_module_path env module_filename, module_name) = None ->
  recurseTo env signal_change module_name module_filename module_kind
    using_module_name source_ref reason s
  = match onModuleRecursion env module_filename module_name module_kind
            using_module_name source_ref with
    | Raised e =>
        (Raised e, s,
         [CallOnModuleRecursion module_filename module_name module_kind
            using_module_name source_ref])
    | Normal _ =>
        match buildModule env module_filename module_name (is_extension_kind module_kind) with
        | Raised e =>
            (Raised e, s,
             [CallOnModuleRecursion module_filename module_name module_kind
                using_module_name source_ref;
              CallBuildModule module_filename module_name (is_extension_kind module_kind)])
        | Normal (module, added) =>
            (Normal module, with_imported env module s,
             first_build_log signal_change module_name module_filename module_kind
               using_module_name source_ref reason module added)
        end
    end.
Proof.
  intros H.
  unfold recurseTo, _recurseTo, bind, getImportedModuleByNameAndPath, lift, emit,
    addImportedModule, ret, when, first_build_log, with_imported.
  rewrite H.
  destruct (onModuleRecursion env module_filename module_name module_kind
              using_module_name source_ref) as [[]|e]; [|reflexivity].
  destruct (buildModule env module_filename module_name (is_extension_kind module_kind))
    as [[module added]|e]; [|reflexivity].
  simpl. destruct (added && signal_change); reflexivity.
Qed.

Lemma count_first_build_log (p : Event -> bool) signal_change module_name module_filename
      module_kind using_module_name source_ref reason module added :
  count p (first_build_log signal_change module_name module_filename module_kind
             using_module_name source_ref reason module added)
  = count p [CallOnModuleRecursion module_filename module_name module_kind
               using_module_name source_ref]
    + count p [CallBuildModule module_filename module_name (is_extension_kind module_kind)]
    + (if added && signal_change
       then count p [SignalChange "new_code" (getSourceReference module) reason]
       else 0).
Proof.
  unfold first_build_log. destruct (added && signal_change); unfold count; simpl;
    repeat match goal with |- context [p ?e] => destruct (p e) end; reflexivity.
Qed.

(** One call invokes the builder at most once, and not at all on a hit. *)
Lemma recurseTo_build_count (signal_change : bool) (module_name module_filename : string)
      (module_kind : option ModuleKind) (using_module_name source_ref : option string)
      (reason : string) (s : Session) :
  count is_build
    (log_of (recurseTo env signal_change module_name module_filename module_kind
               using_module_name source_ref reason s)) <= 1
  /\ (is_Some (imported_modules s !! (canonical_module_path env module_filename, module_name)) ->
      log_of (recurseTo env signal_change module_name module_filename module_kind
                using_module_name source_ref reason s) = []).
Proof.
  destruct (imported_modules s !! (canonical_module_path env module_filename, module_name))
    as [m|] eqn:Hl.
  - rewrite (recurseTo_hit _ _ _ _ _ _ _ _ _ Hl). unfold log_of, count; simpl. auto.
  - rewrite (recurseTo_miss _ _ _ _ _ _ _ _ Hl). split.
    + destruct (onModuleRecursion _ _ _ _ _ _) as [[]|e]; [|unfold log_of, count; simpl; lia].
      destruct (buildModule _ _ _ _) as [[m a]|e]; [|unfold log_of, count; simpl; lia].
      unfold log_of; simpl. rewrite count_first_build_log.
      unfold count; simpl. destruct (a && signal_change); simpl; lia.
    + intros [? [=]].
Qed.

(** After a first-time build that returns, the identity is cached. *)
Lemma recurseTo_caches (signal_change : bool) (module_name module_filename : string)
      (module_kind : option ModuleKind) (using_module_name source_ref : option string)
      (reason : string) (s s' : Session) (module : Module) (l : list Event) :
  builder_keeps_identity env module_name module_filename ->
  recurseTo env signal_change module_name module_filename module_kind
    using_module_name source_ref reason s = (Normal module, s', l) ->
  imported_modules s' !! (canonical_module_path env module_filename, module_name)
  = Some module.
Proof.
  intros Hb Hr.
  destruct (imported_modules s !! (canonical_module_path env module_filename, module_name))
    as [m|] eqn:Hl.
  - rewrite (recurseTo_hit _ _ _ _ _ _ _ _ _ Hl) in Hr. inversion Hr; subst. exact Hl.
  - rewrite (recurseTo_miss _ _ _ _ _ _ _ _ Hl) in Hr.
    destruct (onModuleRecursion _ _ _ _ _ _) as [[]|e]; [|discriminate].
    destruct (buildModule _ _ _ _) as [[m a]|e] eqn:Hbuild; [|discriminate].
    inversion Hr; subst. destruct (Hb _ _ _ Hbuild) as [Hn Hf].
    unfold with_imported; simpl. rewrite Hn, Hf. apply lookup_insert_eq.
Qed.

Lemma recurseTo_each_cached (module_name identity_file : string)
      (requests : list Request) (s : Session) :
  (forall r, In r requests ->
             canonical_module_path env (rq_module_filename r) = identity_file) ->
  is_Some (imported_modules s !! (identity_file, module_name)) ->
  recurseTo_each env module_name requests s = (Normal tt, s, []).
Proof.
  intros Hid [m Hm]. induction requests as [|r rs IH]; [reflexivity|].
  unfold recurseTo_each in *. simpl. unfold bind at 1. unfold bind at 1.
  rewrite (recurseTo_hit _ _ _ _ _ _ _ s m)
    by (rewrite (Hid r (or_introl eq_refl)); exact Hm).
  simpl. rewrite IH; [reflexivity|]. intros q Hq. apply Hid. right. exact Hq.
Qed.

Lemma recurseTo_each_cons (module_name : string)
      (r : Request) (rs : list Request) (s : Session) :
  recurseTo_each env module_name (r :: rs) s
  = match recurseTo env (rq_signal_change r) module_name (rq_module_filename r)
            (rq_module_kind r) (rq_using_module_name r) (rq_source_ref r)
            (rq_reason r) s with
    | (Normal _, s1, l1) =>
        match recurseTo_each env module_name rs s1 with
        | (o, s2, l2) => (o, s2, l1 ++ l2)
        end
    | (Raised e, s1, l1) => (Raised e, s1, l1)
    end.
Proof.
  unfold recurseTo_each. simpl. unfold bind at 1. unfold bind at 1.
  destruct (recurseTo env _ _ _ _ _ _ _ s) as [[[m|e] s1] l1]; simpl; [|reflexivity].
  destruct (for_each rs _ s1) as [[o s2] l2]. rewrite app_nil_r. reflexivity.
Qed.

End Driver.

(** C1: [recurseTo] builds a module identity at most once.  On a hit of the
    identity cache it returns the cached record and does nothing else: no
    hook, no builder, no signal.  One call invokes the builder at most
    once, and only on a miss, and signals only when it builds; and however
    many requests name the same module name and files of the same
    identity, the builder runs at most once over all of them, exactly once
    when the identity was not cached and the requests return. *)
Theorem recurseTo_builds_at_most_once
        (env : Env) (module_name identity_file : string) :
  (forall signal_change module_filename module_kind using_module_name source_ref reason
          s module,
      canonical_module_path env module_filename = identity_file ->
      imported_modules s !! (identity_file, module_name) = Some module ->
      recurseTo env signal_change module_name module_filename module_kind
        using_module_name source_ref reason s
      = (Normal module, s, []))
  /\ (forall signal_change module_filename module_kind using_module_name source_ref reason s,
         canonical_module_path env module_filename = identity_file ->
         let l := log_of (recurseTo env signal_change module_name module_filename
                            module_kind using_module_name source_ref reason s) in
         count is_build l <= 1
         /\ count is_signal l <= count is_build l
         /\ (0 < count is_build l ->
             imported_modules s !! (identity_file, module_name) = None))
  /\ (forall requests s,
         requests_of_identity env module_name identity_file requests ->
         let r := recurseTo_each env module_name requests s in
         count is_build (log_of r) <= 1
         /\ (is_Some (imported_modules s !! (identity_file, module_name)) ->
             count is_build (log_of r) = 0 /\ count is_hook (log_of r) = 0
             /\ count is_signal (log_of r) = 0)
         /\ (imported_modules s !! (identity_file, module_name) = None ->
             requests <> [] -> outcome_of r = Normal tt ->
             count is_build (log_of r) = 1)).
Proof.
  split; [|split].
  - intros signal_change module_filename module_kind using_module_name source_ref reason
           s module <- Hhit.
    apply recurseTo_hit. exact Hhit.
  - intros signal_change module_filename module_kind using_module_name source_ref reason
           s <- l. subst l.
    destruct (imported_modules s !! (canonical_module_path env module_filename, module_name))
      as [m|] eqn:Hl.
    + rewrite (recurseTo_hit _ _ _ _ _ _ _ _ _ _ Hl). unfold log_of, count; simpl.
      repeat split; lia.
    + rewrite (recurseTo_miss _ _ _ _ _ _ _ _ _ Hl).
      destruct (onModuleRecursion _ _ _ _ _ _) as [[]|e];
        [|unfold log_of, count; simpl; repeat split; lia].
      destruct (buildModule _ _ _ _) as [[m a]|e];
        [|unfold log_of, count; simpl; repeat split; lia].
      unfold log_of; simpl. rewrite !count_first_build_log.
      unfold count; simpl. destruct (a && signal_change); simpl; repeat split; lia.
  - intros requests s Hreq r. subst r.
    assert (Hid : forall q, In q requests ->
                  canonical_module_path env (rq_module_filename q) = identity_file)
      by (intros q Hq; apply (Hreq q Hq)).
    assert (Hkeep : forall q, In q requests ->
                    builder_keeps_identity env module_name (rq_module_filename q)).
    { intros q Hq is_extension module added Hb.
      destruct (Hreq q Hq) as [Hc Hbuild]. rewrite Hc. eapply Hbuild. exact Hb. }
    clear Hreq. split; [|split].
    + revert s. induction requests as [|q qs IH]; intros s.
      * unfold log_of, count; simpl. lia.
      * rewrite recurseTo_each_cons.
        pose proof (recurseTo_build_count env (rq_signal_change q) module_name
                      (rq_module_filename q) (rq_module_kind q) (rq_using_module_name q)
                      (rq_source_ref q) (rq_reason q) s) as [Hc _].
        destruct (recurseTo env _ _ _ _ _ _ _ s) as [[[m|e] s1] l1] eqn:Hr;
          [|exact Hc].
        rewrite (recurseTo_each_cached env module_name identity_file qs s1).
        -- unfold log_of in *; simpl in *. rewrite app_nil_r. exact Hc.
        -- intros q' Hq'. apply Hid. right. exact Hq'.
        -- exists m. rewrite <- (Hid q (or_introl eq_refl)).
           eapply recurseTo_caches; [apply Hkeep; left; reflexivity|exact Hr].
    + intros Hsome. rewrite (recurseTo_each_cached env _ _ _ _ Hid Hsome).
      unfold log_of, count; simpl. auto.
    + intros Hnone Hne Hout. destruct requests as [|q qs]; [congruence|].
      rewrite recurseTo_each_cons in *.
      destruct (recurseTo env _ _ _ _ _ _ _ s) as [[[m|e] s1] l1] eqn:Hr;
        [|discriminate Hout].
      rewrite (recurseTo_each_cached env module_name identity_file qs s1).
      * unfold log_of; simpl. rewrite app_nil_r.
        rewrite <- (Hid q (or_introl eq_refl)) in Hnone.
        rewrite (recurseTo_miss _ _ _ _ _ _ _ _ _ Hnone) in Hr.
        destruct (onModuleRecursion _ _ _ _ _ _) as [[]|e]; [|discriminate].
        destruct (buildModule _ _ _ _) as [[m' a]|e]; [|discriminate].
        inversion Hr; subst. rewrite count_first_build_log.
        unfold count; simpl. destruct (a && _); simpl; lia.
      * intros q' Hq'. apply Hid. right. exact Hq'.
      * exists m. rewrite <- (Hid q (or_introl eq_refl)).
        eapply recurseTo_caches; [apply Hkeep; left; reflexivity|exact Hr].
Qed.

Lemma three_requests_of_identity :
  requests_of_identity (Demo.world Demo.default_options) "pkg.a" "/work/pkg/a.py"
    three_requests.
Proof.
  intros r [<-|[<-|[<-|[]]]]; (split; [reflexivity|]);
    intros is_extension module added H; vm_compute in H;
    inversion H; subst; split; reflexivity.
Defined.

Lemma recurseTo_builds_at_most_once_witness :
  requests_of_identity (Demo.world Demo.default_options) "pkg.a" "/work/pkg/a.py"
    three_requests
  /\ count is_build
       (log_of (recurseTo_each (Demo.world Demo.default_options) "pkg.a"
                  three_requests empty_session)) <= 1.
Proof.
  split; [exact three_requests_of_identity|].
  apply (proj1 (proj2 (proj2 (recurseTo_builds_at_most_once
                                 (Demo.world Demo.default_options) "pkg.a"
                                 "/work/pkg/a.py"))
                 three_requests empty_session three_requests_of_identity)).
Defined.

Example three_requests_one_build :
  log_of (recurseTo_each (Demo.world Demo.default_options) "pkg.a"
            three_requests empty_session)
  = [CallOnModuleRecursion "/work/pkg/a.py" "pkg.a" (Some py) (Some "main")
       (Some "/work/main.py:3");
     CallBuildModule "/work/pkg/a.py" "pkg.a" false;
     SignalChange "new_code" "/work/pkg/a.py:1" "first"].
Proof. vm_compute. reflexivity. Qed.

(** ** The consumer of import edges *)

Section Consumer.

Variable env : Env.

Lemma decideRecursion_log (s : Session) (module_filename module_name : string)
      (module_kind : option ModuleKind) (extra_recursion : bool) :
  log_of (decideRecursion env module_filename module_name module_kind extra_recursion s) = []
  /\ imported_modules
       (session_of (decideRecursion env module_filename module_name module_kind
                      extra_recursion s))
     = imported_modules s.
Proof.
  unfold decideRecursion.
  destruct (recursion_decision_cache s !! _); [auto|].
  destruct (_decideRecursion env _ _ _ _); auto.
Qed.

(** With a sound cache a decision that is computed is also what the cache
    holds afterwards. *)
Lemma decideRecursion_stores (s : Session) (module_filename module_name : string)
      (module_kind : option ModuleKind) (extra_recursion : bool)
      (decided : Decision * string) :
  decision_cache_sound env s ->
  _decideRecursion env module_filename module_name module_kind extra_recursion
  = Normal decided ->
  decideRecursion env module_filename module_name module_kind extra_recursion s
  = (Normal decided,
     with_decision (module_filename, module_name, module_kind, extra_recursion) decided s,
     []).
Proof.
  intros Hs Hd. unfold decideRecursion, with_decision.
  destruct (recursion_decision_cache s !! _) as [c|] eqn:Hc.
  - pose proof (Hs _ _ _ _ _ Hc) as Hc'. rewrite Hd in Hc'. inversion Hc'; subst c.
    rewrite (insert_id _ _ _ Hc). destruct s; reflexivity.
  - rewrite Hd. reflexivity.
Qed.

Lemma decideRecursion_raises (s : Session) (module_filename module_name : string)
      (module_kind : option ModuleKind) (extra_recursion : bool) (e : Exn) :
  decision_cache_sound env s ->
  _decideRecursion env module_filename module_name module_kind extra_recursion = Raised e ->
  decideRecursion env module_filename module_name module_kind extra_recursion s
  = (Raised e, s, []).
Proof.
  intros Hs Hd. unfold decideRecursion.
  destruct (recursion_decision_cache s !! _) as [c|] eqn:Hc.
  - pose proof (Hs _ _ _ _ _ Hc) as Hc'. congruence.
  - rewrite Hd. reflexivity.
Qed.

Lemma recurseTo_no_warn_about (signal_change : bool) (module_name module_filename : string)
      (module_kind : option ModuleKind) (using_module_name source_ref : option string)
      (reason : string) (s : Session) :
  count is_warn_about
    (log_of (recurseTo env signal_change module_name module_filename module_kind
               using_module_name source_ref reason s)) = 0.
Proof.
  destruct (imported_modules s !! (canonical_module_path env module_filename, module_name))
    as [m|] eqn:Hl.
  - rewrite (recurseTo_hit _ _ _ _ _ _ _ _ _ _ Hl). reflexivity.
  - rewrite (recurseTo_miss _ _ _ _ _ _ _ _ _ Hl).
    destruct (onModuleRecursion _ _ _ _ _ _) as [[]|e]; [|reflexivity].
    destruct (buildModule _ _ _ _) as [[m a]|e]; [|reflexivity].
    unfold log_of; simpl. rewrite count_first_build_log.
    destruct (a && signal_change); reflexivity.
Qed.

Lemma follow_used_module_no_warn_about (module : Module) (signal_change : bool)
      (used_module : UsedModule) (filename : string) (s : Session) :
  count is_warn_about
    (log_of (follow_used_module env module signal_change used_module filename s)) = 0.
Proof.
  unfold follow_used_module. unfold bind at 1.
  destruct (decideRecursion_log s filename (um_module_name used_module)
              (um_module_kind used_module) false) as [Hl _].
  destruct (decideRecursion env filename _ _ false s) as [[[[d r]|e] s1] l1];
    unfold log_of in Hl; simpl in Hl; subst l1; [|reflexivity].
  simpl. destruct (decision_truth d); [|reflexivity].
  unfold bind, emit.
  pose proof (recurseTo_no_warn_about signal_change (um_module_name used_module) filename
                (um_module_kind used_module) (Some (getFullName module))
                (Some (um_source_ref used_module)) r s1) as Hr.
  destruct (recurseTo env _ _ _ _ _ _ _ s1) as [[[m|e] s2] l2];
    unfold log_of in *; simpl in *; [|exact Hr].
  rewrite count_app, Hr. reflexivity.
Qed.

Lemma try_forbidden_log {A} (body : M A) (handler : string -> string -> M A) (s : Session) :
  (forall a b s1, log_of (handler a b s1) = []) ->
  log_of (try_forbidden body handler s) = log_of (body s).
Proof.
  intros Hh. unfold try_forbidden.
  destruct (body s) as [[[a|e] s1] l1]; [reflexivity|].
  destruct e; try reflexivity.
  specialize (Hh forbidden avoided s1).
  destruct (handler forbidden avoided s1) as [[o s2] l2].
  unfold log_of in *; simpl in *. subst. apply app_nil_r.
Qed.

Lemma count_warn_about_log (module : Module) (used_module : UsedModule) :
  count is_warn_about (warn_about_log module used_module)
  = if String.eqb (um_finding used_module) "not-found" then 1 else 0.
Proof. unfold warn_about_log. destruct (String.eqb _ _); reflexivity. Qed.

(** One turn of the loop, taken apart: the warning, then either nothing or
    the [try] block. *)
Lemma considerUsedModule_unfold (module : Module) (signal_change : bool)
      (used_module : UsedModule) (s : Session) :
  considerUsedModule env module signal_change used_module s
  = match um_filename used_module with
    | None => (Normal tt, s, warn_about_log module used_module)
    | Some filename =>
        match try_forbidden
                (follow_used_module env module signal_change used_module filename)
                (edge_exit module used_module) s with
        | (o, s1, l1) => (o, s1, warn_about_log module used_module ++ l1)
        end
    end.
Proof.
  unfold considerUsedModule, warn_about_log, when, bind, emit, ret.
  destruct (String.eqb (um_finding used_module) "not-found");
    destruct (um_filename used_module) as [f|]; simpl; reflexivity.
Qed.

End Consumer.

Section ConsumerEdges.

Variable env : Env.

Lemma recurseTo_keeps_decisions (signal_change : bool) (module_name module_filename : string)
      (module_kind : option ModuleKind) (using_module_name source_ref : option string)
      (reason : string) (s : Session) :
  recursion_decision_cache
    (session_of (recurseTo env signal_change module_name module_filename module_kind
                   using_module_name source_ref reason s))
  = recursion_decision_cache s.
Proof.
  destruct (imported_modules s !! (canonical_module_path env module_filename, module_name))
    as [m|] eqn:Hl.
  - rewrite (recurseTo_hit _ _ _ _ _ _ _ _ _ _ Hl). reflexivity.
  - rewrite (recurseTo_miss _ _ _ _ _ _ _ _ _ Hl).
    destruct (onModuleRecursion _ _ _ _ _ _) as [[]|e]; [|reflexivity].
    destruct (buildModule _ _ _ _) as [[m a]|e]; reflexivity.
Qed.

(** The [try] block of an edge whose decision is computed, taken apart. *)
Lemma follow_used_module_decided (module : Module) (signal_change : bool)
      (used_module : UsedModule) (filename : string) (s : Session)
      (decision : Decision) (reason : string) :
  decision_cache_sound env s ->
  _decideRecursion env filename (um_module_name used_module)
    (um_module_kind used_module) false = Normal (decision, reason) ->
  let s1 := with_decision (filename, um_module_name used_module,
                           um_module_kind used_module, false) (decision, reason) s in
  follow_used_module env module signal_change used_module filename s
  = if decision_truth decision then
      match recurseTo env signal_change (um_module_name used_module) filename
              (um_module_kind used_module) (Some (getFullName module))
              (Some (um_source_ref used_module)) reason s1 with
      | (Normal new_module, s2, l2) =>
          (Normal tt, s2,
           l2 ++ [AddUsedModule (getFullName new_module) (getFullName module) "import"
                    reason (um_source_ref used_module)])
      | (Raised e, s2, l2) => (Raised e, s2, l2)
      end
    else (Normal tt, s1, []).
Proof.
  intros Hs Hd s1. unfold follow_used_module. unfold bind at 1.
  rewrite (decideRecursion_stores env s _ _ _ _ _ Hs Hd). simpl.
  fold s1. destruct (decision_truth decision); [|reflexivity].
  unfold bind, emit.
  destruct (recurseTo env _ _ _ _ _ _ _ s1) as [[[m|e] s2] l2]; reflexivity.
Qed.

Lemma edge_exit_run (module : Module) (used_module : UsedModule)
      (forbidden avoided : string) (s : Session) :
  edge_exit module used_module forbidden avoided s
  = (Raised (SystemExit (forbidden_import_message forbidden avoided (getFullName module)
                           (um_source_ref used_module))), s, []).
Proof. reflexivity. Qed.


(** An edge with a file whose decision is not to include: the decision is
    stored and nothing else happens after the warning. *)
Lemma considerUsedModule_not_followed (module : Module) (signal_change : bool)
      (used_module : UsedModule) (s : Session) (filename : string)
      (decision : Decision) (reason : string) :
  um_filename used_module = Some filename ->
  decision_cache_sound env s ->
  _decideRecursion env filename (um_module_name used_module)
    (um_module_kind used_module) false = Normal (decision, reason) ->
  decision_truth decision = false ->
  considerUsedModule env module signal_change used_module s
  = (Normal tt,
     with_decision (filename, um_module_name used_module, um_module_kind used_module, false)
       (decision, reason) s,
     warn_about_log module used_module).
Proof.
  intros Hfile Hs Hd Hfalse.
  rewrite considerUsedModule_unfold, Hfile. unfold try_forbidden.
  rewrite (follow_used_module_decided module signal_change used_module filename s
             decision reason Hs Hd), Hfalse.
  rewrite app_nil_r. reflexivity.
Qed.


End ConsumerEdges.


Example warned_edge_is_still_followed :
  log_of (considerUsedModule (Demo.world (Demo.follow_all false)) main_module true
            warned_edge empty_session)
  = [WarnAbout "main" "/work/main.py:pkg.a" "pkg.a" 0;
     CallOnModuleRecursion "/work/pkg/a.py" "pkg.a" (Some py) (Some "main")
       (Some "/work/main.py:pkg.a");
     CallBuildModule "/work/pkg/a.py" "pkg.a" false;
     SignalChange "new_code" "/work/pkg/a.py:1"
       "Module matches pattern '*' instructed by user to follow to.";
     AddUsedModule "pkg.a" "main" "import"
       "Module matches pattern '*' instructed by user to follow to." "/work/main.py:pkg.a"].
Proof. vm_compute. reflexivity. Qed.

Section ConsumerAbort.

Variable env : Env.

Lemma for_each_app {A} (xs ys : list A) (body : A -> M unit) (s : Session) :
  for_each (xs ++ ys) body s
  = match for_each xs body s with
    | (Normal _, s1, l1) =>
        match for_each ys body s1 with
        | (o, s2, l2) => (o, s2, l1 ++ l2)
        end
    | (Raised e, s1, l1) => (Raised e, s1, l1)
    end.
Proof.
  revert s. induction xs as [|x xs IH]; intros s; simpl.
  - unfold ret. destruct (for_each ys body s) as [[o s2] l2]. reflexivity.
  - unfold bind. destruct (body x s) as [[[[]|e] s1] l1]; [|reflexivity].
    rewrite IH. destruct (for_each xs body s1) as [[[[]|e] s2] l2].
    + destruct (for_each ys body s2) as [[o s3] l3]. rewrite app_assoc. reflexivity.
    + reflexivity.
Qed.

(** C4: a forbidden import met while an edge is decided or recursed to ends
    the run with the diagnostic that names the forbidden module, the module
    it was to keep out, the importing module and the source location; the
    run stops in the state and with the log of that moment, whatever edges
    follow and whatever the implicit imports would do.  A forbidden import
    raised by the implicit imports ends the run likewise, naming the
    forbidden module, the avoided module and the importer. *)
Theorem forbidden_import_aborts (module : Module) (signal_change : bool) :
  (forall pre used_module post filename forbidden avoided s,
      getUsedModules module = pre ++ used_module :: post ->
      um_filename used_module = Some filename ->
      let before := for_each pre (considerUsedModule env module signal_change) s in
      outcome_of before = Normal tt ->
      let failing := follow_used_module env module signal_change used_module filename
                       (session_of before) in
      outcome_of failing = Raised (NuitkaForbiddenImportEncounter forbidden avoided) ->
      considerUsedModules env module signal_change s
      = (Raised (SystemExit
                   ("Error, forbidden import of '" +:+ forbidden
                    +:+ "' (intending to avoid '" +:+ avoided
                    +:+ "') in module '" +:+ getFullName module
                    +:+ "' at '" +:+ um_source_ref used_module +:+ "' encountered.")),
         session_of failing,
         log_of before ++ warn_about_log module used_module ++ log_of failing))
  /\ (forall forbidden avoided s,
         let edges := for_each (getUsedModules module)
                        (considerUsedModule env module signal_change) s in
         outcome_of edges = Normal tt ->
         let implicit := considerImplicitImports env module signal_change
                           (session_of edges) in
         outcome_of implicit = Raised (NuitkaForbiddenImportEncounter forbidden avoided) ->
         considerUsedModules env module signal_change s
         = (Raised (SystemExit
                      ("Error, forbidden import of '" +:+ forbidden
                       +:+ "' (intending to avoid '" +:+ avoided
                       +:+ "') done implicitly by module '" +:+ getFullName module
                       +:+ "'.")),
            session_of implicit, log_of edges ++ log_of implicit)).
Proof.
  split.
  - intros pre used_module post filename forbidden avoided s Hedges Hfile before Hbefore
           failing Hfailing.
    unfold considerUsedModules. unfold bind at 1.
    rewrite Hedges, for_each_app. fold before.
    destruct before as [[ob sb] lb] eqn:Eb. unfold outcome_of in Hbefore; simpl in Hbefore.
    subst ob. simpl. unfold bind at 1.
    rewrite considerUsedModule_unfold, Hfile. unfold try_forbidden.
    unfold session_of in failing; simpl in failing. fold failing.
    destruct failing as [[ofl sf] lf] eqn:Ef. unfold outcome_of in Hfailing; simpl in Hfailing.
    subst ofl. rewrite edge_exit_run. unfold log_of, session_of; simpl.
    rewrite app_nil_r. reflexivity.
  - intros forbidden avoided s edges Hedges implicit Himplicit.
    unfold considerUsedModules. unfold bind at 1. fold edges.
    destruct edges as [[oe se] le] eqn:Ee. unfold outcome_of in Hedges; simpl in Hedges.
    subst oe. unfold try_forbidden.
    unfold session_of in implicit; simpl in implicit. fold implicit.
    destruct implicit as [[oi si] li] eqn:Ei.
    unfold outcome_of in Himplicit; simpl in Himplicit. subst oi.
    unfold sysexit, raise, forbidden_implicit_message, log_of, session_of; simpl.
    rewrite app_nil_r. reflexivity.
Qed.

End ConsumerAbort.

Lemma forbidden_import_aborts_witness :
  outcome_of (considerUsedModules (Demo.world (Demo.follow_all false)) main_module true
                empty_session)
  = Raised (SystemExit "Error, forbidden import of 'tkinter' (intending to avoid 'gui') in module 'main' at '/work/main.py:tkinter' encountered.")
  /\ outcome_of (considerUsedModules (Demo.world (Demo.follow_all false)) needs_gui_module
                   true empty_session)
     = Raised (SystemExit "Error, forbidden import of 'tkinter' (intending to avoid 'gui') done implicitly by module 'needs_gui'.").
Proof.
  split.
  - assert (Hbefore :
      outcome_of (for_each [Demo.edge "pkg.a" (Some "/work/pkg/a.py") "absolute"]
                    (considerUsedModule (Demo.world (Demo.follow_all false)) main_module true)
                    empty_session) = Normal tt)
      by (vm_compute; reflexivity).
    assert (Hfailing :
      outcome_of (follow_used_module (Demo.world (Demo.follow_all false)) main_module true
                    (Demo.edge "tkinter" (Some "/usr/lib/python3/tkinter/__init__.py")
                       "absolute")
                    "/usr/lib/python3/tkinter/__init__.py"
                    (session_of
                       (for_each [Demo.edge "pkg.a" (Some "/work/pkg/a.py") "absolute"]
                          (considerUsedModule (Demo.world (Demo.follow_all false))
                             main_module true)
                          empty_session)))
      = Raised (NuitkaForbiddenImportEncounter "tkinter" "gui"))
      by (vm_compute; reflexivity).
    rewrite (proj1 (forbidden_import_aborts (Demo.world (Demo.follow_all false))
                      main_module true)
               [Demo.edge "pkg.a" (Some "/work/pkg/a.py") "absolute"]
               (Demo.edge "tkinter" (Some "/usr/lib/python3/tkinter/__init__.py") "absolute")
               [Demo.edge "pkg.sub.b" (Some "/work/pkg/sub/b.py") "absolute"]
               "/usr/lib/python3/tkinter/__init__.py" "tkinter" "gui" empty_session
               eq_refl eq_refl Hbefore Hfailing).
    reflexivity.
  - assert (Hedges :
      outcome_of (for_each (getUsedModules needs_gui_module)
                    (considerUsedModule (Demo.world (Demo.follow_all false))
                       needs_gui_module true)
                    empty_session) = Normal tt)
      by (vm_compute; reflexivity).
    assert (Himplicit :
      outcome_of (considerImplicitImports (Demo.world (Demo.follow_all false))
                    needs_gui_module true
                    (session_of
                       (for_each (getUsedModules needs_gui_module)
                          (considerUsedModule (Demo.world (Demo.follow_all false))
                             needs_gui_module true)
                          empty_session)))
      = Raised (NuitkaForbiddenImportEncounter "tkinter" "gui"))
      by (vm_compute; reflexivity).
    rewrite (proj2 (forbidden_import_aborts (Demo.world (Demo.follow_all false))
                      needs_gui_module true)
               "tkinter" "gui" empty_session Hedges Himplicit).
    reflexivity.
Defined.

Example forbidden_edge_stops_the_loop :
  log_of (considerUsedModules (Demo.world (Demo.follow_all false)) main_module true
            empty_session)
  = [CallOnModuleRecursion "/work/pkg/a.py" "pkg.a" (Some py) (Some "main")
       (Some "/work/main.py:pkg.a");
     CallBuildModule "/work/pkg/a.py" "pkg.a" false;
     SignalChange "new_code" "/work/pkg/a.py:1"
       "Module matches pattern '*' instructed by user to follow to.";
     AddUsedModule "pkg.a" "main" "import"
       "Module matches pattern '*' instructed by user to follow to." "/work/main.py:pkg.a";
     CallOnModuleRecursion "/usr/lib/python3/tkinter/__init__.py" "tkinter" (Some py)
       (Some "main") (Some "/work/main.py:tkinter")].
Proof. vm_compute. reflexivity. Qed.

(** ** Following nothing without request *)

(** C5, as amended: for a module reached over an import edge (no
    explicit-request flag) that is not the main module, not an extension,
    without plugin or profile decision, without never-follow match and not
    followed as standard library, and with follow-all-imports off: when no
    always-follow pattern matches, the decision is undecided, with the
    reason "Instructed by user to not follow at all." under
    follow-no-imports and the default reason "... not following without
    request." without it, and the edge builds nothing; when an always-follow
    pattern matches, the decision is to include with the reason
    "Module ... instructed by user to follow to.". *)
Theorem follow_no_imports_leaves_undecided
        (env : Env) (s : Session) (module : Module) (signal_change : bool)
        (used_module : UsedModule) (filename : string) :
  let name := um_module_name used_module in
  let kind := um_module_kind used_module in
  decision_cache_sound env s ->
  shallFollowAllImports (options env) = false ->
  um_filename used_module = Some filename ->
  name <> "__main__" ->
  (package_mode_main env name && in_root_package env name) = false ->
  onModuleEncounter env filename name kind = Normal None ->
  kind <> Some extension ->
  pgo_silent env filename name kind ->
  ModuleName.matchesToShellPatterns (matchesToShellPattern env) name
    (getShallFollowInNoCase (options env)) = None ->
  (isStandardLibraryPath env filename && shallFollowStandardLibrary (options env)) = false ->
  (ModuleName.matchesToShellPatterns (matchesToShellPattern env) name
     (getShallFollowModules (options env)) = None ->
   outcome_of (decideRecursion env filename name kind false s)
   = Normal (Undecided, undecided_reason env)
   /\ considerUsedModule env module signal_change used_module s
      = (Normal tt,
         with_decision (filename, name, kind, false) (Undecided, undecided_reason env) s,
         warn_about_log module used_module)
   /\ count is_build (log_of (considerUsedModule env module signal_change used_module s)) = 0)
  /\ (forall matched,
         ModuleName.matchesToShellPatterns (matchesToShellPattern env) name
           (getShallFollowModules (options env)) = Some matched ->
         outcome_of (decideRecursion env filename name kind false s)
         = Normal (Include, "Module " +:+ matched +:+ " instructed by user to follow to.")).
Proof.
  intros name kind Hs Hall Hfile Hmain Hpkg Hplugin Hkind Hpgo Hnever Hstd.
  pose proof (_decideRecursion_reaches_patterns env filename name kind false
                Hmain Hpkg Hplugin Hkind Hpgo) as Hd.
  rewrite Hnever, Hstd, Hall in Hd. simpl in Hd.
  destruct (decideRecursion_cached env s filename name kind false Hs) as (Ho & _).
  split.
  - intros Halways. rewrite Halways in Hd. fold (undecided_reason env) in Hd.
    assert (Hd' : _decideRecursion env filename name kind false
                  = Normal (Undecided, undecided_reason env)).
    { rewrite Hd. unfold undecided_reason.
      destruct (shallFollowNoImports (options env)); reflexivity. }
    pose proof (considerUsedModule_not_followed env module signal_change used_module s
                  filename Undecided (undecided_reason env) Hfile Hs Hd' eq_refl)
      as Hskip.
    split; [rewrite Ho; exact Hd'|]. split; [exact Hskip|].
    fold name kind in Hskip. rewrite Hskip. unfold log_of, warn_about_log; simpl.
    destruct (String.eqb _ _); reflexivity.
  - intros matched Halways. rewrite Halways in Hd. rewrite Ho. exact Hd.
Qed.

Lemma follow_no_imports_leaves_undecided_witness :
  (ModuleName.matchesToShellPatterns Demo.shell_match "pkg.a" [] = None ->
   outcome_of (decideRecursion (Demo.world Demo.follow_none) "/work/pkg/a.py" "pkg.a"
                 (Some py) false empty_session)
   = Normal (Undecided, "Instructed by user to not follow at all.")
   /\ considerUsedModule (Demo.world Demo.follow_none) main_module true plain_edge
        empty_session
      = (Normal tt,
         with_decision ("/work/pkg/a.py", "pkg.a", Some py, false)
           (Undecided, "Instructed by user to not follow at all.") empty_session,
         [])
   /\ count is_build
        (log_of (considerUsedModule (Demo.world Demo.follow_none) main_module true
                   plain_edge empty_session)) = 0)
  /\ (forall matched,
         ModuleName.matchesToShellPatterns Demo.shell_match "pkg.a" [] = Some matched ->
         outcome_of (decideRecursion (Demo.world Demo.follow_none) "/work/pkg/a.py" "pkg.a"
                       (Some py) false empty_session)
         = Normal (Include, "Module " +:+ matched +:+ " instructed by user to follow to.")).
Proof.
  apply (follow_no_imports_leaves_undecided (Demo.world Demo.follow_none) empty_session
           main_module true plain_edge "/work/pkg/a.py").
  - apply decision_cache_sound_empty.
  - reflexivity.
  - reflexivity.
  - discriminate.
  - reflexivity.
  - reflexivity.
  - discriminate.
  - intros _. reflexivity.
  - reflexivity.
  - reflexivity.
Defined.

(** C5, as the design document has it, fails: under follow-no-imports the
    reason given for an undecided module is not the "not following without
    request" one. *)
Lemma follow_no_imports_reason_counterexample :
  shallFollowNoImports (options (Demo.world Demo.follow_none)) = true
  /\ onModuleEncounter (Demo.world Demo.follow_none) "/work/pkg/a.py" "pkg.a" (Some py)
     = Normal None
  /\ decideInclusionFromPGO (Demo.world Demo.follow_none) "pkg.a" (Some py) = None
  /\ getShallFollowInNoCase (options (Demo.world Demo.follow_none)) = []
  /\ getShallFollowModules (options (Demo.world Demo.follow_none)) = []
  /\ isStandardLibraryPath (Demo.world Demo.follow_none) "/work/pkg/a.py" = false
  /\ outcome_of (decideRecursion (Demo.world Demo.follow_none) "/work/pkg/a.py" "pkg.a"
                   (Some py) false empty_session)
     = Normal (Undecided, "Instructed by user to not follow at all.")
  /\ PyStr.endswith "Instructed by user to not follow at all."
       "not following without request." = false.
Proof. vm_compute. repeat split; reflexivity. Qed.

Example always_follow_under_follow_no_imports :
  outcome_of (decideRecursion (Demo.world (Demo.with_patterns [] ["pkg.*"]))
                "/work/pkg/a.py" "pkg.a" (Some py) false empty_session)
  = Normal (Include, "Module matches pattern 'pkg.*' instructed by user to follow to.").
Proof. vm_compute. reflexivity. Qed.

Example default_reason_without_options :
  outcome_of (decideRecursion (Demo.world Demo.default_options)
                "/work/pkg/a.py" "pkg.a" (Some py) false empty_session)
  = Normal (Undecided,
            "Default behavior in non-standalone mode, not following without request.").
Proof. vm_compute. reflexivity. Qed.

(** ** The inclusion walker *)

(** *** What the walker never logs *)

Section WalkerLog.

Variable env : Env.

(** A kind of event that none of the walker's own steps produces. *)
Variable bad : Event -> bool.

Hypothesis bad_info : forall m, bad (LogInfo m) = false.
Hypothesis bad_hook : forall f n k u r, bad (CallOnModuleRecursion f n k u r) = false.
Hypothesis bad_build : forall f n x, bad (CallBuildModule f n x) = false.
Hypothesis bad_root : forall m, bad (AddRootModule m) = false.
Hypothesis bad_enter : forall f p, bad (EnterCheckPluginSinglePath f p) = false.
Hypothesis bad_cannot :
  forall x, bad (LogWarning ("Cannot include extension module '" +:+ x)) = false.
Hypothesis bad_failed :
  forall x, bad (LogWarning ("Failed to include module from '" +:+ x)) = false.
Hypothesis bad_denied :
  forall x, bad (LogWarning ("Not allowed to include module '" +:+ x)) = false.

Lemma quiet_ret {A} (a : A) : quiet_about bad (ret a).
Proof. intros s. reflexivity. Qed.

Lemma quiet_raise {A} (e : Exn) : quiet_about bad (@raise A e).
Proof. intros s. reflexivity. Qed.

Lemma quiet_emit (e : Event) : bad e = false -> quiet_about bad (emit e).
Proof. intros H s. unfold emit, log_of, count; simpl. rewrite H. reflexivity. Qed.

Lemma quiet_bind {A B} (m : M A) (f : A -> M B) :
  quiet_about bad m -> (forall a, quiet_about bad (f a)) -> quiet_about bad (bind m f).
Proof.
  intros Hm Hf s. unfold bind. specialize (Hm s).
  destruct (m s) as [[[a|e] s1] l1]; unfold log_of in *; simpl in *; [|exact Hm].
  specialize (Hf a s1). destruct (f a s1) as [[o s2] l2]; simpl in *.
  unfold log_of in Hf; simpl in Hf. rewrite count_app, Hm, Hf. reflexivity.
Qed.

Lemma quiet_when (b : bool) (m : M unit) : quiet_about bad m -> quiet_about bad (when b m).
Proof. intros H. destruct b; [exact H|apply quiet_ret]. Qed.

Lemma quiet_assert (b : bool) (message : string) : quiet_about bad (assert b message).
Proof. destruct b; [apply quiet_ret|apply quiet_raise]. Qed.

Lemma quiet_checkNameInPackage (module_kind : option ModuleKind)
      (module_package : option string) :
  quiet_about bad (checkNameInPackage module_kind module_package).
Proof.
  destruct module_kind, module_package; first [apply quiet_ret|apply quiet_raise].
Qed.

Lemma quiet_for_each {A} (xs : list A) (body : A -> M unit) :
  (forall x, quiet_about bad (body x)) -> quiet_about bad (for_each xs body).
Proof.
  intros H. induction xs as [|x xs IH]; simpl.
  - apply quiet_ret.
  - apply quiet_bind; [apply H|intros _; exact IH].
Qed.

Lemma quiet_addImportedModule (module : Module) : quiet_about bad (addImportedModule env module).
Proof. intros s. reflexivity. Qed.

Lemma quiet_decideRecursion (f n : string) (k : option ModuleKind) (x : bool) :
  quiet_about bad (decideRecursion env f n k x).
Proof. intros s. rewrite (proj1 (decideRecursion_log env s f n k x)). reflexivity. Qed.

Lemma quiet_recurseTo_unsignalled (n f : string) (k : option ModuleKind)
      (u r : option string) (reason : string) :
  quiet_about bad (recurseTo env false n f k u r reason).
Proof.
  intros s.
  destruct (imported_modules s !! (canonical_module_path env f, n)) as [m|] eqn:Hl.
  - rewrite (recurseTo_hit _ _ _ _ _ _ _ _ _ _ Hl). reflexivity.
  - rewrite (recurseTo_miss _ _ _ _ _ _ _ _ _ Hl).
    destruct (onModuleRecursion _ _ _ _ _ _) as [[]|e].
    + destruct (buildModule _ _ _ _) as [[m a]|e]; unfold log_of; simpl.
      * rewrite count_first_build_log, andb_false_r. unfold count; simpl.
        rewrite bad_hook, bad_build. reflexivity.
      * unfold count; simpl. rewrite bad_hook, bad_build. reflexivity.
    + unfold log_of, count; simpl. rewrite bad_hook. reflexivity.
Qed.

Lemma quiet_addIncludedModule_with (check : string -> option string -> M unit)
      (module : Module) :
  (forall p pkg, quiet_about bad (check p pkg)) ->
  quiet_about bad (_addIncludedModule_with env check module).
Proof.
  intros Hcheck. unfold _addIncludedModule_with.
  apply quiet_bind; [apply quiet_when, quiet_emit, bad_info|intros _].
  apply quiet_bind; [apply quiet_addImportedModule|intros _].
  destruct (isCompiledPythonPackage module || isUncompiledPythonPackage module).
  - apply quiet_bind.
    + destruct (isdir env (getFilename module)).
      * apply quiet_bind; [apply quiet_assert|intros _; apply quiet_ret].
      * apply quiet_bind; [apply quiet_emit, bad_root|intros _; apply quiet_ret].
    + intros package_dir.
      apply quiet_bind; [apply quiet_when, quiet_emit, bad_info|intros _].
      apply quiet_for_each. intros [sub_path sub_filename]. simpl.
      destruct (String.eqb sub_filename "__init__.py" || String.eqb sub_filename "__pycache__");
        [apply quiet_ret|].
      destruct (isPackageDir env sub_path && negb (path_exists env (sub_path +:+ ".py")));
        [apply Hcheck|].
      destruct (PyStr.endswith sub_path ".py"); [apply Hcheck|apply quiet_ret].
  - destruct (isCompiledPythonModule module || isUncompiledPythonModule module);
      [apply quiet_emit, bad_root|].
    destruct (isPythonExtensionModule module);
      [apply quiet_when, quiet_emit, bad_root|apply quiet_assert].
Qed.

Lemma quiet_checkPluginSinglePath (depth : nat) :
  forall plugin_filename module_package,
    quiet_about bad (checkPluginSinglePath env depth plugin_filename module_package).
Proof.
  induction depth as [|depth IH]; intros plugin_filename module_package.
  - apply quiet_raise.
  - simpl.
    apply quiet_bind; [apply quiet_emit, bad_enter|intros _].
    apply quiet_bind; [apply quiet_when, quiet_emit, bad_info|intros _].
    apply quiet_bind; [apply quiet_checkNameInPackage|intros _].
    apply quiet_bind; [apply quiet_when, quiet_emit; unfold warning; apply bad_cannot|intros _].
    destruct (snd (getModuleNameAndKindFromFilename env _)) as [k|]; [|apply quiet_ret].
    apply quiet_bind; [apply quiet_decideRecursion|intros [decision reason]]. simpl.
    destruct (decision_truth decision).
    + apply quiet_bind; [apply quiet_recurseTo_unsignalled|intros module].
      unfold module_truth. apply quiet_addIncludedModule_with. exact IH.
    + apply quiet_emit, bad_denied.
Qed.

Lemma quiet_checkPluginPath (depth : nat) (plugin_filename : string)
      (module_package : option string) :
  quiet_about bad (checkPluginPath env depth plugin_filename module_package).
Proof.
  unfold checkPluginPath.
  apply quiet_bind; [apply quiet_when, quiet_emit, bad_info|intros _].
  destruct (isfile env plugin_filename || isPackageDir env plugin_filename);
    [apply quiet_checkPluginSinglePath|].
  destruct (isdir env plugin_filename); [|apply quiet_emit, bad_failed].
  apply quiet_for_each. intros [sub_path sub_filename]. cbn [fst snd].
  apply quiet_bind; [apply quiet_assert|intros _].
  destruct (isPackageDir env sub_path || PyStr.endswith sub_path ".py");
    [apply quiet_checkPluginSinglePath|].
  apply quiet_for_each. intros suffix.
  apply quiet_when, quiet_checkPluginSinglePath.
Qed.

End WalkerLog.

(** *** The signal for new code *)

Section Signal.

Variable env : Env.

(** An edge with a file whose decision is to include and whose module is
    built for the first time. *)
Lemma considerUsedModule_followed (module : Module) (signal_change : bool)
      (used_module : UsedModule) (s : Session) (filename : string)
      (decision : Decision) (reason : string) (built : Module) (added : bool) :
  um_filename used_module = Some filename ->
  decision_cache_sound env s ->
  _decideRecursion env filename (um_module_name used_module)
    (um_module_kind used_module) false = Normal (decision, reason) ->
  decision_truth decision = true ->
  imported_modules s !! (canonical_module_path env filename, um_module_name used_module)
  = None ->
  onModuleRecursion env filename (um_module_name used_module) (um_module_kind used_module)
    (Some (getFullName module)) (Some (um_source_ref used_module)) = Normal tt ->
  buildModule env filename (um_module_name used_module)
    (is_extension_kind (um_module_kind used_module)) = Normal (built, added) ->
  log_of (considerUsedModule env module signal_change used_module s)
  = warn_about_log module used_module
    ++ first_build_log signal_change (um_module_name used_module) filename
         (um_module_kind used_module) (Some (getFullName module))
         (Some (um_source_ref used_module)) reason built added
    ++ [AddUsedModule (getFullName built) (getFullName module) "import"
          reason (um_source_ref used_module)].
Proof.
  intros Hfile Hs Hd Htrue Hmiss Hhook Hbuild.
  rewrite considerUsedModule_unfold, Hfile. unfold try_forbidden.
  rewrite (follow_used_module_decided env module signal_change used_module filename s
             decision reason Hs Hd), Htrue.
  rewrite recurseTo_miss by exact Hmiss.
  rewrite Hhook, Hbuild. reflexivity.
Qed.

Lemma filter_signal_first_build_log signal_change module_name module_filename
      module_kind using_module_name source_ref reason module added :
  List.filter is_signal
    (first_build_log signal_change module_name module_filename module_kind
       using_module_name source_ref reason module added)
  = if added && signal_change
    then [SignalChange "new_code" (getSourceReference module) reason] else [].
Proof. unfold first_build_log. destruct (added && signal_change); reflexivity. Qed.

(** C6, as amended: a first-time build by [recurseTo] raises the new-code
    signal exactly once, with the built module's origin and the reason,
    when the builder reports the module as added and a callback was handed
    in, as [considerUsedModules] hands in its own for every edge; without a
    callback nothing is signalled, and the walker hands in none: a single
    path check never signals. *)
Theorem new_code_signal_needs_callback :
  (forall signal_change module_name module_filename module_kind using_module_name
          source_ref reason s module added,
      imported_modules s !! (canonical_module_path env module_filename, module_name)
      = None ->
      onModuleRecursion env module_filename module_name module_kind using_module_name
        source_ref = Normal tt ->
      buildModule env module_filename module_name (is_extension_kind module_kind)
      = Normal (module, added) ->
      List.filter is_signal
        (log_of (recurseTo env signal_change module_name module_filename module_kind
                   using_module_name source_ref reason s))
      = if added && signal_change
        then [SignalChange "new_code" (getSourceReference module) reason] else [])
  /\ (forall importer signal_change used_module s filename decision reason built added,
         um_filename used_module = Some filename ->
         decision_cache_sound env s ->
         _decideRecursion env filename (um_module_name used_module)
           (um_module_kind used_module) false = Normal (decision, reason) ->
         decision_truth decision = true ->
         imported_modules s
           !! (canonical_module_path env filename, um_module_name used_module) = None ->
         onModuleRecursion env filename (um_module_name used_module)
           (um_module_kind used_module) (Some (getFullName importer))
           (Some (um_source_ref used_module)) = Normal tt ->
         buildModule env filename (um_module_name used_module)
           (is_extension_kind (um_module_kind used_module)) = Normal (built, added) ->
         List.filter is_signal
           (log_of (considerUsedModule env importer signal_change used_module s))
         = if added && signal_change
           then [SignalChange "new_code" (getSourceReference built) reason] else [])
  /\ (forall depth plugin_filename module_package s,
         count is_signal
           (log_of (checkPluginSinglePath env depth plugin_filename module_package s)) = 0).
Proof.
  split; [|split].
  - intros signal_change module_name module_filename module_kind using_module_name
           source_ref reason s module added Hmiss Hhook Hbuild.
    rewrite recurseTo_miss by exact Hmiss. rewrite Hhook, Hbuild.
    apply filter_signal_first_build_log.
  - intros importer signal_change used_module s filename decision reason built added
           Hfile Hs Hd Htrue Hmiss Hhook Hbuild.
    rewrite (considerUsedModule_followed importer signal_change used_module s filename
               decision reason built added Hfile Hs Hd Htrue Hmiss Hhook Hbuild).
    rewrite !List.filter_app, filter_signal_first_build_log.
    unfold warn_about_log. destruct (String.eqb _ _); simpl; apply app_nil_r.
  - intros depth plugin_filename module_package s.
    apply (quiet_checkPluginSinglePath env is_signal); reflexivity.
Qed.

End Signal.

Lemma new_code_signal_needs_callback_witness :
  List.filter is_signal
    (log_of (recurseTo (Demo.world Demo.default_options) true "pkg.a" "/work/pkg/a.py"
               (Some py) (Some "main") (Some "/work/main.py:3") "asked for" empty_session))
  = [SignalChange "new_code" "/work/pkg/a.py:1" "asked for"].
Proof.
  exact (proj1 (new_code_signal_needs_callback (Demo.world Demo.default_options))
           true "pkg.a" "/work/pkg/a.py" (Some py) (Some "main") (Some "/work/main.py:3")
           "asked for" empty_session
           {| getFullName := "pkg.a";
              getFilename := "/work/pkg/a.py";
              node_class := CompiledPythonModule;
              getSourceReference := "/work/pkg/a.py:1";
              getUsedModules := [];
              module_repr := "<module pkg.a>" |}
           true eq_refl eq_refl eq_refl).
Defined.

(** C6, as the design document has it, fails: a module built for the first
    time through the single path check is reported as added by the builder,
    and no signal is raised. *)
Lemma walker_build_unsignalled_counterexample :
  imported_modules empty_session
    !! (canonical_module_path (Demo.world Demo.default_options) "/work/plugins/x.py", "x")
  = None
  /\ (exists module,
         buildModule (Demo.world Demo.default_options) "/work/plugins/x.py" "x" false
         = Normal (module, true))
  /\ log_of (checkPluginSinglePath (Demo.world Demo.default_options) 2
               "/work/plugins/x.py" None empty_session)
     = [EnterCheckPluginSinglePath "/work/plugins/x.py" None;
        CallOnModuleRecursion "/work/plugins/x.py" "x" (Some py) None None;
        CallBuildModule "/work/plugins/x.py" "x" false;
        AddRootModule "x"]
  /\ count is_signal
       (log_of (checkPluginSinglePath (Demo.world Demo.default_options) 2
                  "/work/plugins/x.py" None empty_session)) = 0.
Proof.
  split; [reflexivity|]. split; [eexists; vm_compute; reflexivity|].
  split; vm_compute; reflexivity.
Qed.

(** *** The walk over a package directory *)

Section PackageWalk.

Variable env : Env.

Lemma bind_ret_tt {B} (k : unit -> M B) (s : Session) :
  bind (ret tt) k s = k tt s.
Proof. unfold bind, ret. destruct (k tt s) as [[o s2] l2]. reflexivity. Qed.

(** The loop over the directory is the loop over the children that pass
    [package_child_checked], each handed to the check once. *)
Lemma for_each_package_children (check : string -> option string -> M unit)
      (full_name : string) (listing : list (string * string)) (s : Session) :
  for_each listing (fun entry =>
    let sub_path := fst entry in
    let sub_filename := snd entry in
    if String.eqb sub_filename "__init__.py" || String.eqb sub_filename "__pycache__" then
      ret tt
    else if isPackageDir env sub_path && negb (path_exists env (sub_path +:+ ".py")) then
      check sub_path (Some full_name)
    else if PyStr.endswith sub_path ".py" then
      check sub_path (Some full_name)
    else ret tt) s
  = for_each (List.filter (package_child_checked env) listing)
      (fun entry => check (fst entry) (Some full_name)) s.
Proof.
  revert s. induction listing as [|[sub_path sub_filename] rest IH]; intros s.
  - reflexivity.
  - cbn [for_each List.filter]. unfold package_child_checked at 1. cbn [fst snd].
    destruct (String.eqb sub_filename "__init__.py" || String.eqb sub_filename "__pycache__");
      cbn [negb andb].
    + rewrite bind_ret_tt. apply IH.
    + destruct (isPackageDir env sub_path && negb (path_exists env (sub_path +:+ ".py")));
        cbn [orb].
      * cbn [for_each fst]. unfold bind.
        destruct (check sub_path (Some full_name) s) as [[[[]|e] s1] l1]; [|reflexivity].
        rewrite IH. reflexivity.
      * destruct (PyStr.endswith sub_path ".py").
        -- cbn [for_each fst]. unfold bind.
           destruct (check sub_path (Some full_name) s) as [[[[]|e] s1] l1]; [|reflexivity].
           rewrite IH. reflexivity.
        -- rewrite bind_ret_tt. apply IH.
Qed.

(** *** The walk over the whole tree *)

Section TreeWalk.

Variable tree : list (string * string).
Hypothesis tree_included : forall node, In node tree -> node_included env node = true.

Lemma tree_events_app (nodes1 nodes2 : list (string * string)) :
  tree_events env (nodes1 ++ nodes2) = tree_events env nodes1 ++ tree_events env nodes2.
Proof. apply List.flat_map_app. Qed.

Lemma when_emit_run (b : bool) (e : Event) (s : Session) :
  when b (emit e) s = (Normal tt, s, if b then [e] else []).
Proof. destruct b; reflexivity. Qed.

Lemma walks_ext (m m' : M unit) (s : Session) (events : list Event) :
  m s = m' s -> walks env tree m' s events -> walks env tree m s events.
Proof. intros Heq (s' & l & Hm & H). exists s', l. rewrite Heq. auto. Qed.

Lemma walks_step {A} (m : M A) (f : A -> M unit) (s s1 : Session) (a : A)
      (l1 events : list Event) :
  m s = (Normal a, s1, l1) ->
  List.filter is_walk_event l1 = [] ->
  walks env tree (f a) s1 events ->
  walks env tree (bind m f) s events.
Proof.
  intros Hm Hl1 (s' & l & Hf & Hev & Hs & Hc).
  exists s', (l1 ++ l). split; [|split; [|split]]; auto.
  - unfold bind. rewrite Hm, Hf. reflexivity.
  - rewrite List.filter_app, Hl1, Hev. reflexivity.
Qed.

Lemma walks_step_event {A} (m : M A) (f : A -> M unit) (s s1 : Session) (a : A)
      (e : Event) (events : list Event) :
  m s = (Normal a, s1, [e]) ->
  is_walk_event e = true ->
  walks env tree (f a) s1 events ->
  walks env tree (bind m f) s (e :: events).
Proof.
  intros Hm He (s' & l & Hf & Hev & Hs & Hc).
  exists s', ([e] ++ l). split; [|split; [|split]]; auto.
  - unfold bind. rewrite Hm, Hf. reflexivity.
  - cbn [app List.filter]. rewrite He, Hev. reflexivity.
Qed.

Lemma walks_last (m : M unit) (s s1 : Session) (l : list Event) :
  m s = (Normal tt, s1, l) ->
  decision_cache_sound env s1 ->
  cache_fits env tree s1 = true ->
  walks env tree m s (List.filter is_walk_event l).
Proof. intros Hm Hs Hc. exists s1, l. auto. Qed.

Lemma walks_silent_last (m : M unit) (s s1 : Session) (l : list Event) :
  m s = (Normal tt, s1, l) ->
  List.filter is_walk_event l = [] ->
  decision_cache_sound env s1 ->
  cache_fits env tree s1 = true ->
  walks env tree m s [].
Proof. intros Hm Hl Hs Hc. exists s1, l. auto. Qed.

Lemma walks_seq (m k : M unit) (s : Session) (e1 e2 : list Event) :
  walks env tree m s e1 ->
  (forall s1, decision_cache_sound env s1 -> cache_fits env tree s1 = true ->
              walks env tree k s1 e2) ->
  walks env tree (m ;; k) s (e1 ++ e2).
Proof.
  intros (s1 & l1 & Hm & Hev1 & Hs1 & Hc1) Hk.
  destruct (Hk s1 Hs1 Hc1) as (s2 & l2 & Hk2 & Hev2 & Hs2 & Hc2).
  exists s2, (l1 ++ l2). split; [|split; [|split]]; auto.
  - unfold bind. rewrite Hm, Hk2. reflexivity.
  - rewrite List.filter_app, Hev1, Hev2. reflexivity.
Qed.

Lemma cache_fits_lookup (s : Session) (node : string * string) (m : Module) :
  cache_fits env tree s = true ->
  In node tree ->
  imported_modules s !! (fst node, name_below env (fst node) (snd node)) = Some m ->
  record_fits env (fst node) (name_below env (fst node) (snd node)) m = true.
Proof.
  intros Hc Hin Hl. unfold cache_fits in Hc. rewrite forallb_forall in Hc.
  specialize (Hc node Hin). cbv beta in Hc. rewrite Hl in Hc. exact Hc.
Qed.

Lemma cache_fits_with_imported (s : Session) (path name : string) (m : Module) :
  record_fits env path name m = true ->
  cache_fits env tree s = true ->
  cache_fits env tree (with_imported env m s) = true.
Proof.
  intros Hfit Hc. unfold cache_fits in *. rewrite forallb_forall in *.
  intros node Hin. specialize (Hc node Hin). cbv beta in *.
  unfold with_imported. cbn [imported_modules].
  pose proof Hfit as Hfit'. unfold record_fits in Hfit'.
  apply andb_true_iff in Hfit' as [Hnp _]. apply andb_true_iff in Hnp as [Hn Hp].
  apply String.eqb_eq in Hn. apply String.eqb_eq in Hp.
  destruct (decide ((canonical_module_path env (getFilename m), getFullName m)
                    = (fst node, name_below env (fst node) (snd node)))) as [Heq|Hne].
  - rewrite <- Heq, lookup_insert_eq. injection Heq as H1 H2.
    rewrite <- H2, <- H1, Hp, Hn. exact Hfit.
  - rewrite lookup_insert_ne by exact Hne. exact Hc.
Qed.

(** The bookkeeping of a module that fits its path: a root, and for a
    sub-package the walk over its directory. *)
Lemma included_module_walks (depth : nat) (module : Module) (path parent : string)
      (s : Session) :
  tree_walked env tree depth ->
  record_fits env path (name_below env path parent) module = true ->
  (is_sub_package env path = true ->
   tree_within env depth path = true
   /\ incl (package_tree env depth path (name_below env path parent)) tree) ->
  decision_cache_sound env s ->
  cache_fits env tree s = true ->
  walks env tree (_addIncludedModule_with env (checkPluginSinglePath env depth) module) s
    (AddRootModule (name_below env path parent)
     :: tree_events env
          (if is_sub_package env path
           then package_tree env depth path (name_below env path parent)
           else [])).
Proof.
  intros IH Hfit Hsub Hs Hc.
  pose proof (cache_fits_with_imported s _ _ _ Hfit Hc) as Hc'.
  unfold record_fits in Hfit.
  apply andb_true_iff in Hfit as [Hnp Hshape]. apply andb_true_iff in Hnp as [Hn Hp].
  apply String.eqb_eq in Hn. apply String.eqb_eq in Hp.
  unfold _addIncludedModule_with.
  eapply walks_step;
    [apply when_emit_run|destruct (isShowInclusion (options env)); reflexivity|].
  cbv beta.
  eapply walks_step; [reflexivity|reflexivity|]. cbv beta.
  fold (with_imported env module s).
  destruct (is_sub_package env path) eqn:Hsp.
  - apply andb_true_iff in Hshape as [Hshape Hdir].
    apply andb_true_iff in Hshape as [Hpkg Hisdir].
    apply negb_true_iff in Hisdir. apply String.eqb_eq in Hdir.
    destruct (Hsub eq_refl) as [Hwithin Hincl].
    rewrite Hpkg, Hisdir, Hn.
    eapply walks_step_event; [reflexivity|reflexivity|]. cbv beta.
    eapply walks_step;
      [apply when_emit_run|destruct (isShowInclusion (options env)); reflexivity|].
    cbv beta. rewrite Hdir.
    eapply walks_ext; [apply for_each_package_children|].
    apply IH; auto.
  - apply andb_true_iff in Hshape as [Hnotpkg Hplain].
    apply negb_true_iff in Hnotpkg. rewrite Hnotpkg, Hplain, Hn.
    apply (walks_last (emit (AddRootModule (name_below env path parent)))
             (with_imported env module s) (with_imported env module s)
             [AddRootModule (name_below env path parent)]); auto.
Qed.

(** The single path check of a path of the tree. *)
Lemma node_walks (depth : nat) (path parent : string) (s : Session) :
  tree_walked env tree depth ->
  In (path, parent) tree ->
  (is_sub_package env path = true ->
   tree_within env depth path = true
   /\ incl (package_tree env depth path (name_below env path parent)) tree) ->
  decision_cache_sound env s ->
  cache_fits env tree s = true ->
  walks env tree (checkPluginSinglePath env (S depth) path (Some parent)) s
    (tree_events env
       ((path, parent)
        :: (if is_sub_package env path
            then package_tree env depth path (name_below env path parent)
            else []))).
Proof.
  intros IH Hin Hsub Hs Hc.
  pose proof (tree_included _ Hin) as Hnode.
  unfold node_included in Hnode. cbn [fst snd] in Hnode. cbv zeta in Hnode.
  set (filename := OsPath.abspath (cwd env) path) in *.
  set (name := name_below env path parent) in *.
  apply andb_true_iff in Hnode as [Hcanon Hnode]. apply String.eqb_eq in Hcanon.
  destruct (snd (getModuleNameAndKindFromFilename env filename)) as [kind|] eqn:Hkind;
    [|discriminate].
  apply andb_true_iff in Hnode as [Hnode Hbuild].
  apply andb_true_iff in Hnode as [Hdec Hhook].
  destruct (_decideRecursion env filename name (Some kind) true)
    as [[decision reason]|] eqn:Hd; [|discriminate].
  destruct (onModuleRecursion env filename name (Some kind) None None)
    as [[]|] eqn:Hh; [|discriminate].
  destruct (buildModule env filename name (is_extension_kind (Some kind)))
    as [[built added]|] eqn:Hb; [|discriminate].
  change (tree_events env
            ((path, parent)
             :: (if is_sub_package env path
                 then package_tree env depth path name else [])))
    with (EnterCheckPluginSinglePath path (Some parent)
          :: AddRootModule name
          :: tree_events env
               (if is_sub_package env path
                then package_tree env depth path name else [])).
  cbn [checkPluginSinglePath]. fold filename.
  change (ModuleName.makeModuleNameInPackage
            (fst (getModuleNameAndKindFromFilename env filename)) (Some parent))
    with name.
  rewrite Hkind.
  eapply walks_step_event; [reflexivity|reflexivity|]. cbv beta.
  eapply walks_step;
    [apply when_emit_run|destruct (isShowInclusion (options env)); reflexivity|].
  cbv beta.
  eapply walks_step; [reflexivity|reflexivity|]. cbv beta.
  eapply walks_step;
    [apply when_emit_run
    |destruct (is_extension_kind (Some kind) && negb (isStandaloneMode (options env)));
     reflexivity|].
  cbv beta.
  eapply walks_step;
    [apply (decideRecursion_stores env s filename name (Some kind) true _ Hs Hd)
    |reflexivity|].
  cbv beta zeta. cbn [fst snd]. rewrite Hdec.
  set (s1 := with_decision (filename, name, Some kind, true) (decision, reason) s).
  assert (Hs1 : decision_cache_sound env s1).
  { pose proof (decideRecursion_cached env s filename name (Some kind) true Hs)
      as (_ & _ & _ & Hsound).
    rewrite (decideRecursion_stores env s filename name (Some kind) true _ Hs Hd)
      in Hsound. exact Hsound. }
  assert (Hc1 : cache_fits env tree s1 = true) by exact Hc.
  destruct (imported_modules s1 !! (canonical_module_path env filename, name))
    as [cached|] eqn:Hl.
  - eapply walks_step;
      [apply (recurseTo_hit env false name filename (Some kind) None None reason s1
                cached Hl)
      |reflexivity|].
    cbv beta. unfold module_truth.
    apply (included_module_walks depth cached path parent s1); auto.
    rewrite Hcanon in Hl.
    exact (cache_fits_lookup s1 (path, parent) cached Hc1 Hin Hl).
  - eapply walks_step.
    + rewrite (recurseTo_miss env false name filename (Some kind) None None reason s1 Hl).
      rewrite Hh, Hb. reflexivity.
    + unfold first_build_log. rewrite andb_false_r. reflexivity.
    + cbv beta. unfold module_truth.
      apply (included_module_walks depth built path parent (with_imported env built s1));
        auto.
      apply (cache_fits_with_imported s1 path name built); auto.
Qed.

(** The walk over a list of children, each with what is beneath it. *)
Lemma children_walk (depth : nat) (parent : string) :
  tree_walked env tree depth ->
  forall (children : list (string * string)) (s : Session),
    forallb (fun entry =>
               negb (is_sub_package env (fst entry))
               || tree_within env depth (fst entry)) children = true ->
    incl (List.flat_map
            (fun entry =>
               (fst entry, parent)
               :: (if is_sub_package env (fst entry)
                   then package_tree env depth (fst entry)
                          (name_below env (fst entry) parent)
                   else []))
            children) tree ->
    decision_cache_sound env s ->
    cache_fits env tree s = true ->
    walks env tree
      (for_each children
         (fun entry => checkPluginSinglePath env (S depth) (fst entry) (Some parent)))
      s
      (tree_events env
         (List.flat_map
            (fun entry =>
               (fst entry, parent)
               :: (if is_sub_package env (fst entry)
                   then package_tree env depth (fst entry)
                          (name_below env (fst entry) parent)
                   else []))
            children)).
Proof.
  intros IH children.
  induction children as [|child rest IHc]; intros s Hall Hincl Hs Hc.
  - exists s, []. auto.
  - cbn [forallb] in Hall. apply andb_true_iff in Hall as [Hchild Hrest].
    cbn [List.flat_map] in *.
    apply incl_app_inv in Hincl as [Hhere Hthere].
    rewrite tree_events_app. cbn [for_each]. apply walks_seq.
    + apply node_walks; auto.
      * apply Hhere. left. reflexivity.
      * intros Hsp. rewrite Hsp in *. cbn [negb orb] in Hchild. split; [exact Hchild|].
        intros node Hnode. apply Hhere. right. exact Hnode.
    + intros s1 Hs1 Hc1. apply IHc; auto.
Qed.

Lemma tree_is_walked (depth : nat) : tree_walked env tree depth.
Proof.
  induction depth as [|depth IH]; intros dir parent s Hwithin Hincl Hs Hc.
  - cbn [tree_within] in Hwithin.
    destruct (List.filter (package_child_checked env) (listDir env dir));
      [|discriminate].
    exists s, []. auto.
  - cbn [tree_within package_tree] in *. apply children_walk; auto.
Qed.

End TreeWalk.

Lemma count_walk_events (path : string) (l : list Event) :
  count (is_check_of path) (List.filter is_walk_event l) = count (is_check_of path) l.
Proof.
  unfold count. induction l as [|e l IH]; [reflexivity|].
  destruct e as [m|m|a b c d|a b c d e'|a b c|a b c|a b c d e'|m|f pkg];
    cbn [List.filter is_walk_event is_check_of]; try exact IH.
  destruct (String.eqb f path); cbn [length]; rewrite IH; reflexivity.
Qed.

Lemma count_tree_events (path : string) (nodes : list (string * string)) :
  count (is_check_of path) (tree_events env nodes)
  = length (List.filter (fun p => String.eqb p path) (map fst nodes)).
Proof.
  unfold count, tree_events. induction nodes as [|node nodes IH]; [reflexivity|].
  cbn [List.flat_map app map List.filter is_check_of].
  destruct (String.eqb (fst node) path); cbn [length]; rewrite IH; reflexivity.
Qed.

Lemma occurrences_absent (path : string) (paths : list string) :
  ~ In path paths -> length (List.filter (fun p => String.eqb p path) paths) = 0.
Proof.
  induction paths as [|p paths IH]; intros Hnot; [reflexivity|].
  cbn [List.filter]. destruct (String.eqb p path) eqn:Heq.
  - apply String.eqb_eq in Heq. exfalso. apply Hnot. left. exact Heq.
  - apply IH. intros Hin. apply Hnot. right. exact Hin.
Qed.

Lemma occurrences_once (path : string) (paths : list string) :
  List.NoDup paths -> In path paths ->
  length (List.filter (fun p => String.eqb p path) paths) = 1.
Proof.
  induction paths as [|p paths IH]; intros Hnodup Hin; [destruct Hin|].
  apply List.NoDup_cons_iff in Hnodup as [Hfresh Hnodup].
  cbn [List.filter]. destruct (String.eqb p path) eqn:Heq.
  - apply String.eqb_eq in Heq. subst p. cbn [length].
    rewrite (occurrences_absent path paths Hfresh). reflexivity.
  - apply String.eqb_neq in Heq. destruct Hin as [Hin|Hin]; [contradiction|].
    apply IH; auto.
Qed.

(** C7, as amended: for a package kept in a directory with an init file,
    [_addIncludedModule] registers the module in the identity cache and as
    a root, and then hands to the single path check, in the order of the
    listing and each once until one of these checks raises, those immediate
    children of the directory that are neither the init file nor the
    bytecode cache and that are a package directory without a module file
    of the same name beside it or have a path ending in [.py]; each call
    names the package as the parent.  No other child is checked.  Where
    the collaborators let every path of the tree beneath the package in,
    the identity cache holds nothing else for these paths and the depth
    suffices, the walk returns and the whole tree is pulled in: its events
    are the root of the package and then one check and one root for every
    source file and sub-package of the tree, depth first in the order of
    the listings; a path outside the tree is not checked, and in a tree
    without a repeated path every path is checked exactly once. *)
Theorem package_children_checked_once (depth : nat) (module : Module) (s : Session) :
  (isCompiledPythonPackage module || isUncompiledPythonPackage module) = true ->
  isdir env (getFilename module) = false ->
  _addIncludedModule env depth module s
  = (real_package_prologue env module ;;
     for_each (List.filter (package_child_checked env)
                 (listDir env (OsPath.dirname (getFilename module))))
       (fun entry =>
          checkPluginSinglePath env depth (fst entry) (Some (getFullName module)))) s
  /\ (forall sub_path,
         package_child_checked env (sub_path, "__init__.py") = false
         /\ package_child_checked env (sub_path, "__pycache__") = false)
  /\ (forall sub_path sub_filename,
         package_child_checked env (sub_path, sub_filename) = true ->
         PyStr.endswith sub_path ".py" = true \/ isPackageDir env sub_path = true)
  /\ (let dir := OsPath.dirname (getFilename module) in
      let tree := package_tree env depth dir (getFullName module) in
      let run := _addIncludedModule env depth module s in
      tree_within env depth dir = true ->
      forallb (node_included env) tree = true ->
      decision_cache_sound env s ->
      cache_fits env tree (with_imported env module s) = true ->
      outcome_of run = Normal tt
      /\ List.filter is_walk_event (log_of run)
         = AddRootModule (getFullName module) :: tree_events env tree
      /\ (forall path, ~ In path (map fst tree) ->
                       count (is_check_of path) (log_of run) = 0)
      /\ (List.NoDup (map fst tree) ->
          forall path, In path (map fst tree) ->
                       count (is_check_of path) (log_of run) = 1)).
Proof.
  intros Hpkg Hdir.
  assert (Hrun :
    _addIncludedModule env depth module s
    = (real_package_prologue env module ;;
       for_each (List.filter (package_child_checked env)
                   (listDir env (OsPath.dirname (getFilename module))))
         (fun entry =>
            checkPluginSinglePath env depth (fst entry) (Some (getFullName module)))) s).
  { unfold _addIncludedModule, _addIncludedModule_with, real_package_prologue.
    rewrite Hpkg, Hdir.
    unfold when, info.
    destruct (isShowInclusion (options env)).
    all: unfold bind, emit, addImportedModule, ret; cbn [fst snd app].
    all: rewrite for_each_package_children.
    all: match goal with
      | |- context [for_each ?l ?b ?s] => destruct (for_each l b s) as [[o s2] l2]
      end; reflexivity. }
  split; [exact Hrun|]. split; [|split].
  - intros sub_path. split; reflexivity.
  - intros sub_path sub_filename H. unfold package_child_checked in H. cbn [fst snd] in H.
    apply andb_true_iff in H as [_ H]. apply orb_true_iff in H as [H|H].
    + apply andb_true_iff in H as [H _]. right. exact H.
    + left. exact H.
  - intros dir tree run Hwithin Hnodes Hsound Hcache.
    rewrite forallb_forall in Hnodes.
    assert (Hwalk :
      walks env tree
        (real_package_prologue env module ;;
         for_each (List.filter (package_child_checked env) (listDir env dir))
           (fun entry =>
              checkPluginSinglePath env depth (fst entry) (Some (getFullName module))))
        s (AddRootModule (getFullName module) :: tree_events env tree)).
    { unfold real_package_prologue.
      change (AddRootModule (getFullName module) :: tree_events env tree)
        with ([AddRootModule (getFullName module)] ++ tree_events env tree).
      apply walks_seq.
      - eapply walks_step;
          [apply when_emit_run|destruct (isShowInclusion (options env)); reflexivity|].
        cbv beta.
        eapply walks_step; [reflexivity|reflexivity|]. cbv beta.
        fold (with_imported env module s).
        eapply walks_step_event; [reflexivity|reflexivity|]. cbv beta.
        apply (walks_silent_last tree _ (with_imported env module s)
                 (with_imported env module s)
                 (if isShowInclusion (options env)
                  then [LogInfo ("Package directory '"
                                 +:+ OsPath.dirname (getFilename module) +:+ "'.")]
                  else [])); auto.
        + apply when_emit_run.
        + destruct (isShowInclusion (options env)); reflexivity.
      - intros s1 Hs1 Hc1.
        apply (tree_is_walked tree Hnodes depth dir (getFullName module) s1); auto.
        apply incl_refl. }
    destruct Hwalk as (s' & l & Hl & Hev & _ & _).
    subst run. rewrite Hrun. fold dir. rewrite Hl.
    unfold outcome_of, log_of. cbn [fst snd].
    split; [reflexivity|]. split; [exact Hev|]. split.
    + intros path Hnot. rewrite <- count_walk_events, Hev.
      change (AddRootModule (getFullName module) :: tree_events env tree)
        with ([AddRootModule (getFullName module)] ++ tree_events env tree).
      rewrite count_app, count_tree_events, (occurrences_absent path _ Hnot).
      reflexivity.
    + intros Hnodup path Hin. rewrite <- count_walk_events, Hev.
      change (AddRootModule (getFullName module) :: tree_events env tree)
        with ([AddRootModule (getFullName module)] ++ tree_events env tree).
      rewrite count_app, count_tree_events, (occurrences_once path _ Hnodup Hin).
      reflexivity.
Qed.

End PackageWalk.

Lemma package_children_checked_once_witness :
  _addIncludedModule (Demo.world (Demo.follow_all true)) 3 pkg_module empty_session
  = (real_package_prologue (Demo.world (Demo.follow_all true)) pkg_module ;;
     for_each [("/work/pkg/sub", "sub"); ("/work/pkg/a.py", "a.py")]
       (fun entry =>
          checkPluginSinglePath (Demo.world (Demo.follow_all true)) 3 (fst entry)
            (Some "pkg"))) empty_session
  /\ List.filter is_walk_event
       (log_of (_addIncludedModule (Demo.world (Demo.follow_all true)) 3 pkg_module
                  empty_session))
     = [AddRootModule "pkg";
        EnterCheckPluginSinglePath "/work/pkg/sub" (Some "pkg");
        AddRootModule "pkg.sub";
        EnterCheckPluginSinglePath "/work/pkg/sub/b.py" (Some "pkg.sub");
        AddRootModule "pkg.sub.b";
        EnterCheckPluginSinglePath "/work/pkg/a.py" (Some "pkg");
        AddRootModule "pkg.a"]
  /\ count (is_check_of "/work/pkg/sub/b.py")
       (log_of (_addIncludedModule (Demo.world (Demo.follow_all true)) 3 pkg_module
                  empty_session)) = 1.
Proof.
  pose proof (package_children_checked_once (Demo.world (Demo.follow_all true)) 3
                pkg_module empty_session eq_refl eq_refl) as (Hrun & _ & _ & Htree).
  split; [exact Hrun|].
  destruct (Htree ltac:(vm_compute; reflexivity) ltac:(vm_compute; reflexivity)
              (decision_cache_sound_empty (Demo.world (Demo.follow_all true)))
              ltac:(vm_compute; reflexivity))
    as (_ & Hevents & _ & Honce).
  split; [rewrite Hevents; vm_compute; reflexivity|].
  apply Honce.
  - vm_compute.
    repeat (apply List.NoDup_cons; [intros Hin; vm_compute in Hin; intuition discriminate|]).
    apply List.NoDup_nil.
  - vm_compute. tauto.
Defined.

Example package_walk_log :
  log_of (_addIncludedModule (Demo.world (Demo.follow_all true)) 3 pkg_module empty_session)
  = [AddRootModule "pkg";
     EnterCheckPluginSinglePath "/work/pkg/sub" (Some "pkg");
     CallOnModuleRecursion "/work/pkg/sub" "pkg.sub" (Some py) None None;
     CallBuildModule "/work/pkg/sub" "pkg.sub" false;
     AddRootModule "pkg.sub";
     EnterCheckPluginSinglePath "/work/pkg/sub/b.py" (Some "pkg.sub");
     CallOnModuleRecursion "/work/pkg/sub/b.py" "pkg.sub.b" (Some py) None None;
     CallBuildModule "/work/pkg/sub/b.py" "pkg.sub.b" false;
     AddRootModule "pkg.sub.b";
     EnterCheckPluginSinglePath "/work/pkg/a.py" (Some "pkg");
     CallOnModuleRecursion "/work/pkg/a.py" "pkg.a" (Some py) None None;
     CallBuildModule "/work/pkg/a.py" "pkg.a" false;
     AddRootModule "pkg.a"].
Proof. vm_compute. reflexivity. Qed.

(** C7, as the design document has it, fails: the extension module
    [speed.so] and the data file [data.txt] are immediate children of the
    package directory, neither the init file nor the bytecode cache, and
    the walk over the package checks neither; checked on its own in a
    standalone build, the extension module would be included.  Nor is the
    tree beneath the package pulled in whatever the collaborators say:
    where the user asks not to follow into [pkg.sub], the walk returns
    without a check of the source file [pkg/sub/b.py]. *)
Lemma package_child_unchecked_counterexample :
  In ("/work/pkg/speed.so", "speed.so")
     (listDir (Demo.world (Demo.follow_all true)) "/work/pkg")
  /\ In ("/work/pkg/data.txt", "data.txt")
        (listDir (Demo.world (Demo.follow_all true)) "/work/pkg")
  /\ isdir (Demo.world (Demo.follow_all true)) (getFilename pkg_module) = false
  /\ outcome_of (_addIncludedModule (Demo.world (Demo.follow_all true)) 3 pkg_module
                   empty_session) = Normal tt
  /\ count (is_check_of "/work/pkg/speed.so")
       (log_of (_addIncludedModule (Demo.world (Demo.follow_all true)) 3 pkg_module
                  empty_session)) = 0
  /\ count (is_check_of "/work/pkg/data.txt")
       (log_of (_addIncludedModule (Demo.world (Demo.follow_all true)) 3 pkg_module
                  empty_session)) = 0
  /\ count (is_check_of "/work/pkg/a.py")
       (log_of (_addIncludedModule (Demo.world (Demo.follow_all true)) 3 pkg_module
                  empty_session)) = 1
  /\ log_of (checkPluginSinglePath (Demo.world (Demo.follow_all true)) 3
               "/work/pkg/speed.so" (Some "pkg") empty_session)
     = [EnterCheckPluginSinglePath "/work/pkg/speed.so" (Some "pkg");
        CallOnModuleRecursion "/work/pkg/speed.so" "pkg.speed" (Some extension) None None;
        CallBuildModule "/work/pkg/speed.so" "pkg.speed" true;
        AddRootModule "pkg.speed"]
  /\ In ("/work/pkg/sub/b.py", "pkg.sub")
        (package_tree no_sub_world 3 "/work/pkg" "pkg")
  /\ outcome_of (_addIncludedModule no_sub_world 3 pkg_module empty_session) = Normal tt
  /\ count (is_check_of "/work/pkg/sub/b.py")
       (log_of (_addIncludedModule no_sub_world 3 pkg_module empty_session)) = 0.
Proof.
  split; [vm_compute; tauto|]. split; [vm_compute; tauto|].
  split; [reflexivity|]. split; [vm_compute; reflexivity|].
  split; [vm_compute; reflexivity|]. split; [vm_compute; reflexivity|].
  split; [vm_compute; reflexivity|]. split; [vm_compute; reflexivity|].
  split; [vm_compute; tauto|].
  split; vm_compute; reflexivity.
Qed.

(** A check that raises ends the walk: with a plugin that raises at every
    encounter, the first child is entered and the source file after it is
    not. *)
Example raising_check_ends_the_walk :
  outcome_of (_addIncludedModule raising_world 3 pkg_module empty_session)
  = Raised (NuitkaForbiddenImportEncounter "x" "y")
  /\ count (is_check_of "/work/pkg/sub")
       (log_of (_addIncludedModule raising_world 3 pkg_module empty_session)) = 1
  /\ count (is_check_of "/work/pkg/a.py")
       (log_of (_addIncludedModule raising_world 3 pkg_module empty_session)) = 0.
Proof. repeat split; vm_compute; reflexivity. Qed.

(** A sub-package that is refused is warned about and not walked; the
    source file beside it is included. *)
Example refused_sub_package_is_not_walked :
  log_of (_addIncludedModule no_sub_world 3 pkg_module empty_session)
  = [AddRootModule "pkg";
     EnterCheckPluginSinglePath "/work/pkg/sub" (Some "pkg");
     LogWarning ("Not allowed to include module 'pkg.sub' due to "
                 +:+ "'Module is exact match of 'pkg.sub' instructed by user to not follow to.'.");
     EnterCheckPluginSinglePath "/work/pkg/a.py" (Some "pkg");
     CallOnModuleRecursion "/work/pkg/a.py" "pkg.a" (Some py) None None;
     CallBuildModule "/work/pkg/a.py" "pkg.a" false;
     AddRootModule "pkg.a"].
Proof. vm_compute. reflexivity. Qed.

(** *** The pattern check *)

Section PatternCheck.

Variable env : Env.

(** The loop of the pattern check hands the usable matches to the single
    path check, in order, and ends with [found] set when there was one. *)
Lemma checkPluginFilenamePattern_loop_delegates (depth : nat) (filenames : list string) :
  forall (found : bool) (s : Session),
    checkPluginFilenamePattern_loop env depth filenames found s
    = match for_each (List.filter (usable_match env) filenames)
              (fun filename => checkPluginSinglePath env depth filename None) s with
      | (Normal _, s1, l1) =>
          (Normal (found || negb (PyStr.is_nil (List.filter (usable_match env) filenames))),
           s1, l1)
      | (Raised e, s1, l1) => (Raised e, s1, l1)
      end.
Proof.
  induction filenames as [|filename rest IH]; intros found s.
  - cbn. rewrite orb_false_r. reflexivity.
  - cbn [checkPluginFilenamePattern_loop List.filter].
    assert (Hu : usable_match env filename
                 = negb (PyStr.endswith filename ".pyc") && isfile env filename)
      by reflexivity.
    rewrite Hu.
    destruct (PyStr.endswith filename ".pyc"); cbn [negb andb]; [apply IH|].
    destruct (isfile env filename); cbn [negb]; [|apply IH].
    cbn [for_each PyStr.is_nil negb]. unfold bind.
    destruct (checkPluginSinglePath env depth filename None s) as [[[[]|e] s1] l1];
      [|reflexivity].
    rewrite IH, orb_true_r.
    destruct (for_each _ _ s1) as [[[[]|e] s2] l2]; reflexivity.
Qed.

Lemma didnt_match_not_walker_warning (pattern : string) :
  (forall x, is_warning_of (didnt_match_warning pattern)
               (LogWarning ("Cannot include extension module '" +:+ x)) = false)
  /\ (forall x, is_warning_of (didnt_match_warning pattern)
                  (LogWarning ("Failed to include module from '" +:+ x)) = false)
  /\ (forall x, is_warning_of (didnt_match_warning pattern)
                  (LogWarning ("Not allowed to include module '" +:+ x)) = false).
Proof. repeat split; intros x; reflexivity. Qed.

Lemma count_didnt_match_checks (pattern : string) (depth : nat) (filenames : list string)
      (s : Session) :
  count (is_warning_of (didnt_match_warning pattern))
    (log_of (for_each filenames
               (fun filename => checkPluginSinglePath env depth filename None) s)) = 0.
Proof.
  destruct (didnt_match_not_walker_warning pattern) as (H1 & H2 & H3).
  apply (quiet_for_each (is_warning_of (didnt_match_warning pattern))).
  intros filename.
  apply (quiet_checkPluginSinglePath env (is_warning_of (didnt_match_warning pattern)));
    auto.
Qed.

Lemma is_warning_of_refl (message : string) :
  is_warning_of message (LogWarning message) = true.
Proof. apply String.eqb_refl. Qed.

Lemma count_warning_itself (message : string) :
  count (is_warning_of message) [LogWarning message] = 1.
Proof. unfold count. cbn. rewrite String.eqb_refl. reflexivity. Qed.

(** C9: for a pattern that is no directory, [checkPluginFilenamePattern]
    is the run of the single path check, without a parent package, over the
    matches of the pattern that are a plain file and no [.pyc], in the order
    of the expansion and with the session handed from one to the next,
    followed by the warning that nothing matched when there is no such
    match; a check that raises ends the run.  The warning is logged exactly
    once when there is no usable match and never otherwise; with no usable
    match, and so with no match at all, the run returns with the session as
    it was and without a check or a build. *)
Theorem pattern_check_warns_iff_no_usable_match (depth : nat) (pattern : string)
        (s : Session) :
  isdir env pattern = false ->
  let usable := List.filter (usable_match env) (iglob env pattern) in
  let r := checkPluginFilenamePattern env depth pattern s in
  r = (when (isShowInclusion (options env))
            (info ("Checking plug-in pattern '" +:+ pattern +:+ "':")) ;;
       for_each usable (fun filename => checkPluginSinglePath env depth filename None) ;;
       when (PyStr.is_nil usable) (warning (didnt_match_warning pattern))) s
  /\ checkPluginFilenamePattern_loop env depth (iglob env pattern) false s
  = match for_each usable
            (fun filename => checkPluginSinglePath env depth filename None) s with
    | (Normal _, s1, l1) => (Normal (negb (PyStr.is_nil usable)), s1, l1)
    | (Raised e, s1, l1) => (Raised e, s1, l1)
    end
  /\ count (is_warning_of (didnt_match_warning pattern)) (log_of r)
     = (if PyStr.is_nil usable then 1 else 0)
  /\ (usable = [] ->
      outcome_of r = Normal tt
      /\ session_of r = s
      /\ List.filter (fun e => negb (is_warning_of (didnt_match_warning pattern) e))
           (log_of r)
         = (if isShowInclusion (options env)
            then [LogInfo ("Checking plug-in pattern '" +:+ pattern +:+ "':")] else [])).
Proof.
  intros Hdir usable r. subst r.
  pose proof (checkPluginFilenamePattern_loop_delegates depth (iglob env pattern) false s)
    as Hloop.
  fold usable in Hloop. cbn [orb] in Hloop.
  split.
  { clearbody usable.
    unfold checkPluginFilenamePattern, when, info, warning. rewrite Hdir.
    destruct (isShowInclusion (options env));
      unfold bind, assert, emit, ret; cbn [negb]; rewrite Hloop;
      destruct (for_each usable _ s) as [[[[]|e] s1] l1]; try reflexivity;
      rewrite negb_involutive; destruct (PyStr.is_nil usable); reflexivity. }
  split; [exact Hloop|].
  pose proof (count_didnt_match_checks pattern depth usable s) as Hquiet.
  clearbody usable.
  unfold checkPluginFilenamePattern, when, info, warning. rewrite Hdir.
  destruct (isShowInclusion (options env));
    unfold bind, assert, emit, ret; cbn [negb]; rewrite Hloop;
    destruct (for_each usable _ s) as [[[[]|e] s1] l1] eqn:Hfor;
    unfold log_of, session_of, outcome_of in *; cbn [fst snd] in *;
    (split; [|intros Hnil; rewrite Hnil in *; cbn in Hfor; inversion Hfor; subst;
              cbn [PyStr.is_nil negb app fst snd];
              repeat split;
              cbn [List.filter is_warning_of negb]; rewrite String.eqb_refl;
              reflexivity]).
  - destruct (PyStr.is_nil usable); cbn [negb fst snd];
      rewrite !count_app, Hquiet, ?count_warning_itself; reflexivity.
  - destruct usable as [|u us]; [cbn in Hfor; discriminate|].
    cbn [fst snd PyStr.is_nil]. rewrite !count_app, Hquiet. reflexivity.
  - destruct (PyStr.is_nil usable); cbn [negb fst snd];
      rewrite !count_app, Hquiet, ?count_warning_itself; reflexivity.
  - destruct usable as [|u us]; [cbn in Hfor; discriminate|].
    cbn [fst snd PyStr.is_nil app]. rewrite Hquiet. reflexivity.
Qed.

End PatternCheck.

Lemma pattern_check_warns_iff_no_usable_match_witness :
  checkPluginFilenamePattern (Demo.world Demo.default_options) 2 "/work/plugins/*"
    empty_session
  = (when false (info "Checking plug-in pattern '/work/plugins/*':") ;;
     for_each ["/work/plugins/x.py"]
       (fun filename =>
          checkPluginSinglePath (Demo.world Demo.default_options) 2 filename None) ;;
     when false (warning (didnt_match_warning "/work/plugins/*"))) empty_session
  /\ count (is_warning_of (didnt_match_warning "/work/plugins/*.ext"))
       (log_of (checkPluginFilenamePattern (Demo.world Demo.default_options) 2
                  "/work/plugins/*.ext" empty_session)) = 1
  /\ count (is_warning_of (didnt_match_warning "/work/plugins/*"))
       (log_of (checkPluginFilenamePattern (Demo.world Demo.default_options) 2
                  "/work/plugins/*" empty_session)) = 0.
Proof.
  split; [|split].
  - exact (proj1 (pattern_check_warns_iff_no_usable_match
                    (Demo.world Demo.default_options) 2 "/work/plugins/*"
                    empty_session eq_refl)).
  - exact (proj1 (proj2 (proj2 (pattern_check_warns_iff_no_usable_match
                                  (Demo.world Demo.default_options) 2
                                  "/work/plugins/*.ext" empty_session eq_refl)))).
  - exact (proj1 (proj2 (proj2 (pattern_check_warns_iff_no_usable_match
                                  (Demo.world Demo.default_options) 2 "/work/plugins/*"
                                  empty_session eq_refl)))).
Defined.

Example pattern_without_match :
  checkPluginFilenamePattern (Demo.world Demo.default_options) 2 "/work/plugins/*.ext"
    empty_session
  = (Normal tt, empty_session,
     [LogWarning "Didn't match any files against pattern '/work/plugins/*.ext'."]).
Proof. vm_compute. reflexivity. Qed.

Example pattern_skips_stale_bytecode :
  log_of (checkPluginFilenamePattern (Demo.world Demo.default_options) 2 "/work/plugins/*"
            empty_session)
  = [EnterCheckPluginSinglePath "/work/plugins/x.py" None;
     CallOnModuleRecursion "/work/plugins/x.py" "x" (Some py) None None;
     CallBuildModule "/work/plugins/x.py" "x" false;
     AddRootModule "x"].
Proof. vm_compute. reflexivity. Qed.

Example pattern_with_only_bytecode_warns :
  log_of (checkPluginFilenamePattern (Demo.world Demo.default_options) 2
            "/work/plugins/*.pyc" empty_session)
  = [LogWarning "Didn't match any files against pattern '/work/plugins/*.pyc'."].
Proof. vm_compute. reflexivity. Qed.

(** * Further properties of the module *)

(** ** The decision cache *)

(** X1: [decideRecursion] memoizes.  A decision that was returned is in the
    cache afterwards, and a second call with the same key returns it again
    without changing the session; and whatever the cache holds for a key
    is returned as it is, without a new computation and without a change
    of the session. *)
Theorem decideRecursion_memoizes
        (env : Env) (module_filename module_name : string)
        (module_kind : option ModuleKind) (extra_recursion : bool) (s : Session) :
  (forall decided s' l,
      decideRecursion env module_filename module_name module_kind extra_recursion s
      = (Normal decided, s', l) ->
      l = []
      /\ recursion_decision_cache s'
           !! (module_filename, module_name, module_kind, extra_recursion) = Some decided
      /\ imported_modules s' = imported_modules s
      /\ decideRecursion env module_filename module_name module_kind extra_recursion s'
         = (Normal decided, s', []))
  /\ (forall cached,
         recursion_decision_cache s
           !! (module_filename, module_name, module_kind, extra_recursion) = Some cached ->
         decideRecursion env module_filename module_name module_kind extra_recursion s
         = (Normal cached, s, [])).
Proof.
  split.
  - intros decided s' l H. unfold decideRecursion in H.
    destruct (recursion_decision_cache s !! _) as [c|] eqn:Hc.
    + inversion H; subst; clear H.
      split; [reflexivity|]. split; [assumption|]. split; [reflexivity|].
      unfold decideRecursion.
      match goal with Hk : _ !! _ = Some _ |- _ => rewrite Hk end. reflexivity.
    + destruct (_decideRecursion env module_filename module_name module_kind
                  extra_recursion) as [v|e]; [|discriminate].
      inversion H; subst; clear H. cbn [recursion_decision_cache imported_modules].
      split; [reflexivity|]. split; [apply lookup_insert_eq|]. split; [reflexivity|].
      unfold decideRecursion. cbn [recursion_decision_cache].
      rewrite lookup_insert_eq. reflexivity.
  - intros cached Hc. unfold decideRecursion, DecisionKey in *. cbv zeta.
    rewrite Hc. reflexivity.
Qed.

Lemma decideRecursion_memoizes_witness :
  decideRecursion (Demo.world Demo.follow_none) "/work/pkg/a.py" "pkg.a" (Some py) false
    stale_session
  = (Normal (Include, "decided earlier"), stale_session, []).
Proof.
  apply (proj2 (decideRecursion_memoizes (Demo.world Demo.follow_none) "/work/pkg/a.py"
                  "pkg.a" (Some py) false stale_session)).
  reflexivity.
Defined.

(** X2: an exception raised while a decision is computed, as by the plugin
    hook for a module that is neither the main module nor skipped in
    package mode, leaves [decideRecursion] with that exception, and nothing
    is stored: the session is as before, so a later call asks again. *)
Theorem decideRecursion_exception_is_not_cached
        (env : Env) (module_filename module_name : string)
        (module_kind : option ModuleKind) (extra_recursion : bool) (s : Session)
        (e : Exn) :
  recursion_decision_cache s
    !! (module_filename, module_name, module_kind, extra_recursion) = None ->
  module_name <> "__main__" ->
  (package_mode_main env module_name && in_root_package env module_name) = false ->
  onModuleEncounter env module_filename module_name module_kind = Raised e ->
  decideRecursion env module_filename module_name module_kind extra_recursion s
  = (Raised e, s, []).
Proof.
  intros Hc Hmain Hpkg Hplugin. unfold decideRecursion, DecisionKey in *. cbv zeta.
  rewrite Hc.
  unfold _decideRecursion. rewrite (not_main_eqb _ Hmain), Hplugin.
  destruct (package_mode_main env module_name); cbn [andb] in Hpkg;
    [rewrite Hpkg|]; reflexivity.
Qed.

Lemma decideRecursion_exception_is_not_cached_witness :
  decideRecursion raising_world "/work/pkg/a.py" "pkg.a" (Some py) false empty_session
  = (Raised (NuitkaForbiddenImportEncounter "x" "y"), empty_session, []).
Proof.
  apply (decideRecursion_exception_is_not_cached raising_world "/work/pkg/a.py" "pkg.a"
           (Some py) false empty_session).
  - reflexivity.
  - discriminate.
  - reflexivity.
  - reflexivity.
Defined.

(** ** What the explicit-request flag changes *)

Ltac split_decision :=
  repeat match goal with
         | |- context [match ?x with _ => _ end] => destruct x eqn:?
         end.

(** X3: the flag of an explicit request ([extra_recursion]) never turns a
    decision around.  With and without it the same exclusions and the same
    exceptions come out; what is included without it is included with it;
    and what is undecided without it stays as it was (a verdict of the
    plugins) or becomes an inclusion with the reason "Lives in plug-in
    directory.". *)
Theorem explicit_request_only_adds
        (env : Env) (module_filename module_name : string)
        (module_kind : option ModuleKind) :
  let imported := _decideRecursion env module_filename module_name module_kind false in
  let requested := _decideRecursion env module_filename module_name module_kind true in
  (forall reason, imported = Normal (Exclude, reason) <-> requested = Normal (Exclude, reason))
  /\ (forall e, imported = Raised e <-> requested = Raised e)
  /\ (forall reason,
         imported = Normal (Include, reason) ->
         requested = Normal (Include, reason)
         \/ requested = Normal (Include, "Lives in plug-in directory."))
  /\ (forall reason,
         imported = Normal (Undecided, reason) ->
         requested = Normal (Undecided, reason)
         \/ requested = Normal (Include, "Lives in plug-in directory.")).
Proof.
  unfold _decideRecursion, Include, Exclude, Undecided. cbv zeta.
  split_decision;
    (split; [|split; [|split]]); intros; try split; intros;
    try congruence; auto.
Qed.

(** X4: an explicit request is always decided.  For a module that is not
    the main module, not skipped in package mode, no extension module, and
    on which the plugins and the profile feedback are silent, the decision
    with the flag set is to exclude when a never-follow pattern matches and
    to include otherwise; it is never left undecided. *)
Theorem explicit_request_included_unless_vetoed
        (env : Env) (module_filename module_name : string)
        (module_kind : option ModuleKind) :
  module_name <> "__main__" ->
  (package_mode_main env module_name && in_root_package env module_name) = false ->
  onModuleEncounter env module_filename module_name module_kind = Normal None ->
  module_kind <> Some extension ->
  pgo_silent env module_filename module_name module_kind ->
  exists reason,
    _decideRecursion env module_filename module_name module_kind true
    = Normal (match ModuleName.matchesToShellPatterns (matchesToShellPattern env)
                      module_name (getShallFollowInNoCase (options env)) with
              | Some _ => Exclude
              | None => Include
              end, reason).
Proof.
  intros Hmain Hpkg Hplugin Hkind Hpgo.
  rewrite (_decideRecursion_reaches_patterns env module_filename module_name module_kind
             true Hmain Hpkg Hplugin Hkind Hpgo).
  destruct (ModuleName.matchesToShellPatterns _ module_name
              (getShallFollowInNoCase (options env))); [eexists; reflexivity|].
  destruct (ModuleName.matchesToShellPatterns _ module_name
              (getShallFollowModules (options env))); eexists; reflexivity.
Qed.

Lemma explicit_request_included_unless_vetoed_witness :
  exists reason,
    _decideRecursion (Demo.world Demo.follow_none) "/work/plugins/x.py" "x" (Some py) true
    = Normal (Include, reason).
Proof.
  apply (explicit_request_included_unless_vetoed (Demo.world Demo.follow_none)
           "/work/plugins/x.py" "x" (Some py)).
  - discriminate.
  - reflexivity.
  - reflexivity.
  - discriminate.
  - intros _. reflexivity.
Defined.

(** ** Profile feedback and the standard library *)

(** X5: for a file of the standard library, while that library is not
    followed, the profile feedback is not asked: the decision is the same
    whatever the compilation mode oracle and the profile oracle are. *)
Theorem stdlib_ignores_profile_feedback
        (env : Env) (mode : string -> string)
        (pgo : string -> option ModuleKind -> option bool)
        (module_filename module_name : string) (module_kind : option ModuleKind)
        (extra_recursion : bool) :
  isStandardLibraryPath env module_filename = true ->
  shallFollowStandardLibrary (options env) = false ->
  _decideRecursion (with_profile env mode pgo) module_filename module_name module_kind
    extra_recursion
  = _decideRecursion env module_filename module_name module_kind extra_recursion.
Proof.
  intros Hstd Hfollow.
  unfold _decideRecursion, package_mode_main, in_root_package, with_profile.
  cbn [options python_version cwd root_runtime_package onModuleEncounter
       isStandardLibraryPath isStandardLibraryNoAutoInclusionModule
       decideCompilationMode decideInclusionFromPGO matchesToShellPattern].
  rewrite Hstd, Hfollow. reflexivity.
Qed.

Lemma stdlib_ignores_profile_feedback_witness :
  _decideRecursion (with_profile (Demo.world (Demo.follow_all false))
                      (fun _ => "compiled") (fun _ _ => Some false))
    "/usr/lib/python3/json/__init__.py" "json" (Some py) false
  = _decideRecursion (Demo.world (Demo.follow_all false))
      "/usr/lib/python3/json/__init__.py" "json" (Some py) false.
Proof.
  apply (stdlib_ignores_profile_feedback (Demo.world (Demo.follow_all false))
           (fun _ => "compiled") (fun _ _ => Some false)
           "/usr/lib/python3/json/__init__.py" "json" (Some py) false);
    reflexivity.
Defined.

(** ** Following all imports *)

(** X6: with follow-all-imports on, a module reached over an import edge
    that gets as far as the options (not the main module, no extension, no
    verdict of plugins or profile, no pattern match, not followed as
    standard library) is included when its file is outside the standard
    library, even if follow-no-imports is on as well; a file of the
    standard library is included only when the module is marked for
    non-automatic inclusion, and is undecided otherwise. *)
Theorem follow_all_spares_standard_library
        (env : Env) (module_filename module_name : string)
        (module_kind : option ModuleKind) :
  module_name <> "__main__" ->
  (package_mode_main env module_name && in_root_package env module_name) = false ->
  onModuleEncounter env module_filename module_name module_kind = Normal None ->
  module_kind <> Some extension ->
  pgo_silent env module_filename module_name module_kind ->
  ModuleName.matchesToShellPatterns (matchesToShellPattern env) module_name
    (getShallFollowInNoCase (options env)) = None ->
  ModuleName.matchesToShellPatterns (matchesToShellPattern env) module_name
    (getShallFollowModules (options env)) = None ->
  (isStandardLibraryPath env module_filename && shallFollowStandardLibrary (options env))
  = false ->
  shallFollowAllImports (options env) = true ->
  _decideRecursion env module_filename module_name module_kind false
  = if isStandardLibraryPath env module_filename then
      if isStandardLibraryNoAutoInclusionModule env module_name then
        Normal (Include,
                "Instructed by user to follow all modules, including non-automatic standard library modules.")
      else Normal (Undecided, undecided_reason env)
    else
      Normal (Include, "Instructed by user to follow to all non-standard library modules.").
Proof.
  intros Hmain Hpkg Hplugin Hkind Hpgo Hnever Halways Hstd Hall.
  rewrite (_decideRecursion_reaches_patterns env module_filename module_name module_kind
             false Hmain Hpkg Hplugin Hkind Hpgo).
  rewrite Hnever, Halways, Hstd, Hall. unfold undecided_reason.
  destruct (isStandardLibraryPath env module_filename);
    destruct (isStandardLibraryNoAutoInclusionModule env module_name);
    destruct (shallFollowNoImports (options env)); reflexivity.
Qed.

Lemma follow_all_spares_standard_library_witness :
  _decideRecursion (Demo.world both_follow_flags) "/work/pkg/a.py" "pkg.a" (Some py) false
  = Normal (Include, "Instructed by user to follow to all non-standard library modules.")
  /\ _decideRecursion (Demo.world both_follow_flags) "/usr/lib/python3/json/__init__.py"
       "json" (Some py) false
     = Normal (Undecided, "Instructed by user to not follow at all.").
Proof.
  split.
  - apply (follow_all_spares_standard_library (Demo.world both_follow_flags)
             "/work/pkg/a.py" "pkg.a" (Some py));
      try reflexivity; try discriminate. intros _. reflexivity.
  - apply (follow_all_spares_standard_library (Demo.world both_follow_flags)
             "/usr/lib/python3/json/__init__.py" "json" (Some py));
      try reflexivity; try discriminate.
Defined.

(** ** Failure and success of a first build *)

(** X7: a first build that fails leaves no trace.  When the recursion hook
    raises, the builder is not called and the session is as before; when
    the builder raises, nothing is registered in the identity cache and
    nothing is signalled.  In both cases the exception is the outcome. *)
Theorem recurseTo_failure_leaves_no_trace
        (env : Env) (signal_change : bool) (module_name module_filename : string)
        (module_kind : option ModuleKind) (using_module_name source_ref : option string)
        (reason : string) (s : Session) (e : Exn) :
  imported_modules s !! (canonical_module_path env module_filename, module_name) = None ->
  (onModuleRecursion env module_filename module_name module_kind using_module_name
     source_ref = Raised e ->
   recurseTo env signal_change module_name module_filename module_kind
     using_module_name source_ref reason s
   = (Raised e, s,
      [CallOnModuleRecursion module_filename module_name module_kind
         using_module_name source_ref]))
  /\ (onModuleRecursion env module_filename module_name module_kind using_module_name
        source_ref = Normal tt ->
      buildModule env module_filename module_name (is_extension_kind module_kind)
      = Raised e ->
      recurseTo env signal_change module_name module_filename module_kind
        using_module_name source_ref reason s
      = (Raised e, s,
         [CallOnModuleRecursion module_filename module_name module_kind
            using_module_name source_ref;
          CallBuildModule module_filename module_name (is_extension_kind module_kind)])).
Proof.
  intros Hmiss. split.
  - intros Hhook. rewrite recurseTo_miss by exact Hmiss. rewrite Hhook. reflexivity.
  - intros Hhook Hbuild. rewrite recurseTo_miss by exact Hmiss.
    rewrite Hhook, Hbuild. reflexivity.
Qed.

Lemma recurseTo_failure_leaves_no_trace_witness :
  recurseTo (Demo.world Demo.default_options) true "tkinter"
    "/usr/lib/python3/tkinter/__init__.py" (Some py) (Some "main") None "asked for"
    empty_session
  = (Raised (NuitkaForbiddenImportEncounter "tkinter" "gui"), empty_session,
     [CallOnModuleRecursion "/usr/lib/python3/tkinter/__init__.py" "tkinter" (Some py)
        (Some "main") None])
  /\ recurseTo fragile_world true "pkg.sub.b" "/work/pkg/sub/b.py" (Some py) (Some "main")
       None "asked for" empty_session
     = (Raised (AssertionError "cannot build"), empty_session,
        [CallOnModuleRecursion "/work/pkg/sub/b.py" "pkg.sub.b" (Some py) (Some "main") None;
         CallBuildModule "/work/pkg/sub/b.py" "pkg.sub.b" false]).
Proof.
  split.
  - apply (proj1 (recurseTo_failure_leaves_no_trace (Demo.world Demo.default_options) true
                    "tkinter" "/usr/lib/python3/tkinter/__init__.py" (Some py)
                    (Some "main") None "asked for" empty_session
                    (NuitkaForbiddenImportEncounter "tkinter" "gui") eq_refl)).
    reflexivity.
  - apply (proj2 (recurseTo_failure_leaves_no_trace fragile_world true
                    "pkg.sub.b" "/work/pkg/sub/b.py" (Some py)
                    (Some "main") None "asked for" empty_session
                    (AssertionError "cannot build") eq_refl)); reflexivity.
Defined.

(** X8: a first build that succeeds registers the record the builder
    returned under that record's own file and name, returns it, and leaves
    every other entry of the identity cache and the whole decision cache
    as they were. *)
Theorem recurseTo_registers_built_module
        (env : Env) (signal_change : bool) (module_name module_filename : string)
        (module_kind : option ModuleKind) (using_module_name source_ref : option string)
        (reason : string) (s : Session) (module : Module) (added : bool) :
  imported_modules s !! (canonical_module_path env module_filename, module_name) = None ->
  onModuleRecursion env module_filename module_name module_kind using_module_name
    source_ref = Normal tt ->
  buildModule env module_filename module_name (is_extension_kind module_kind)
  = Normal (module, added) ->
  let r := recurseTo env signal_change module_name module_filename module_kind
             using_module_name source_ref reason s in
  outcome_of r = Normal module
  /\ imported_modules (session_of r)
       !! (canonical_module_path env (getFilename module), getFullName module)
     = Some module
  /\ (forall key,
         key <> (canonical_module_path env (getFilename module), getFullName module) ->
         imported_modules (session_of r) !! key = imported_modules s !! key)
  /\ recursion_decision_cache (session_of r) = recursion_decision_cache s.
Proof.
  intros Hmiss Hhook Hbuild r. subst r.
  rewrite recurseTo_miss by exact Hmiss. rewrite Hhook, Hbuild.
  unfold outcome_of, session_of, with_imported. cbn [fst snd imported_modules
    recursion_decision_cache].
  split; [reflexivity|]. split; [apply lookup_insert_eq|]. split; [|reflexivity].
  intros key Hkey. apply lookup_insert_ne. congruence.
Qed.

Lemma recurseTo_registers_built_module_witness :
  imported_modules
    (session_of (recurseTo (Demo.world Demo.default_options) true "pkg" "/work/pkg"
                   (Some py) None None "asked for" empty_session))
    !! ("/work/pkg", "pkg")
  = Some pkg_module.
Proof.
  exact (proj1 (proj2 (recurseTo_registers_built_module (Demo.world Demo.default_options)
                         true "pkg" "/work/pkg" (Some py) None None "asked for"
                         empty_session pkg_module true eq_refl eq_refl eq_refl))).
Defined.

(** ** More on the consumer of import edges *)

Section ConsumerMore.

Variable env : Env.

Lemma considerUsedModule_warn_count (module : Module) (signal_change : bool)
      (used_module : UsedModule) (s : Session) :
  count is_warn_about (log_of (considerUsedModule env module signal_change used_module s))
  = if is_not_found used_module then 1 else 0.
Proof.
  rewrite considerUsedModule_unfold. unfold is_not_found.
  destruct (um_filename used_module) as [f|]; [|apply count_warn_about_log].
  pose proof (try_forbidden_log
                (follow_used_module env module signal_change used_module f)
                (edge_exit module used_module) s (fun a b s1 => eq_refl)) as Hl.
  pose proof (follow_used_module_no_warn_about env module signal_change used_module f s)
    as Hn.
  destruct (try_forbidden _ _ s) as [[o s1] l1].
  unfold log_of in *; cbn [fst snd] in *. subst l1.
  rewrite count_app, count_warn_about_log, Hn. lia.
Qed.

Lemma for_each_cons_run {A} (x : A) (xs : list A) (body : A -> M unit) (s : Session) :
  for_each (x :: xs) body s
  = match body x s with
    | (Normal _, s1, l1) =>
        match for_each xs body s1 with
        | (o, s2, l2) => (o, s2, l1 ++ l2)
        end
    | (Raised e, s1, l1) => (Raised e, s1, l1)
    end.
Proof. reflexivity. Qed.

Lemma recurseTo_no_add_used (signal_change : bool) (module_name module_filename : string)
      (module_kind : option ModuleKind) (using_module_name source_ref : option string)
      (reason : string) (s : Session) :
  count is_add_used
    (log_of (recurseTo env signal_change module_name module_filename module_kind
               using_module_name source_ref reason s)) = 0.
Proof.
  destruct (imported_modules s !! (canonical_module_path env module_filename, module_name))
    as [m|] eqn:Hl.
  - rewrite (recurseTo_hit _ _ _ _ _ _ _ _ _ _ Hl). reflexivity.
  - rewrite (recurseTo_miss _ _ _ _ _ _ _ _ _ Hl).
    destruct (onModuleRecursion _ _ _ _ _ _) as [[]|e]; [|reflexivity].
    destruct (buildModule _ _ _ _) as [[m a]|e]; [|reflexivity].
    unfold log_of; cbn [snd]. rewrite count_first_build_log.
    destruct (a && signal_change); reflexivity.
Qed.

Lemma decision_cache_sound_same (s s' : Session) :
  recursion_decision_cache s' = recursion_decision_cache s ->
  decision_cache_sound env s -> decision_cache_sound env s'.
Proof. intros Heq Hs f n k x c. rewrite Heq. apply Hs. Qed.

Lemma with_decision_sound (s : Session) (module_filename module_name : string)
      (module_kind : option ModuleKind) (extra_recursion : bool)
      (decided : Decision * string) :
  decision_cache_sound env s ->
  _decideRecursion env module_filename module_name module_kind extra_recursion
  = Normal decided ->
  decision_cache_sound env
    (with_decision (module_filename, module_name, module_kind, extra_recursion) decided s).
Proof.
  intros Hs Hd f n k x c. unfold with_decision. cbn [recursion_decision_cache].
  destruct (decide ((module_filename, module_name, module_kind, extra_recursion)
                    = (f, n, k, x))) as [Heq|Hne].
  - inversion Heq; subst. rewrite lookup_insert_eq. intros [= <-]. exact Hd.
  - rewrite lookup_insert_ne by exact Hne. apply Hs.
Qed.

(** One turn of the loop that returns, from a sound cache: the cache stays
    sound and the usage is registered exactly when the edge is followed. *)
Lemma considerUsedModule_usage_count (module : Module) (signal_change : bool)
      (used_module : UsedModule) (s s1 : Session) (l1 : list Event) :
  decision_cache_sound env s ->
  considerUsedModule env module signal_change used_module s = (Normal tt, s1, l1) ->
  decision_cache_sound env s1
  /\ count is_add_used l1 = if is_followed env used_module then 1 else 0.
Proof.
  intros Hs Hrun. rewrite considerUsedModule_unfold in Hrun. unfold is_followed.
  assert (Hwarn : count is_add_used (warn_about_log module used_module) = 0)
    by (unfold warn_about_log; destruct (String.eqb _ _); reflexivity).
  destruct (um_filename used_module) as [f|].
  - unfold try_forbidden in Hrun.
    destruct (_decideRecursion env f (um_module_name used_module)
                (um_module_kind used_module) false) as [[d reason]|ex] eqn:Hd.
    + rewrite (follow_used_module_decided env module signal_change used_module f s
                 d reason Hs Hd) in Hrun.
      pose proof (with_decision_sound s f _ _ false (d, reason) Hs Hd) as Hs'.
      destruct (decision_truth d).
      * pose proof (recurseTo_keeps_decisions env signal_change
                      (um_module_name used_module) f (um_module_kind used_module)
                      (Some (getFullName module)) (Some (um_source_ref used_module))
                      reason
                      (with_decision (f, um_module_name used_module,
                                      um_module_kind used_module, false) (d, reason) s))
          as Hk.
        pose proof (recurseTo_no_add_used signal_change (um_module_name used_module) f
                      (um_module_kind used_module) (Some (getFullName module))
                      (Some (um_source_ref used_module)) reason
                      (with_decision (f, um_module_name used_module,
                                      um_module_kind used_module, false) (d, reason) s))
          as Hn.
        destruct (recurseTo env _ _ _ _ _ _ _ _) as [[[m|ex] s2] l2];
          unfold session_of, log_of in *; cbn [fst snd] in *.
        -- inversion Hrun; subst. split.
           ++ eapply decision_cache_sound_same; [exact Hk|exact Hs'].
           ++ rewrite !count_app, Hwarn, Hn. reflexivity.
        -- destruct ex; discriminate.
      * inversion Hrun; subst. split; [exact Hs'|].
        rewrite app_nil_r. exact Hwarn.
    + unfold follow_used_module in Hrun. unfold bind at 1 in Hrun.
      rewrite (decideRecursion_raises env s _ _ _ _ ex Hs Hd) in Hrun.
      destruct ex; discriminate.
  - inversion Hrun; subst. split; [exact Hs|exact Hwarn].
Qed.

(** X11: when the loop of [considerUsedModules] over the edges returns, it
    has emitted one unresolved-import warning per edge whose finding is
    "not-found", no more and no fewer, whether the edges carry files or
    not. *)
Theorem loop_warns_once_per_unresolved_edge
        (module : Module) (signal_change : bool) (edges : list UsedModule) (s : Session) :
  outcome_of (for_each edges (considerUsedModule env module signal_change) s) = Normal tt ->
  count is_warn_about
    (log_of (for_each edges (considerUsedModule env module signal_change) s))
  = length (List.filter is_not_found edges).
Proof.
  revert s. induction edges as [|e es IH]; intros s Hout; [reflexivity|].
  rewrite for_each_cons_run in *.
  pose proof (considerUsedModule_warn_count module signal_change e s) as Hone.
  destruct (considerUsedModule env module signal_change e s) as [[[[]|ex] s1] l1];
    [|discriminate Hout].
  specialize (IH s1).
  destruct (for_each es _ s1) as [[o s2] l2].
  unfold outcome_of, log_of in *; cbn [fst snd] in *.
  rewrite count_app, Hone, (IH Hout). cbn [List.filter].
  destruct (is_not_found e); reflexivity.
Qed.

(** X12: when the loop of [considerUsedModules] over the edges returns,
    starting from a sound decision cache, it has registered one usage per
    edge that has a file and is decided to be included, also for a module
    that was already built, and none for any other edge; and the decision
    cache is sound afterwards. *)
Theorem loop_registers_usage_per_followed_edge
        (module : Module) (signal_change : bool) (edges : list UsedModule) (s : Session) :
  decision_cache_sound env s ->
  outcome_of (for_each edges (considerUsedModule env module signal_change) s) = Normal tt ->
  count is_add_used
    (log_of (for_each edges (considerUsedModule env module signal_change) s))
  = length (List.filter (is_followed env) edges)
  /\ decision_cache_sound env
       (session_of (for_each edges (considerUsedModule env module signal_change) s)).
Proof.
  revert s. induction edges as [|e es IH]; intros s Hs Hout; [split; [reflexivity|exact Hs]|].
  rewrite for_each_cons_run in *.
  destruct (considerUsedModule env module signal_change e s) as [[[[]|ex] s1] l1] eqn:Hrun;
    [|discriminate Hout].
  destruct (considerUsedModule_usage_count module signal_change e s s1 l1 Hs Hrun)
    as [Hs1 Hone].
  specialize (IH s1 Hs1).
  destruct (for_each es _ s1) as [[o s2] l2].
  unfold outcome_of, log_of, session_of in *; cbn [fst snd] in *.
  destruct (IH Hout) as [Hcount Hs2]. split; [|exact Hs2].
  rewrite count_app, Hone, Hcount. cbn [List.filter].
  destruct (is_followed env e); reflexivity.
Qed.

(** X10: an edge to a module that is already in the identity cache, decided
    to be included, registers the usage of the cached module and builds
    nothing: no hook, no builder, no signal. *)
Theorem cached_module_usage_is_registered
        (module : Module) (signal_change : bool) (used_module : UsedModule)
        (s : Session) (filename : string) (decision : Decision) (reason : string)
        (cached : Module) :
  um_filename used_module = Some filename ->
  decision_cache_sound env s ->
  _decideRecursion env filename (um_module_name used_module)
    (um_module_kind used_module) false = Normal (decision, reason) ->
  decision_truth decision = true ->
  imported_modules s !! (canonical_module_path env filename, um_module_name used_module)
  = Some cached ->
  considerUsedModule env module signal_change used_module s
  = (Normal tt,
     with_decision (filename, um_module_name used_module, um_module_kind used_module, false)
       (decision, reason) s,
     warn_about_log module used_module
     ++ [AddUsedModule (getFullName cached) (getFullName module) "import" reason
           (um_source_ref used_module)]).
Proof.
  intros Hfile Hs Hd Htrue Hhit.
  rewrite considerUsedModule_unfold, Hfile. unfold try_forbidden.
  rewrite (follow_used_module_decided env module signal_change used_module filename s
             decision reason Hs Hd), Htrue.
  rewrite (recurseTo_hit env signal_change (um_module_name used_module) filename
             (um_module_kind used_module) (Some (getFullName module))
             (Some (um_source_ref used_module)) reason _ cached) by exact Hhit.
  reflexivity.
Qed.

(** X9: only a forbidden import is turned into the exit message.  Any other
    exception raised while an edge is decided or recursed to leaves
    [considerUsedModules] as it is, at that edge: no later edge and no
    implicit import is processed. *)
Theorem other_exceptions_pass_through
        (module : Module) (signal_change : bool)
        (pre : list UsedModule) (used_module : UsedModule) (post : list UsedModule)
        (filename : string) (e : Exn) (s : Session) :
  getUsedModules module = pre ++ used_module :: post ->
  um_filename used_module = Some filename ->
  (forall forbidden avoided, e <> NuitkaForbiddenImportEncounter forbidden avoided) ->
  let before := for_each pre (considerUsedModule env module signal_change) s in
  outcome_of before = Normal tt ->
  let failing := follow_used_module env module signal_change used_module filename
                   (session_of before) in
  outcome_of failing = Raised e ->
  considerUsedModules env module signal_change s
  = (Raised e, session_of failing,
     log_of before ++ warn_about_log module used_module ++ log_of failing).
Proof.
  intros Hedges Hfile Hother before Hbefore failing Hfailing.
  unfold considerUsedModules. unfold bind at 1.
  rewrite Hedges, for_each_app. fold before.
  destruct before as [[ob sb] lb] eqn:Eb. unfold outcome_of in Hbefore; simpl in Hbefore.
  subst ob. simpl. unfold bind at 1.
  rewrite considerUsedModule_unfold, Hfile. unfold try_forbidden.
  unfold session_of in failing; simpl in failing. fold failing.
  destruct failing as [[ofl sf] lf] eqn:Ef. unfold outcome_of in Hfailing; simpl in Hfailing.
  subst ofl. unfold log_of, session_of; simpl.
  destruct e; try reflexivity. exfalso. eapply Hother. reflexivity.
Qed.

End ConsumerMore.

Lemma session_with_pkg_a_sound :
  decision_cache_sound (Demo.world (Demo.follow_all false)) session_with_pkg_a.
Proof.
  apply (decision_cache_sound_same _ empty_session); [reflexivity|].
  apply decision_cache_sound_empty.
Defined.

Lemma loop_warns_once_per_unresolved_edge_witness :
  count is_warn_about
    (log_of (for_each (getUsedModules busy_module)
               (considerUsedModule (Demo.world (Demo.follow_all false)) busy_module true)
               empty_session)) = 2.
Proof.
  apply (loop_warns_once_per_unresolved_edge (Demo.world (Demo.follow_all false))
           busy_module true (getUsedModules busy_module) empty_session).
  vm_compute. reflexivity.
Defined.

Lemma loop_registers_usage_per_followed_edge_witness :
  count is_add_used
    (log_of (for_each (getUsedModules busy_module)
               (considerUsedModule (Demo.world (Demo.follow_all false)) busy_module true)
               empty_session)) = 3
  /\ count is_build
       (log_of (for_each (getUsedModules busy_module)
                  (considerUsedModule (Demo.world (Demo.follow_all false)) busy_module true)
                  empty_session)) = 2.
Proof.
  split; [|vm_compute; reflexivity].
  apply (proj1 (loop_registers_usage_per_followed_edge
                  (Demo.world (Demo.follow_all false))
                  busy_module true (getUsedModules busy_module) empty_session
                  (decision_cache_sound_empty _)
                  ltac:(vm_compute; reflexivity))).
Defined.

Lemma cached_module_usage_is_registered_witness :
  log_of (considerUsedModule (Demo.world (Demo.follow_all false)) main_module true
            plain_edge session_with_pkg_a)
  = [AddUsedModule "pkg.a" "main" "import"
       "Module matches pattern '*' instructed by user to follow to." "/work/main.py:pkg.a"].
Proof.
  rewrite (cached_module_usage_is_registered (Demo.world (Demo.follow_all false))
             main_module true plain_edge session_with_pkg_a "/work/pkg/a.py" Include
             "Module matches pattern '*' instructed by user to follow to."
             {| getFullName := "pkg.a";
                getFilename := "/work/pkg/a.py";
                node_class := CompiledPythonModule;
                getSourceReference := "/work/pkg/a.py:1";
                getUsedModules := [];
                module_repr := "<module pkg.a>" |}
             eq_refl session_with_pkg_a_sound
             ltac:(vm_compute; reflexivity) eq_refl ltac:(vm_compute; reflexivity)).
  reflexivity.
Defined.

Lemma other_exceptions_pass_through_witness :
  outcome_of (considerUsedModules fragile_world busy_module true empty_session)
  = Raised (AssertionError "cannot build")
  /\ count is_build
       (log_of (considerUsedModules fragile_world busy_module true empty_session)) = 2.
Proof.
  assert (Hbefore :
    outcome_of (for_each [Demo.edge "pkg.a" (Some "/work/pkg/a.py") "absolute"]
                  (considerUsedModule fragile_world busy_module true) empty_session)
    = Normal tt) by (vm_compute; reflexivity).
  assert (Hfailing :
    outcome_of (follow_used_module fragile_world busy_module true
                  (Demo.edge "pkg.sub.b" (Some "/work/pkg/sub/b.py") "not-found")
                  "/work/pkg/sub/b.py"
                  (session_of
                     (for_each [Demo.edge "pkg.a" (Some "/work/pkg/a.py") "absolute"]
                        (considerUsedModule fragile_world busy_module true)
                        empty_session)))
    = Raised (AssertionError "cannot build")) by (vm_compute; reflexivity).
  rewrite (other_exceptions_pass_through fragile_world busy_module true
             [Demo.edge "pkg.a" (Some "/work/pkg/a.py") "absolute"]
             (Demo.edge "pkg.sub.b" (Some "/work/pkg/sub/b.py") "not-found")
             [Demo.edge "ghost" None "not-found";
              Demo.edge "pkg.a" (Some "/work/pkg/a.py") "absolute"]
             "/work/pkg/sub/b.py" (AssertionError "cannot build") empty_session
             eq_refl eq_refl ltac:(intros; discriminate) Hbefore Hfailing).
  split; [reflexivity|vm_compute; reflexivity].
Defined.

(** ** The caches only grow *)

Section Growth.

Variable env : Env.

Lemma session_grows_refl (s : Session) : session_grows env s s.
Proof. repeat split; auto. Qed.

Lemma session_grows_trans (s1 s2 s3 : Session) :
  session_grows env s1 s2 -> session_grows env s2 s3 -> session_grows env s1 s3.
Proof.
  intros (Ha & Hb & Hc) (Ha' & Hb' & Hc'). repeat split; auto.
Qed.

Lemma only_grows_ret {A} (a : A) : only_grows env (ret a).
Proof. intros s. apply session_grows_refl. Qed.

Lemma only_grows_raise {A} (e : Exn) : only_grows env (@raise A e).
Proof. intros s. apply session_grows_refl. Qed.

Lemma only_grows_emit (e : Event) : only_grows env (emit e).
Proof. intros s. apply session_grows_refl. Qed.

Lemma only_grows_lift {A} (o : Outcome A) : only_grows env (lift o).
Proof. intros s. apply session_grows_refl. Qed.

Lemma only_grows_bind {A B} (m : M A) (f : A -> M B) :
  only_grows env m -> (forall a, only_grows env (f a)) -> only_grows env (bind m f).
Proof.
  intros Hm Hf s. unfold bind. specialize (Hm s).
  destruct (m s) as [[[a|e] s1] l1]; unfold session_of in *; cbn [fst snd] in *;
    [|exact Hm].
  specialize (Hf a s1). destruct (f a s1) as [[o s2] l2].
  unfold session_of in Hf; cbn [fst snd] in *.
  eapply session_grows_trans; eassumption.
Qed.

Lemma only_grows_when (b : bool) (m : M unit) :
  only_grows env m -> only_grows env (when b m).
Proof. intros H. destruct b; [exact H|apply only_grows_ret]. Qed.

Lemma only_grows_assert (b : bool) (message : string) :
  only_grows env (assert b message).
Proof. destruct b; [apply only_grows_ret|apply only_grows_raise]. Qed.

Lemma only_grows_checkNameInPackage (module_kind : option ModuleKind)
      (module_package : option string) :
  only_grows env (checkNameInPackage module_kind module_package).
Proof.
  destruct module_kind, module_package;
    first [apply only_grows_ret|apply only_grows_raise].
Qed.

Lemma only_grows_for_each {A} (xs : list A) (body : A -> M unit) :
  (forall x, only_grows env (body x)) -> only_grows env (for_each xs body).
Proof.
  intros H. induction xs as [|x xs IH]; cbn [for_each].
  - apply only_grows_ret.
  - apply only_grows_bind; [apply H|intros _; exact IH].
Qed.

Lemma only_grows_try_forbidden {A} (body : M A) (handler : string -> string -> M A) :
  only_grows env body -> (forall a b, only_grows env (handler a b)) ->
  only_grows env (try_forbidden body handler).
Proof.
  intros Hb Hh s. unfold try_forbidden. specialize (Hb s).
  destruct (body s) as [[[a|e] s1] l1]; [exact Hb|].
  destruct e; try exact Hb.
  specialize (Hh forbidden avoided s1).
  destruct (handler forbidden avoided s1) as [[o s2] l2].
  unfold session_of in *; cbn [fst snd] in *.
  eapply session_grows_trans; eassumption.
Qed.

Lemma only_grows_addImportedModule (module : Module) :
  only_grows env (addImportedModule env module).
Proof.
  intros s. unfold addImportedModule, session_of. cbn [fst snd].
  split; [|split].
  - intros key decided H. exact H.
  - intros identity H. cbn [imported_modules].
    destruct (decide ((canonical_module_path env (getFilename module), getFullName module)
                      = identity)) as [<-|Hne].
    + rewrite lookup_insert_eq. eauto.
    + rewrite lookup_insert_ne by exact Hne. exact H.
  - apply decision_cache_sound_same. reflexivity.
Qed.

Lemma only_grows_decideRecursion (f n : string) (k : option ModuleKind) (x : bool) :
  only_grows env (decideRecursion env f n k x).
Proof.
  intros s. unfold decideRecursion. cbv zeta.
  destruct (recursion_decision_cache s !! _) as [c|] eqn:Hc;
    [apply session_grows_refl|].
  destruct (_decideRecursion env f n k x) as [v|e] eqn:Hd; [|apply session_grows_refl].
  unfold session_of. cbn [fst snd]. split; [|split].
  - intros key decided H. cbn [recursion_decision_cache].
    destruct (decide ((f, n, k, x) = key)) as [<-|Hne].
    + congruence.
    + rewrite lookup_insert_ne by exact Hne. exact H.
  - intros identity H. exact H.
  - intros Hs. apply (with_decision_sound env s f n k x v Hs Hd).
Qed.

Lemma only_grows_recurseTo (signal_change : bool) (n f : string) (k : option ModuleKind)
      (u r : option string) (reason : string) :
  only_grows env (recurseTo env signal_change n f k u r reason).
Proof.
  intros s.
  destruct (imported_modules s !! (canonical_module_path env f, n)) as [m|] eqn:Hl.
  - rewrite (recurseTo_hit _ _ _ _ _ _ _ _ _ _ Hl). apply session_grows_refl.
  - rewrite (recurseTo_miss _ _ _ _ _ _ _ _ _ Hl).
    destruct (onModuleRecursion _ _ _ _ _ _) as [[]|e]; [|apply session_grows_refl].
    destruct (buildModule _ _ _ _) as [[m a]|e]; [|apply session_grows_refl].
    exact (only_grows_addImportedModule m s).
Qed.

Lemma only_grows_addIncludedModule_with (check : string -> option string -> M unit)
      (module : Module) :
  (forall p pkg, only_grows env (check p pkg)) ->
  only_grows env (_addIncludedModule_with env check module).
Proof.
  intros Hcheck. unfold _addIncludedModule_with.
  apply only_grows_bind; [apply only_grows_when, only_grows_emit|intros _].
  apply only_grows_bind; [apply only_grows_addImportedModule|intros _].
  destruct (isCompiledPythonPackage module || isUncompiledPythonPackage module).
  - apply only_grows_bind.
    + destruct (isdir env (getFilename module)).
      * apply only_grows_bind; [apply only_grows_assert|intros _; apply only_grows_ret].
      * apply only_grows_bind; [apply only_grows_emit|intros _; apply only_grows_ret].
    + intros package_dir.
      apply only_grows_bind; [apply only_grows_when, only_grows_emit|intros _].
      apply only_grows_for_each. intros [sub_path sub_filename]. cbn [fst snd].
      destruct (String.eqb sub_filename "__init__.py" || String.eqb sub_filename "__pycache__");
        [apply only_grows_ret|].
      destruct (isPackageDir env sub_path && negb (path_exists env (sub_path +:+ ".py")));
        [apply Hcheck|].
      destruct (PyStr.endswith sub_path ".py"); [apply Hcheck|apply only_grows_ret].
  - destruct (isCompiledPythonModule module || isUncompiledPythonModule module);
      [apply only_grows_emit|].
    destruct (isPythonExtensionModule module);
      [apply only_grows_when, only_grows_emit|apply only_grows_assert].
Qed.

Lemma only_grows_checkPluginSinglePath (depth : nat) :
  forall plugin_filename module_package,
    only_grows env (checkPluginSinglePath env depth plugin_filename module_package).
Proof.
  induction depth as [|depth IH]; intros plugin_filename module_package.
  - apply only_grows_raise.
  - cbn [checkPluginSinglePath].
    apply only_grows_bind; [apply only_grows_emit|intros _].
    apply only_grows_bind; [apply only_grows_when, only_grows_emit|intros _].
    apply only_grows_bind; [apply only_grows_checkNameInPackage|intros _].
    apply only_grows_bind; [apply only_grows_when, only_grows_emit|intros _].
    destruct (snd (getModuleNameAndKindFromFilename env _)) as [k|]; [|apply only_grows_ret].
    apply only_grows_bind; [apply only_grows_decideRecursion|intros [decision reason]].
    cbn [fst snd].
    destruct (decision_truth decision); [|apply only_grows_emit].
    apply only_grows_bind; [apply only_grows_recurseTo|intros module].
    unfold module_truth. apply only_grows_addIncludedModule_with. exact IH.
Qed.

Lemma only_grows_checkPluginPath (depth : nat) (plugin_filename : string)
      (module_package : option string) :
  only_grows env (checkPluginPath env depth plugin_filename module_package).
Proof.
  unfold checkPluginPath.
  apply only_grows_bind; [apply only_grows_when, only_grows_emit|intros _].
  destruct (isfile env plugin_filename || isPackageDir env plugin_filename);
    [apply only_grows_checkPluginSinglePath|].
  destruct (isdir env plugin_filename); [|apply only_grows_emit].
  apply only_grows_for_each. intros [sub_path sub_filename]. cbn [fst snd].
  apply only_grows_bind; [apply only_grows_assert|intros _].
  destruct (isPackageDir env sub_path || PyStr.endswith sub_path ".py");
    [apply only_grows_checkPluginSinglePath|].
  apply only_grows_for_each. intros suffix.
  apply only_grows_when, only_grows_checkPluginSinglePath.
Qed.

Lemma only_grows_pattern_loop (depth : nat) (filenames : list string) :
  forall found, only_grows env (checkPluginFilenamePattern_loop env depth filenames found).
Proof.
  induction filenames as [|filename rest IH]; intros found;
    cbn [checkPluginFilenamePattern_loop].
  - apply only_grows_ret.
  - destruct (PyStr.endswith filename ".pyc"); [apply IH|].
    destruct (negb (isfile env filename)); [apply IH|].
    apply only_grows_bind; [apply only_grows_checkPluginSinglePath|intros _; apply IH].
Qed.

Lemma only_grows_checkPluginFilenamePattern (depth : nat) (pattern : string) :
  only_grows env (checkPluginFilenamePattern env depth pattern).
Proof.
  unfold checkPluginFilenamePattern.
  apply only_grows_bind; [apply only_grows_when, only_grows_emit|intros _].
  apply only_grows_bind; [apply only_grows_assert|intros _].
  apply only_grows_bind; [apply only_grows_pattern_loop|intros found].
  apply only_grows_when, only_grows_emit.
Qed.

Lemma only_grows_considerUsedModule (module : Module) (signal_change : bool)
      (used_module : UsedModule) :
  only_grows env (considerUsedModule env module signal_change used_module).
Proof.
  unfold considerUsedModule.
  apply only_grows_bind; [apply only_grows_when, only_grows_emit|intros _].
  destruct (um_filename used_module) as [f|]; [|apply only_grows_ret].
  apply only_grows_try_forbidden; [|intros a b; apply only_grows_raise].
  unfold follow_used_module.
  apply only_grows_bind; [apply only_grows_decideRecursion|intros [decision reason]].
  cbn [fst snd]. destruct (decision_truth decision); [|apply only_grows_ret].
  apply only_grows_bind; [apply only_grows_recurseTo|intros m; apply only_grows_emit].
Qed.

(** X13: the walker only lets the caches grow.  Whatever a single path
    check, a path check or a pattern check does and however it ends, every
    decision that was stored is still stored unchanged, every identity
    that was registered is still registered, and a decision cache that
    held only computed decisions still does. *)
Theorem walker_only_grows_caches (depth : nat) (s : Session) :
  (forall plugin_filename module_package,
      session_grows env s
        (session_of (checkPluginSinglePath env depth plugin_filename module_package s)))
  /\ (forall plugin_filename module_package,
         session_grows env s
           (session_of (checkPluginPath env depth plugin_filename module_package s)))
  /\ (forall pattern,
         session_grows env s
           (session_of (checkPluginFilenamePattern env depth pattern s)))
  /\ (forall module,
         session_grows env s (session_of (_addIncludedModule env depth module s))).
Proof.
  split; [|split; [|split]].
  - intros. apply only_grows_checkPluginSinglePath.
  - intros. apply only_grows_checkPluginPath.
  - intros. apply only_grows_checkPluginFilenamePattern.
  - intros. apply only_grows_addIncludedModule_with.
    apply only_grows_checkPluginSinglePath.
Qed.

(** X14: [considerUsedModules] only lets the caches grow, however it ends,
    provided the implicit imports of the plugins do: stored decisions stay
    as they are, registered identities stay registered, and a sound
    decision cache stays sound. *)
Theorem consumer_only_grows_caches (module : Module) (signal_change : bool) (s : Session) :
  only_grows env (considerImplicitImports env module signal_change) ->
  session_grows env s (session_of (considerUsedModules env module signal_change s)).
Proof.
  intros Himplicit. unfold considerUsedModules.
  apply only_grows_bind.
  - apply only_grows_for_each. intros e. apply only_grows_considerUsedModule.
  - intros _. apply only_grows_try_forbidden; [exact Himplicit|].
    intros a b. apply only_grows_raise.
Qed.

End Growth.

Lemma demo_implicit_imports_only_grow (o : Options) (module : Module) (signal_change : bool) :
  only_grows (Demo.world o) (considerImplicitImports (Demo.world o) module signal_change).
Proof.
  cbn [considerImplicitImports Demo.world]. unfold Demo.implicit_imports.
  destruct (String.eqb (getFullName module) "needs_gui");
    [apply only_grows_raise|apply only_grows_ret].
Defined.

Lemma consumer_only_grows_caches_witness :
  session_grows (Demo.world (Demo.follow_all false)) empty_session
    (session_of (considerUsedModules (Demo.world (Demo.follow_all false)) main_module true
                   empty_session)).
Proof.
  apply (consumer_only_grows_caches (Demo.world (Demo.follow_all false)) main_module true
           empty_session).
  apply demo_implicit_imports_only_grow.
Defined.

(** ** What the walker never does *)

Section WalkerSilence.

Variable env : Env.

(** A kind of event that is neither a line of the logger nor a call of the
    hook, the builder or the registry of roots nor an entry into the single
    path check. *)
Variable bad : Event -> bool.

Hypothesis bad_info : forall m, bad (LogInfo m) = false.
Hypothesis bad_warning : forall m, bad (LogWarning m) = false.
Hypothesis bad_hook : forall f n k u r, bad (CallOnModuleRecursion f n k u r) = false.
Hypothesis bad_build : forall f n x, bad (CallBuildModule f n x) = false.
Hypothesis bad_root : forall m, bad (AddRootModule m) = false.
Hypothesis bad_enter : forall f p, bad (EnterCheckPluginSinglePath f p) = false.

Lemma silent_checkPluginSinglePath (depth : nat) (plugin_filename : string)
      (module_package : option string) :
  quiet_about bad (checkPluginSinglePath env depth plugin_filename module_package).
Proof. apply quiet_checkPluginSinglePath; auto. Qed.

Lemma silent_checkPluginPath (depth : nat) (plugin_filename : string)
      (module_package : option string) :
  quiet_about bad (checkPluginPath env depth plugin_filename module_package).
Proof. apply quiet_checkPluginPath; auto. Qed.

Lemma silent_pattern_loop (depth : nat) (filenames : list string) :
  forall found,
    quiet_about bad (checkPluginFilenamePattern_loop env depth filenames found).
Proof.
  induction filenames as [|filename rest IH]; intros found;
    cbn [checkPluginFilenamePattern_loop].
  - apply quiet_ret.
  - destruct (PyStr.endswith filename ".pyc"); [apply IH|].
    destruct (negb (isfile env filename)); [apply IH|].
    apply quiet_bind; [apply silent_checkPluginSinglePath|intros _; apply IH].
Qed.

Lemma silent_checkPluginFilenamePattern (depth : nat) (pattern : string) :
  quiet_about bad (checkPluginFilenamePattern env depth pattern).
Proof.
  unfold checkPluginFilenamePattern.
  apply quiet_bind; [apply quiet_when, quiet_emit, bad_info|intros _].
  apply quiet_bind; [apply quiet_assert|intros _].
  apply quiet_bind; [apply silent_pattern_loop|intros found].
  apply quiet_when, quiet_emit, bad_warning.
Qed.

End WalkerSilence.

(** X15: the walker registers no usage and raises no signal.  A single path
    check, a path check and a pattern check never record a usage edge and
    never emit an unresolved-import warning, and the path check and the
    pattern check never raise the new-code signal, however deep they walk
    and however they end. *)
Theorem walker_registers_no_usage (env : Env) (depth : nat) (s : Session) :
  (forall plugin_filename module_package,
      let l := log_of (checkPluginSinglePath env depth plugin_filename module_package s) in
      count is_add_used l = 0 /\ count is_warn_about l = 0)
  /\ (forall plugin_filename module_package,
         let l := log_of (checkPluginPath env depth plugin_filename module_package s) in
         count is_add_used l = 0 /\ count is_warn_about l = 0 /\ count is_signal l = 0)
  /\ (forall pattern,
         let l := log_of (checkPluginFilenamePattern env depth pattern s) in
         count is_add_used l = 0 /\ count is_warn_about l = 0 /\ count is_signal l = 0).
Proof.
  split; [|split]; intros; subst l; repeat split;
    first [ apply silent_checkPluginSinglePath
          | apply silent_checkPluginPath
          | apply silent_checkPluginFilenamePattern ]; reflexivity.
Qed.

(** ** Bookkeeping for the other kinds of module *)

Section Bookkeeping.

Variable env : Env.

(** X16: a namespace package, a package whose file is a directory, is put
    in the identity cache but is not registered as a root by
    [_addIncludedModule]; its own directory is walked, and the children
    handed to the single path check are chosen as for any package.  On a
    Python before 3.0 the assertion fails instead, after the module was
    put in the identity cache. *)
Theorem namespace_package_is_walked_not_rooted
        (depth : nat) (module : Module) (s : Session) :
  is_package module = true ->
  isdir env (getFilename module) = true ->
  ((0x300 <=? python_version env)%nat = true ->
   _addIncludedModule env depth module s
   = (namespace_package_prologue env module ;;
      for_each (List.filter (package_child_checked env) (listDir env (getFilename module)))
        (fun entry =>
           checkPluginSinglePath env depth (fst entry) (Some (getFullName module)))) s)
  /\ ((0x300 <=? python_version env)%nat = false ->
      _addIncludedModule env depth module s
      = (Raised (AssertionError EmptyString), with_imported env module s,
         included_log env module)).
Proof.
  intros Hpkg Hdir. unfold is_package in Hpkg. split; intros Hversion.
  - unfold _addIncludedModule, _addIncludedModule_with, namespace_package_prologue.
    rewrite Hpkg, Hdir, Hversion. unfold when, info, assert.
    destruct (isShowInclusion (options env)).
    all: unfold bind, emit, addImportedModule, ret; cbn [fst snd app].
    all: rewrite for_each_package_children.
    all: match goal with
         | |- context [for_each ?l ?b ?s] => destruct (for_each l b s) as [[o s2] l2]
         end; reflexivity.
  - unfold _addIncludedModule, _addIncludedModule_with, included_log, with_imported.
    rewrite Hpkg, Hdir, Hversion. unfold when, info, assert.
    destruct (isShowInclusion (options env)); reflexivity.
Qed.

(** X17: for a module that is no package [_addIncludedModule] walks
    nothing.  It puts the module in the identity cache and then registers
    it as a root when it is a plain module, or an extension module in
    standalone mode; an extension module outside standalone mode is not
    registered as a root; a node of any other class fails the assertion,
    after it was put in the identity cache. *)
Theorem non_package_bookkeeping (depth : nat) (module : Module) (s : Session) :
  is_package module = false ->
  _addIncludedModule env depth module s
  = (if isCompiledPythonModule module || isUncompiledPythonModule module
        || isPythonExtensionModule module
     then Normal tt else Raised (AssertionError (module_repr module)),
     with_imported env module s,
     included_log env module
     ++ (if isCompiledPythonModule module || isUncompiledPythonModule module
            || (isPythonExtensionModule module && isStandaloneMode (options env))
         then [AddRootModule (getFullName module)] else [])).
Proof.
  intros Hpkg. unfold is_package in Hpkg.
  unfold _addIncludedModule, _addIncludedModule_with, included_log, with_imported.
  rewrite Hpkg. unfold when, info, assert.
  destruct (isShowInclusion (options env));
    destruct (isCompiledPythonModule module || isUncompiledPythonModule module);
    destruct (isPythonExtensionModule module);
    destruct (isStandaloneMode (options env)); reflexivity.
Qed.

(** X19: a path that is neither a file nor a package directory nor a
    directory - a path that does not exist - makes [checkPluginPath] log
    the warning that the module could not be included, once, and do
    nothing else. *)
Theorem checkPluginPath_missing_path (depth : nat) (plugin_filename : string)
        (module_package : option string) (s : Session) :
  isfile env plugin_filename = false ->
  isPackageDir env plugin_filename = false ->
  isdir env plugin_filename = false ->
  checkPluginPath env depth plugin_filename module_package s
  = (Normal tt, s,
     (if isShowInclusion (options env)
      then [LogInfo ("Checking top level inclusion path '" +:+ plugin_filename +:+ "' '"
                     +:+ str_of_option module_package +:+ "'.")]
      else [])
     ++ [LogWarning ("Failed to include module from '" +:+ plugin_filename +:+ "'.")]).
Proof.
  intros Hfile Hpkg Hdir. unfold checkPluginPath.
  rewrite Hfile, Hpkg, Hdir. unfold when, info, warning.
  destruct (isShowInclusion (options env)); reflexivity.
Qed.

(** X18: an extension module handed to the single path check outside
    standalone mode, not vetoed by anything before the extension rule, is
    warned about twice - that it cannot be included, and that it is not
    allowed because it cannot be inspected - and is neither built nor put in
    the identity cache; the decision is stored.  With show-inclusion on,
    the line about the path comes before the two warnings. *)
Theorem extension_outside_standalone_is_warned_twice
        (depth : nat) (plugin_filename : string) (module_package : option string)
        (s : Session) :
  let filename := OsPath.abspath (cwd env) plugin_filename in
  let module_name :=
    ModuleName.makeModuleNameInPackage
      (fst (getModuleNameAndKindFromFilename env filename)) module_package in
  snd (getModuleNameAndKindFromFilename env filename) = Some extension ->
  isStandaloneMode (options env) = false ->
  decision_cache_sound env s ->
  module_name <> "__main__" ->
  (package_mode_main env module_name && in_root_package env module_name) = false ->
  onModuleEncounter env filename module_name (Some extension) = Normal None ->
  checkPluginSinglePath env (S depth) plugin_filename module_package s
  = (Normal tt,
     with_decision (filename, module_name, Some extension, true)
       (Exclude, "Extension module cannot be inspected.") s,
     EnterCheckPluginSinglePath plugin_filename module_package
     :: (if isShowInclusion (options env)
         then [LogInfo ("Checking detail plug-in path '" +:+ filename +:+ "' '"
                        +:+ str_of_option module_package +:+ "':")]
         else [])
     ++ [LogWarning ("Cannot include extension module '" +:+ module_name
                  +:+ "' unless using at least standalone mode, where they would be copied. In this mode, extension modules are not part of the compiled result, and therefore asking to include them makes no sense."
                  +:+ newline);
      LogWarning ("Not allowed to include module '" +:+ module_name
                  +:+ "' due to 'Extension module cannot be inspected.'.")]).
Proof.
  intros filename module_name Hkind Hstandalone Hs Hmain Hpkg Hplugin.
  assert (Hd : _decideRecursion env filename module_name (Some extension) true
               = Normal (Exclude, "Extension module cannot be inspected.")).
  { unfold _decideRecursion. rewrite (not_main_eqb _ Hmain), Hplugin, Hstandalone.
    replace (is_extension_kind (Some extension)) with true by reflexivity.
    destruct (package_mode_main env module_name); cbn [andb] in Hpkg;
      [rewrite Hpkg|]; reflexivity. }
  cbn [checkPluginSinglePath]. fold filename. fold module_name.
  rewrite Hkind, Hstandalone.
  replace (is_extension_kind (Some extension)) with true by reflexivity.
  destruct (isShowInclusion (options env));
    unfold when, warning, info, checkNameInPackage, bind, emit, ret;
    cbn [negb andb fst snd app];
    rewrite (decideRecursion_stores env s filename module_name (Some extension) true _
               Hs Hd);
    reflexivity.
Qed.

End Bookkeeping.

Lemma namespace_package_is_walked_not_rooted_witness :
  log_of (_addIncludedModule (Demo.world Demo.default_options) 3 namespace_module
            empty_session)
  = [EnterCheckPluginSinglePath "/work/plugins/x.py" (Some "plugins");
     CallOnModuleRecursion "/work/plugins/x.py" "plugins.x" (Some py) None None;
     CallBuildModule "/work/plugins/x.py" "plugins.x" false;
     AddRootModule "plugins.x"].
Proof.
  rewrite (proj1 (namespace_package_is_walked_not_rooted (Demo.world Demo.default_options)
                    3 namespace_module empty_session eq_refl eq_refl) eq_refl).
  vm_compute. reflexivity.
Defined.

Lemma non_package_bookkeeping_witness :
  _addIncludedModule (Demo.world Demo.default_options) 1 odd_module empty_session
  = (Raised (AssertionError "<odd>"),
     with_imported (Demo.world Demo.default_options) odd_module empty_session, []).
Proof.
  exact (non_package_bookkeeping (Demo.world Demo.default_options) 1 odd_module
           empty_session eq_refl).
Defined.

Lemma checkPluginPath_missing_path_witness :
  checkPluginPath (Demo.world Demo.default_options) 2 "/work/nowhere" None empty_session
  = (Normal tt, empty_session,
     [LogWarning "Failed to include module from '/work/nowhere'."]).
Proof.
  exact (checkPluginPath_missing_path (Demo.world Demo.default_options) 2 "/work/nowhere"
           None empty_session eq_refl eq_refl eq_refl).
Defined.

Lemma extension_outside_standalone_is_warned_twice_witness :
  count is_build
    (log_of (checkPluginSinglePath (Demo.world Demo.default_options) 2 "/work/ext/fast.so"
               None empty_session)) = 0
  /\ count (fun e => match e with LogWarning _ => true | _ => false end)
       (log_of (checkPluginSinglePath (Demo.world Demo.default_options) 2
                  "/work/ext/fast.so" None empty_session)) = 2.
Proof.
  rewrite (extension_outside_standalone_is_warned_twice (Demo.world Demo.default_options)
             1 "/work/ext/fast.so" None empty_session
             eq_refl eq_refl (decision_cache_sound_empty _)
             ltac:(discriminate) eq_refl eq_refl).
  split; reflexivity.
Defined.

(** ** Counting the checks that a walk starts *)

Section TopLevelChecks.

Variable env : Env.

Lemma for_each_count_sum {A} (bad : Event -> bool) (f : A -> nat) (body : A -> M unit) :
  (forall x s, outcome_of (body x s) = Normal tt ->
               count bad (log_of (body x s)) = f x) ->
  forall l s,
    outcome_of (for_each l body s) = Normal tt ->
    count bad (log_of (for_each l body s)) = sum_list (map f l).
Proof.
  intros Hbody l. induction l as [|x xs IH]; intros s Hout; [reflexivity|].
  rewrite for_each_cons_run in *. specialize (Hbody x s).
  destruct (body x s) as [[[[]|e] s1] l1]; [|discriminate Hout].
  specialize (IH s1). destruct (for_each xs body s1) as [[o s2] l2].
  unfold outcome_of, log_of in *; cbn [fst snd] in *.
  rewrite count_app, (Hbody eq_refl), (IH Hout). reflexivity.
Qed.

Lemma sum_list_ones {A} (l : list A) : sum_list (map (fun _ => 1) l) = length l.
Proof. induction l as [|x xs IH]; cbn; [reflexivity|rewrite IH; reflexivity]. Qed.

Lemma sum_list_indicator {A} (p : A -> bool) (l : list A) :
  sum_list (map (fun x => if p x then 1 else 0) l) = length (List.filter p l).
Proof.
  induction l as [|x xs IH]; cbn; [reflexivity|].
  rewrite IH. destruct (p x); reflexivity.
Qed.

Lemma count_after_emit {A} (bad : Event -> bool) (e : Event) (k : M A) (s : Session) :
  quiet_about bad k ->
  count bad (log_of ((emit e ;; k) s)) = count bad [e].
Proof.
  intros Hk. unfold bind, emit. specialize (Hk s).
  destruct (k s) as [[o s2] l2]. unfold log_of in *; cbn [fst snd] in *.
  rewrite count_app, Hk. lia.
Qed.

Lemma parented_addIncludedModule_with (check : string -> option string -> M unit)
      (module : Module) :
  (forall p pkg, quiet_about is_top_level_check (check p (Some pkg))) ->
  quiet_about is_top_level_check (_addIncludedModule_with env check module).
Proof.
  intros Hcheck. unfold _addIncludedModule_with.
  apply quiet_bind; [apply quiet_when, quiet_emit; reflexivity|intros _].
  apply quiet_bind; [apply quiet_addImportedModule|intros _].
  destruct (isCompiledPythonPackage module || isUncompiledPythonPackage module).
  - apply quiet_bind.
    + destruct (isdir env (getFilename module)).
      * apply quiet_bind; [apply quiet_assert|intros _; apply quiet_ret].
      * apply quiet_bind; [apply quiet_emit; reflexivity|intros _; apply quiet_ret].
    + intros package_dir.
      apply quiet_bind; [apply quiet_when, quiet_emit; reflexivity|intros _].
      apply quiet_for_each. intros [sub_path sub_filename]. cbn [fst snd].
      destruct (String.eqb sub_filename "__init__.py" || String.eqb sub_filename "__pycache__");
        [apply quiet_ret|].
      destruct (isPackageDir env sub_path && negb (path_exists env (sub_path +:+ ".py")));
        [apply Hcheck|].
      destruct (PyStr.endswith sub_path ".py"); [apply Hcheck|apply quiet_ret].
  - destruct (isCompiledPythonModule module || isUncompiledPythonModule module);
      [apply quiet_emit; reflexivity|].
    destruct (isPythonExtensionModule module);
      [apply quiet_when, quiet_emit; reflexivity|apply quiet_assert].
Qed.

(** A single path check logs its own entry, and every check nested in it
    has a parent package. *)
Lemma checkPluginSinglePath_top_level_entries (depth : nat) :
  forall plugin_filename module_package s,
    count is_top_level_check
      (log_of (checkPluginSinglePath env depth plugin_filename module_package s))
    = own_top_level_entries depth module_package.
Proof.
  induction depth as [|depth IH]; intros plugin_filename module_package s.
  - destruct module_package; reflexivity.
  - cbn [checkPluginSinglePath]. rewrite count_after_emit.
    + destruct module_package; reflexivity.
    + apply quiet_bind; [apply quiet_when, quiet_emit; reflexivity|intros _].
      apply quiet_bind; [apply quiet_checkNameInPackage|intros _].
      apply quiet_bind; [apply quiet_when, quiet_emit; reflexivity|intros _].
      destruct (snd (getModuleNameAndKindFromFilename env _)) as [k|]; [|apply quiet_ret].
      apply quiet_bind; [apply quiet_decideRecursion|intros [decision reason]].
      cbn [fst snd].
      destruct (decision_truth decision); [|apply quiet_emit; reflexivity].
      apply quiet_bind;
        [apply quiet_recurseTo_unsignalled; reflexivity|intros module].
      unfold module_truth. apply parented_addIncludedModule_with.
      intros p pkg s'. apply IH.
Qed.

Lemma returning_check_counts_once (depth : nat) (plugin_filename : string) (s : Session) :
  outcome_of (checkPluginSinglePath env depth plugin_filename None s) = Normal tt ->
  count is_top_level_check (log_of (checkPluginSinglePath env depth plugin_filename None s))
  = 1.
Proof.
  intros Hout. rewrite checkPluginSinglePath_top_level_entries.
  destruct depth; [discriminate Hout|reflexivity].
Qed.

(** X20: a pattern check that returns has started exactly one single path
    check per usable match of the pattern - a plain file that is no stale
    bytecode - and each of them without a parent package; every other
    check in its log is nested in one of these, under a package. *)
Theorem pattern_check_starts_one_check_per_match
        (depth : nat) (pattern : string) (s : Session) :
  outcome_of (checkPluginFilenamePattern env depth pattern s) = Normal tt ->
  count is_top_level_check (log_of (checkPluginFilenamePattern env depth pattern s))
  = length (List.filter (usable_match env) (iglob env pattern)).
Proof.
  unfold checkPluginFilenamePattern, when, info, warning, assert.
  pose proof (checkPluginFilenamePattern_loop_delegates env depth (iglob env pattern)
                false s) as Hloop.
  pose proof (for_each_count_sum is_top_level_check (fun _ => 1)
                (fun filename => checkPluginSinglePath env depth filename None)
                (fun x s' H => returning_check_counts_once depth x s' H)
                (List.filter (usable_match env) (iglob env pattern)) s) as Hsum.
  rewrite sum_list_ones in Hsum.
  destruct (isShowInclusion (options env)); destruct (isdir env pattern);
    unfold bind, emit, ret, raise; cbn [negb]; try discriminate;
    rewrite Hloop;
    destruct (for_each _ _ s) as [[[[]|e] s1] l1];
    unfold outcome_of, log_of in *; cbn [fst snd] in *; try discriminate;
    intros _; specialize (Hsum eq_refl);
    destruct (PyStr.is_nil _); cbn [negb orb fst snd];
    rewrite !count_app, Hsum;
    generalize (length (List.filter (usable_match env) (iglob env pattern)));
    intros n; unfold count; cbn; lia.
Qed.

End TopLevelChecks.

Section DirectoryChecks.

Variable env : Env.

Lemma emit_then_run {A} (e : Event) (k : M A) (s : Session) :
  (emit e ;; k) s = match k s with (o, s2, l2) => (o, s2, [e] ++ l2) end.
Proof. reflexivity. Qed.

Lemma directory_child_body_count (depth : nat) (entry : string * string) (s : Session) :
  let body :=
    (assert (negb (String.eqb (snd entry) "__init__.py")) EmptyString ;;
     if isPackageDir env (fst entry) || PyStr.endswith (fst entry) ".py" then
       checkPluginSinglePath env depth (fst entry) None
     else
       for_each (getSharedLibrarySuffixes env) (fun suffix =>
         when (PyStr.endswith (fst entry) suffix)
              (checkPluginSinglePath env depth (fst entry) None))) in
  outcome_of (body s) = Normal tt ->
  count is_top_level_check (log_of (body s)) = directory_child_checks env entry.
Proof.
  intros body. subst body. unfold directory_child_checks, assert.
  destruct (negb (String.eqb (snd entry) "__init__.py")); [|discriminate].
  rewrite bind_ret_tt.
  destruct (isPackageDir env (fst entry) || PyStr.endswith (fst entry) ".py").
  - apply returning_check_counts_once.
  - intros Hout. rewrite <- sum_list_indicator.
    apply (for_each_count_sum is_top_level_check
             (fun suffix => if PyStr.endswith (fst entry) suffix then 1 else 0));
      [|exact Hout].
    intros suffix s'. unfold when.
    destruct (PyStr.endswith (fst entry) suffix);
      [apply returning_check_counts_once|reflexivity].
Qed.

(** X21: a path check of a plain directory that returns has started one
    single path check for every child that is a package directory or has a
    path ending in [.py], and for every other child one per shared library
    suffix that its path ends in - none for a child that ends in none, two
    for a child that ends in two.  All of them are started without a parent
    package, whatever parent the path check was given. *)
Theorem path_check_of_directory_counts
        (depth : nat) (plugin_filename : string) (module_package : option string)
        (s : Session) :
  isfile env plugin_filename = false ->
  isPackageDir env plugin_filename = false ->
  isdir env plugin_filename = true ->
  outcome_of (checkPluginPath env depth plugin_filename module_package s) = Normal tt ->
  count is_top_level_check
    (log_of (checkPluginPath env depth plugin_filename module_package s))
  = sum_list (map (directory_child_checks env) (listDir env plugin_filename)).
Proof.
  intros Hfile Hpkg Hdir. unfold checkPluginPath. rewrite Hfile, Hpkg, Hdir.
  cbn [orb]. unfold when, info.
  pose proof (for_each_count_sum is_top_level_check (directory_child_checks env)
                (fun entry =>
                   assert (negb (String.eqb (snd entry) "__init__.py")) EmptyString ;;
                   if isPackageDir env (fst entry) || PyStr.endswith (fst entry) ".py" then
                     checkPluginSinglePath env depth (fst entry) None
                   else
                     for_each (getSharedLibrarySuffixes env) (fun suffix =>
                       when (PyStr.endswith (fst entry) suffix)
                            (checkPluginSinglePath env depth (fst entry) None)))
                (fun entry s' H => directory_child_body_count depth entry s' H)
                (listDir env plugin_filename) s) as Hsum.
  destruct (isShowInclusion (options env)).
  - rewrite emit_then_run.
    destruct (for_each (listDir env plugin_filename) _ s) as [[o s2] l2].
    unfold outcome_of, log_of in *; cbn [fst snd] in *.
    intros Hout. rewrite count_app, (Hsum Hout). reflexivity.
  - rewrite bind_ret_tt. exact Hsum.
Qed.

End DirectoryChecks.

Lemma pattern_check_starts_one_check_per_match_witness :
  count is_top_level_check
    (log_of (checkPluginFilenamePattern (Demo.world (Demo.follow_all true)) 3
               "/work/pkg/*" empty_session)) = 6.
Proof.
  apply (pattern_check_starts_one_check_per_match (Demo.world (Demo.follow_all true)) 3
           "/work/pkg/*" empty_session).
  vm_compute. reflexivity.
Defined.

Lemma path_check_of_directory_counts_witness :
  count is_top_level_check
    (log_of (checkPluginPath two_suffix_world 2 "/work/ext" (Some "parent") empty_session))
  = 2.
Proof.
  apply (path_check_of_directory_counts two_suffix_world 2 "/work/ext" (Some "parent")
           empty_session eq_refl eq_refl eq_refl).
  vm_compute. reflexivity.
Defined.

Example extension_with_two_suffixes_checked_twice :
  log_of (checkPluginPath two_suffix_world 2 "/work/ext" (Some "parent") empty_session)
  = [EnterCheckPluginSinglePath "/work/ext/fast.so" None;
     CallOnModuleRecursion "/work/ext/fast.so" "fast" (Some extension) None None;
     CallBuildModule "/work/ext/fast.so" "fast" true;
     AddRootModule "fast";
     EnterCheckPluginSinglePath "/work/ext/fast.so" None;
     AddRootModule "fast"].
Proof. vm_compute. reflexivity. Qed.

(** ** Precedence among the deciders *)

Section Precedence.

Variable env : Env.

(** X23: what a plugin decides for a module is the decision, with the
    plugin's own reason: for a module that is not [__main__] and not
    skipped in package mode, neither the kind of the module, the mode, the
    profile feedback, the patterns nor an explicit request is looked at. *)
Theorem plugin_decision_is_final
        (module_filename module_name : string) (module_kind : option ModuleKind)
        (extra_recursion : bool) (decided : Decision * string) (s : Session) :
  decision_cache_sound env s ->
  module_name <> "__main__" ->
  (package_mode_main env module_name && in_root_package env module_name) = false ->
  onModuleEncounter env module_filename module_name module_kind = Normal (Some decided) ->
  _decideRecursion env module_filename module_name module_kind extra_recursion
  = Normal decided
  /\ outcome_of (decideRecursion env module_filename module_name module_kind
                   extra_recursion s)
     = Normal decided.
Proof.
  intros Hs Hmain Hpkg Hplugin.
  assert (Hd : _decideRecursion env module_filename module_name module_kind extra_recursion
               = Normal decided).
  { unfold _decideRecursion. rewrite (not_main_eqb _ Hmain), Hplugin.
    destruct (package_mode_main env module_name); cbn [andb] in Hpkg;
      [rewrite Hpkg|]; reflexivity. }
  split; [exact Hd|].
  destruct (decideRecursion_cached env s module_filename module_name module_kind
              extra_recursion Hs) as (-> & _).
  exact Hd.
Qed.

(** X24: the profile feedback overrules the command line: when it is
    consulted and renders a decision for a module that no earlier rule
    decided, that is the decision, with the reason [PGO based decision] -
    whatever the never-follow and follow patterns, an explicit request and
    the follow options say. *)
Theorem profile_feedback_overrules_options
        (module_filename module_name : string) (module_kind : option ModuleKind)
        (extra_recursion : bool) (pgo_decision : bool) (s : Session) :
  decision_cache_sound env s ->
  module_name <> "__main__" ->
  (package_mode_main env module_name && in_root_package env module_name) = false ->
  onModuleEncounter env module_filename module_name module_kind = Normal None ->
  module_kind <> Some extension ->
  pgo_consulted env module_filename module_name = true ->
  decideInclusionFromPGO env module_name module_kind = Some pgo_decision ->
  outcome_of (decideRecursion env module_filename module_name module_kind
                extra_recursion s)
  = Normal (Some pgo_decision, "PGO based decision").
Proof.
  intros Hs Hmain Hpkg Hplugin Hkind Hconsulted Hpgo.
  destruct (decideRecursion_cached env s module_filename module_name module_kind
              extra_recursion Hs) as (-> & _).
  unfold pgo_consulted in Hconsulted. apply andb_true_iff in Hconsulted as [Hguard Hmode].
  unfold _decideRecursion.
  rewrite (not_main_eqb _ Hmain), Hplugin, (is_extension_kind_false _ Hkind),
    Hguard, Hmode, Hpgo.
  destruct (package_mode_main env module_name); cbn [andb] in Hpkg;
    [rewrite Hpkg|]; reflexivity.
Qed.

(** X25: the main program is never included by the walker.  A path whose
    module name comes out as [__main__] is refused by the single path
    check, with the warning that names the reason: nothing is built, no
    plugin is asked about a recursion, the identity cache is unchanged and
    the call returns. *)
Theorem main_program_is_never_included
        (depth : nat) (plugin_filename : string) (module_package : option string)
        (module_kind : ModuleKind) (s : Session) :
  let filename := OsPath.abspath (cwd env) plugin_filename in
  ModuleName.makeModuleNameInPackage
    (fst (getModuleNameAndKindFromFilename env filename)) module_package = "__main__" ->
  snd (getModuleNameAndKindFromFilename env filename) = Some module_kind ->
  decision_cache_sound env s ->
  let run := checkPluginSinglePath env (S depth) plugin_filename module_package s in
  outcome_of run = Normal tt
  /\ imported_modules (session_of run) = imported_modules s
  /\ count is_build (log_of run) = 0
  /\ count is_hook (log_of run) = 0
  /\ count (is_warning_of
              (not_allowed_warning "__main__"
                 "Main program is not followed to a second time."))
       (log_of run) = 1.
Proof.
  intros filename Hname Hkind Hs run. subst run.
  assert (Hd : _decideRecursion env filename "__main__" (Some module_kind) true
               = Normal (Exclude, "Main program is not followed to a second time."))
    by reflexivity.
  cbn [checkPluginSinglePath]. fold filename. rewrite Hname, Hkind.
  destruct (isShowInclusion (options env));
    destruct (is_extension_kind (Some module_kind) && negb (isStandaloneMode (options env)));
    unfold when, warning, info, checkNameInPackage, bind, emit, ret; cbn [fst snd];
    rewrite (decideRecursion_stores env s filename "__main__" (Some module_kind) true _
               Hs Hd);
    unfold outcome_of, session_of, log_of, with_decision;
    cbn [fst snd decision_truth Exclude imported_modules app];
    repeat split; reflexivity.
Qed.

(** X26: a path that is no module is not decided.  When the kind of the
    path is unknown, the single path check decides nothing, builds nothing,
    warns about nothing and leaves the session as it is; only the
    show-inclusion line is logged.  Called without a parent package it
    returns in silence; called with one it ends in the [TypeError] of
    putting the package before the name that is not there. *)
Theorem non_module_file_is_not_decided
        (depth : nat) (plugin_filename : string) (module_package : option string)
        (s : Session) :
  let filename := OsPath.abspath (cwd env) plugin_filename in
  snd (getModuleNameAndKindFromFilename env filename) = None ->
  checkPluginSinglePath env (S depth) plugin_filename module_package s
  = (match module_package with
     | None => Normal tt
     | Some _ => Raised (TypeError none_name_message)
     end, s,
     EnterCheckPluginSinglePath plugin_filename module_package
     :: (if isShowInclusion (options env)
         then [LogInfo ("Checking detail plug-in path '" +:+ filename +:+ "' '"
                        +:+ str_of_option module_package +:+ "':")]
         else [])).
Proof.
  intros filename Hkind.
  cbn [checkPluginSinglePath]. fold filename. rewrite Hkind.
  replace (is_extension_kind None) with false by reflexivity.
  unfold when, warning, info, checkNameInPackage, raise, bind, emit, ret. cbn [andb].
  destruct (isShowInclusion (options env)); destruct module_package; reflexivity.
Qed.

End Precedence.

Lemma plugin_decision_is_final_witness :
  outcome_of (decideRecursion system_speed_world "/work/pkg/speed.so" "pkg.speed"
                (Some extension) true empty_session)
  = Normal (Exclude, "Provided by the system.").
Proof.
  apply (proj2 (plugin_decision_is_final system_speed_world "/work/pkg/speed.so"
                  "pkg.speed" (Some extension) true (Exclude, "Provided by the system.")
                  empty_session (decision_cache_sound_empty system_speed_world)
                  ltac:(discriminate) eq_refl eq_refl)).
Defined.

Lemma profile_feedback_overrules_options_witness :
  outcome_of (decideRecursion profiled_world "/work/pkg/a.py" "pkg.a" (Some py) false
                empty_session)
  = Normal (Include, "PGO based decision").
Proof.
  apply (profile_feedback_overrules_options profiled_world "/work/pkg/a.py" "pkg.a"
           (Some py) false true empty_session (decision_cache_sound_empty profiled_world)
           ltac:(discriminate) eq_refl eq_refl ltac:(discriminate) eq_refl eq_refl).
Defined.

Lemma main_program_is_never_included_witness :
  count is_build
    (log_of (checkPluginSinglePath (Demo.world (Demo.follow_all true)) 3
               "/work/__main__.py" None empty_session)) = 0.
Proof.
  apply (main_program_is_never_included (Demo.world (Demo.follow_all true)) 2
           "/work/__main__.py" None py empty_session eq_refl eq_refl
           (decision_cache_sound_empty (Demo.world (Demo.follow_all true)))).
Defined.

Lemma non_module_file_is_not_decided_witness :
  checkPluginSinglePath (Demo.world (Demo.follow_all true)) 3 "/work/pkg/data.txt"
    None empty_session
  = (Normal tt, empty_session, [EnterCheckPluginSinglePath "/work/pkg/data.txt" None])
  /\ checkPluginSinglePath (Demo.world (Demo.follow_all true)) 3 "/work/pkg/data.txt"
       (Some "pkg") empty_session
     = (Raised (TypeError none_name_message), empty_session,
        [EnterCheckPluginSinglePath "/work/pkg/data.txt" (Some "pkg")]).
Proof.
  split.
  - apply (non_module_file_is_not_decided (Demo.world (Demo.follow_all true)) 2
             "/work/pkg/data.txt" None empty_session eq_refl).
  - apply (non_module_file_is_not_decided (Demo.world (Demo.follow_all true)) 2
             "/work/pkg/data.txt" (Some "pkg") empty_session eq_refl).
Defined.

(** With the never-follow pattern [pkg.*] and no profile, the same module
    is excluded. *)
Example unprofiled_module_is_excluded :
  outcome_of (decideRecursion (Demo.world (Demo.with_patterns ["pkg.*"] []))
                "/work/pkg/a.py" "pkg.a" (Some py) false empty_session)
  = Normal (Exclude,
            "Module matches pattern 'pkg.*' instructed by user to not follow to.").
Proof. vm_compute. reflexivity. Qed.

(** ** A package and its init file *)

Section PackagePaths.

Variable env : Env.

Lemma append_assoc3 (a b c : string) : (a +:+ b) +:+ c = a +:+ (b +:+ c).
Proof.
  induction a as [|x a IH]; [reflexivity|].
  change (String x ((a +:+ b) +:+ c) = String x (a +:+ (b +:+ c))). f_equal. exact IH.
Qed.

Lemma rsplit_char_last (c : ascii) (head tail : string) :
  PyStr.rsplit_char c tail = None ->
  PyStr.rsplit_char c (head +:+ String c tail) = Some (head, tail).
Proof.
  intros Htail. induction head as [|x head IH].
  - change (PyStr.rsplit_char c (String c tail) = Some (EmptyString, tail)).
    cbn [PyStr.rsplit_char]. rewrite Htail, Ascii.eqb_refl. reflexivity.
  - change (PyStr.rsplit_char c (String x (head +:+ String c tail))
            = Some (String x head, tail)).
    cbn [PyStr.rsplit_char]. rewrite IH. reflexivity.
Qed.

Lemma all_char_ends_other (c last : ascii) (front rest : string) :
  last <> c -> PyStr.all_char c (front +:+ String last rest) = false.
Proof.
  intros Hlast. induction front as [|x front IH].
  - change (PyStr.all_char c (String last rest) = false).
    cbn [PyStr.all_char]. apply Ascii.eqb_neq in Hlast. rewrite Hlast. reflexivity.
  - change (PyStr.all_char c (String x (front +:+ String last rest)) = false).
    cbn [PyStr.all_char]. rewrite IH. apply andb_false_r.
Qed.

Lemma rstrip_char_one (c last : ascii) (front : string) :
  last <> c ->
  PyStr.rstrip_char c (front +:+ String last (String c EmptyString))
  = front +:+ String last EmptyString.
Proof.
  intros Hlast. induction front as [|x front IH].
  - change (PyStr.rstrip_char c (String last (String c EmptyString))
            = String last EmptyString).
    cbn [PyStr.rstrip_char]. rewrite Ascii.eqb_refl.
    apply Ascii.eqb_neq in Hlast. rewrite Hlast. reflexivity.
  - change (PyStr.rstrip_char c (String x (front +:+ String last (String c EmptyString)))
            = String x (front +:+ String last EmptyString)).
    cbn [PyStr.rstrip_char]. rewrite IH. destruct front; reflexivity.
Qed.

(** X27: a package directory and its init file are the same module path.
    For a directory path that does not end in a slash and is not itself
    named [__init__.py], [isSameModulePath] holds between the path of the
    init file inside it and the directory, in both orders and whatever the
    current directory is. *)
Theorem package_init_file_is_its_directory (front : string) (last : ascii) :
  let directory := front +:+ String last EmptyString in
  last <> "/"%char ->
  OsPath.basename directory <> "__init__.py" ->
  isSameModulePath env (directory +:+ "/__init__.py") directory = true
  /\ isSameModulePath env directory (directory +:+ "/__init__.py") = true.
Proof.
  intros directory Hlast Hbase.
  assert (Hsplit : PyStr.rsplit_char OsPath.sep (directory +:+ "/__init__.py")
                   = Some (directory, "__init__.py")).
  { apply (rsplit_char_last OsPath.sep directory "__init__.py"). reflexivity. }
  assert (Hb : OsPath.basename (directory +:+ "/__init__.py") = "__init__.py").
  { unfold OsPath.basename. rewrite Hsplit. reflexivity. }
  assert (Hd : OsPath.dirname (directory +:+ "/__init__.py") = directory).
  { assert (Hhead : directory +:+ "/"
                    = front +:+ String last (String OsPath.sep EmptyString)).
    { unfold directory. rewrite append_assoc3. reflexivity. }
    unfold OsPath.dirname. rewrite Hsplit. cbv zeta. rewrite Hhead.
    rewrite (all_char_ends_other OsPath.sep last front _ Hlast). cbn [negb].
    apply rstrip_char_one. exact Hlast. }
  apply String.eqb_neq in Hbase.
  unfold isSameModulePath. rewrite Hb, Hd, Hbase, !String.eqb_refl.
  split; reflexivity.
Qed.

End PackagePaths.

Lemma package_init_file_is_its_directory_witness :
  isSameModulePath (Demo.world Demo.default_options) "pkg/sub/__init__.py" "pkg/sub" = true.
Proof.
  apply (proj1 (package_init_file_is_its_directory (Demo.world Demo.default_options)
                  "pkg/su" "b"%char ltac:(discriminate) ltac:(discriminate))).
Defined.

(** A directory that is itself named like an init file is taken for one:
    its init file and it are different module paths. *)
Example directory_named_like_init_file :
  isSameModulePath (Demo.world Demo.default_options)
    "odd/__init__.py/__init__.py" "odd/__init__.py" = false.
Proof. vm_compute. reflexivity. Qed.
